(** * NutBinParser: a shallow embedding of [bag/simulation/nutbin.py]

    The parser reads a Spectre "nutbin" waveform dump: an ASCII header per
    analysis block followed by a big-endian binary payload.  Blocks are
    classified by their plot name, accumulated per (analysis type,
    simulation environment) and finally reconstructed into dense arrays.

    Conventions of the embedding.
    - A file, a line and a Python [str] are all values of [string]
      (sequences of 8-bit characters); [decode_ascii] is the only place where
      the difference between [bytes] and [str] is observable.
    - A Python exception is a value of [exn]; a function that may raise
      returns [result].  The spec's [FormatError] is the [ValueError] the
      source raises.
    - An IEEE-754 double is carried as its 64-bit pattern (a [Z]); the parser
      only moves samples around, it never computes on them.
    - A Python [dict] is an insertion-ordered association list with unique
      keys ([Py.dict]). *)

From Stdlib Require Import String Ascii List ZArith QArith Bool Arith Lia.
From Stdlib Require Import Sorted Permutation DecimalString DecimalNat FinFun.
Import ListNotations.

Local Open Scope string_scope.
Local Open Scope list_scope.
Local Open Scope nat_scope.

(** ** Exceptions and the error monad *)

Inductive exn : Type :=
| ValueError
| IndexError
| KeyError
| AttributeError
| NotImplementedError
| UnicodeDecodeError.

Inductive result (A : Type) : Type :=
| Ok (a : A)
| Raise (e : exn).

Arguments Ok {A} a.
Arguments Raise {A} e.

Definition bind {A B : Type} (r : result A) (k : A -> result B) : result B :=
  match r with
  | Ok a => k a
  | Raise e => Raise e
  end.

Notation "x <- c ;; k" := (bind c (fun x => k))
  (at level 61, c at next level, right associativity).
Notation "' p <- c ;; k" := (bind c (fun x => match x with p => k end))
  (at level 61, p pattern, c at next level, right associativity).

(** [for x in xs: acc = body(acc, x)], stopping at the first exception. *)
Fixpoint foldM {A S : Type} (body : S -> A -> result S) (xs : list A) (s : S)
  : result S :=
  match xs with
  | [] => Ok s
  | x :: xs' => s' <- body s x;; foldM body xs' s'
  end.

(** A list comprehension whose element expression may raise. *)
Fixpoint mapM {A B : Type} (f : A -> result B) (xs : list A) : result (list B) :=
  match xs with
  | [] => Ok []
  | x :: xs' => y <- f x;; ys <- mapM f xs';; Ok (y :: ys)
  end.

(** ** The fragment of Python the parser uses *)

Module Py.

Definition code (c : ascii) : nat := nat_of_ascii c.

(** Whitespace as [str.split()] sees it on ASCII text: TAB, LF, VT, FF, CR,
    the four separators 0x1c-0x1f and the space. *)
Definition isspace (c : ascii) : bool :=
  ((9 <=? code c) && (code c <=? 13)) || ((28 <=? code c) && (code c <=? 32)).

Definition isdigit (c : ascii) : bool := (48 <=? code c) && (code c <=? 57).

Definition isalpha (c : ascii) : bool :=
  ((65 <=? code c) && (code c <=? 90)) || ((97 <=? code c) && (code c <=? 122)).

Definition isalnum (c : ascii) : bool := isalpha c || isdigit c.

(** [\w] of [re] on ASCII text. *)
Definition isword (c : ascii) : bool := isalnum c || (code c =? 95).

Definition is_newline (c : ascii) : bool := code c =? 10.

(** Every character of [s] satisfies [p]. *)
Fixpoint forall_chars (p : ascii -> bool) (s : string) : bool :=
  match s with
  | EmptyString => true
  | String c s' => p c && forall_chars p s'
  end.

(** [bytes.decode('ascii')]. *)
Definition all_ascii (s : string) : bool :=
  forall_chars (fun c => code c <? 128) s.

Definition decode_ascii (s : string) : result string :=
  if all_ascii s then Ok s else Raise UnicodeDecodeError.

Fixpoint snoc (s : string) (c : ascii) : string :=
  match s with
  | EmptyString => String c EmptyString
  | String d s' => String d (snoc s' c)
  end.

(** [str.split()] with no argument: maximal runs of non-whitespace.  [cur] is
    the token being read, if any. *)
Fixpoint split_go (cur : option string) (s : string) : list string :=
  match s with
  | EmptyString =>
      match cur with
      | Some w => [w]
      | None => []
      end
  | String c s' =>
      if isspace c then
        match cur with
        | Some w => w :: split_go None s'
        | None => split_go None s'
        end
      else
        match cur with
        | Some w => split_go (Some (snoc w c)) s'
        | None => split_go (Some (String c EmptyString)) s'
        end
  end.

Definition split (s : string) : list string := split_go None s.

(** [xs[i]] for [i >= 0] and [xs[-1]]. *)
Definition getitem {A : Type} (xs : list A) (i : nat) : result A :=
  match nth_error xs i with
  | Some x => Ok x
  | None => Raise IndexError
  end.

Definition getitem_last {A : Type} (xs : list A) : result A :=
  match rev xs with
  | x :: _ => Ok x
  | [] => Raise IndexError
  end.

(** [int(tok)] on a token without whitespace: an optional sign, then decimal
    digits, single underscores allowed between digits. *)
Definition digit_val (c : ascii) : Z := Z.of_nat (code c - 48).

Fixpoint int_digits (acc : Z) (after_digit : bool) (s : string) : option Z :=
  match s with
  | EmptyString => if after_digit then Some acc else None
  | String c s' =>
      if isdigit c then int_digits (10 * acc + digit_val c)%Z true s'
      else if (code c =? 95) && after_digit then int_digits acc false s'
      else None
  end.

Definition int (tok : string) : result Z :=
  let unsigned (s : string) (sign : Z) :=
    match int_digits 0%Z false s with
    | Some n => Ok (sign * n)%Z
    | None => Raise ValueError
    end in
  match tok with
  | String c s' =>
      if code c =? 45 then unsigned s' (-1)%Z
      else if code c =? 43 then unsigned s' 1%Z
      else unsigned tok 1%Z
  | EmptyString => Raise ValueError
  end.

(** [str(n)] of a non-negative integer. *)
Definition str_of_nat (n : nat) : string :=
  NilZero.string_of_uint (Nat.to_uint n).

Definition startswith (s p : string) : bool := String.prefix p s.

(** [s.replace(a, b)] for single characters. *)
Fixpoint replace (a b : ascii) (s : string) : string :=
  match s with
  | EmptyString => EmptyString
  | String c s' => String (if Ascii.eqb c a then b else c) (replace a b s')
  end.

(** [s[1:-1]] and [s[-3:]]. *)
Definition strip_ends (s : string) : string :=
  String.substring 1 (String.length s - 2) s.

Definition last3 (s : string) : string :=
  String.substring (String.length s - 3) 3 s.

(** Maximal prefix of characters satisfying [p], and what follows it. *)
Fixpoint span (p : ascii -> bool) (s : string) : string * string :=
  match s with
  | EmptyString => (EmptyString, EmptyString)
  | String c s' =>
      if p c then let (w, r) := span p s' in (String c w, r)
      else (EmptyString, s)
  end.

(** *** Insertion-ordered dictionaries *)

Definition dict (V : Type) : Type := list (string * V).

Fixpoint get {V : Type} (d : dict V) (k : string) : option V :=
  match d with
  | [] => None
  | (k', v) :: d' => if String.eqb k' k then Some v else get d' k
  end.

(** [d[k] = v]: an existing key keeps its position, a new one goes last. *)
Fixpoint set {V : Type} (d : dict V) (k : string) (v : V) : dict V :=
  match d with
  | [] => [(k, v)]
  | (k', v') :: d' =>
      if String.eqb k' k then (k', v) :: d' else (k', v') :: set d' k v
  end.

Definition keys {V : Type} (d : dict V) : list string := map fst d.

Definition contains {V : Type} (d : dict V) (k : string) : bool :=
  match get d k with
  | Some _ => true
  | None => false
  end.

(** [d.update(e)]. *)
Definition update {V : Type} (d e : dict V) : dict V :=
  fold_left (fun acc kv => set acc (fst kv) (snd kv)) e d.

(** [d[k]] as an expression. *)
Definition lookup {V : Type} (d : dict V) (k : string) : result V :=
  match get d k with
  | Some v => Ok v
  | None => Raise KeyError
  end.

(** [sorted(keys)]: code-point order.  The keys of a dictionary are pairwise
    distinct, so the stable sort Python runs and this insertion sort agree. *)
Fixpoint insert_sorted (k : string) (l : list string) : list string :=
  match l with
  | [] => [k]
  | x :: l' => if String.leb k x then k :: l else x :: insert_sorted k l'
  end.

Fixpoint sorted (l : list string) : list string :=
  match l with
  | [] => []
  | k :: l' => insert_sorted k (sorted l')
  end.

(** [enumerate]. *)
Fixpoint enumerate_from {A : Type} (i : nat) (xs : list A) : list (nat * A) :=
  match xs with
  | [] => []
  | x :: xs' => (i, x) :: enumerate_from (S i) xs'
  end.

Definition enumerate {A : Type} (xs : list A) : list (nat * A) :=
  enumerate_from 0 xs.

End Py.

(** ** The fragment of NumPy the parser uses *)

Module Np.

Inductive dtype : Type :=
| float64
| complex128.

(** One array element: a double (its bit pattern) or a complex number (the
    bit patterns of its real and imaginary parts). *)
Inductive sample : Type :=
| Fl (bits : Z)
| Cx (re im : Z).

(** Bit pattern of the quiet NaN that [np.nan] is. *)
Definition nan_bits : Z := 9221120237041090560%Z.   (* 0x7FF8000000000000 *)

(** [np.nan] written into an array of the given dtype. *)
Definition nan (dt : dtype) : sample :=
  match dt with
  | float64 => Fl nan_bits
  | complex128 => Cx nan_bits 0
  end.

(** Conversion of an element on assignment into an array of dtype [dt]:
    a double becomes a complex number with a zero imaginary part. *)
Definition astype (dt : dtype) (x : sample) : sample :=
  match dt, x with
  | complex128, Fl b => Cx b 0
  | _, _ => x
  end.

Definition real_part (x : sample) : sample :=
  match x with
  | Fl b => Fl b
  | Cx re _ => Fl re
  end.

(** A one-dimensional array: what the block reader produces per variable. *)
Record vec : Type := mkvec { vdtype : dtype; vdata : list sample }.

(** An N-dimensional array in C (row-major) order. *)
Record ndarray : Type :=
  mkarr { dtype_of : dtype; shape : list nat; flat : list sample }.

Definition size (v : vec) : nat := length (vdata v).

Definition of_vec (v : vec) : ndarray :=
  mkarr (vdtype v) [size v] (vdata v).

(** [np.real(v)]. *)
Definition real (v : vec) : vec :=
  match vdtype v with
  | float64 => v
  | complex128 => mkvec float64 (map real_part (vdata v))
  end.

(** *** Reading the binary payload *)

(** [n] bytes read as one big-endian unsigned number. *)
Fixpoint read_be (n : nat) (acc : Z) (f : string) : option (Z * string) :=
  match n with
  | O => Some (acc, f)
  | S n' =>
      match f with
      | EmptyString => None
      | String c f' => read_be n' (acc * 256 + Z.of_nat (Py.code c))%Z f'
      end
  end.

Definition itemsize (dt : dtype) : nat :=
  match dt with
  | float64 => 8
  | complex128 => 16
  end.

Definition read_sample (dt : dtype) (f : string) : option (sample * string) :=
  match dt with
  | float64 =>
      match read_be 8 0 f with
      | Some (b, f') => Some (Fl b, f')
      | None => None
      end
  | complex128 =>
      match read_be 8 0 f with
      | Some (re, f') =>
          match read_be 8 0 f' with
          | Some (im, f'') => Some (Cx re im, f'')
          | None => None
          end
      | None => None
      end
  end.

(** At most [count] items; a short file yields the complete items it holds
    and leaves the stream at its end. *)
Fixpoint read_samples (dt : dtype) (count : nat) (f : string)
  : list sample * string :=
  match count with
  | O => ([], f)
  | S k =>
      match read_sample dt f with
      | Some (x, f') => let (xs, r) := read_samples dt k f' in (x :: xs, r)
      | None => ([], EmptyString)
      end
  end.

(** [np.fromfile(f, dtype=np.dtype(nptype).newbyteorder(">"), count=count)]:
    a negative [count] reads every item that is left. *)
Definition fromfile (dt : dtype) (count : Z) (f : string) : list sample * string :=
  if (count <? 0)%Z
  then read_samples dt (String.length f / itemsize dt) f
  else read_samples dt (Z.to_nat count) f.

(** [a[idx::step]] for [step >= 1]: [wait] elements are skipped before the
    next one is taken. *)
Fixpoint every {A : Type} (step wait : nat) (l : list A) : list A :=
  match l with
  | [] => []
  | x :: l' =>
      match wait with
      | O => x :: every step (step - 1) l'
      | S w => every step w l'
      end
  end.

Definition slice_from {A : Type} (idx step : nat) (l : list A) : list A :=
  every step idx l.

(** *** Padding, stacking, reshaping *)

(** [np.pad(v, (0, k), constant_values=np.nan)]. *)
Definition pad_right (v : vec) (k : nat) : vec :=
  mkvec (vdtype v) (vdata v ++ repeat (nan (vdtype v)) k).

(** Type promotion over the arrays being stacked. *)
Definition promote (a b : dtype) : dtype :=
  match a, b with
  | float64, float64 => float64
  | _, _ => complex128
  end.

Definition result_type (vs : list vec) : dtype :=
  fold_right (fun v dt => promote (vdtype v) dt) float64 vs.

(** [np.stack(vs)] of one-dimensional arrays: they must be at least one and
    of one length. *)
Definition stack (vs : list vec) : result ndarray :=
  match vs with
  | [] => Raise ValueError
  | v :: _ =>
      if forallb (fun w => size w =? size v) vs then
        let dt := result_type vs in
        Ok (mkarr dt [length vs; size v]
                  (concat (map (fun w => map (astype dt) (vdata w)) vs)))
      else Raise ValueError
  end.

Definition prod (sh : list nat) : nat := fold_right Nat.mul 1 sh.

(** [np.reshape(a, sh)]: the element count must be preserved. *)
Definition reshape (a : ndarray) (sh : list nat) : result ndarray :=
  if prod sh =? length (flat a)
  then Ok (mkarr (dtype_of a) sh (flat a))
  else Raise ValueError.

(** Row-major offset of a multi-index, [None] when it is out of bounds or of
    the wrong rank. *)
Fixpoint offset (sh idx : list nat) (acc : nat) : option nat :=
  match sh, idx with
  | [], [] => Some acc
  | d :: sh', i :: idx' =>
      if i <? d then offset sh' idx' (acc * d + i) else None
  | _, _ => None
  end.

(** [a[i1, ..., ik]] where [k] is one less than the rank: the vector along
    the last axis at the outer coordinate [idx]. *)
Definition row (a : ndarray) (idx : list nat) : option (list sample) :=
  match rev (shape a) with
  | [] => None
  | inner :: outer_rev =>
      match offset (rev outer_rev) idx 0 with
      | Some k => Some (firstn inner (skipn (k * inner) (flat a)))
      | None => None
      end
  end.

(** *** [np.linspace(start, stop, num, dtype=int)]

    NumPy computes [start + k * ((stop - start) / (num - 1))] in doubles,
    stores [stop] in the last slot, and floors on conversion to the integer
    dtype (releases before 1.20 truncated toward zero instead).  The model uses exact integer arithmetic; both agree whenever
    [num - 1] divides [stop - start] and whenever [num <= 2], which covers
    every use the theorems below evaluate. *)
Definition linspace_int (start stop : Z) (num : nat) : list Z :=
  map (fun k =>
         if (num =? 1)%nat then start
         else if (S k =? num)%nat then stop
         else (start + (Z.of_nat k * (stop - start)) / Z.of_nat (num - 1))%Z)
      (seq 0 num).

End Np.

(** ** The parser *)

(** *** Block reader ([parse_analysis], lines 74-107) *)

(** [f.readline()]: the line with its terminator, and the rest of the
    stream; the empty string at the end of the file. *)
Fixpoint readline (f : string) : string * string :=
  match f with
  | EmptyString => (EmptyString, EmptyString)
  | String c f' =>
      if Py.is_newline c then (String c EmptyString, f')
      else let (l, r) := readline f' in (String c l, r)
  end.

(** [f.readline().decode('ascii').split()]. *)
Definition read_tokens (f : string) : result (list string * string) :=
  let (l, f') := readline f in
  s <- Py.decode_ascii l;;
  Ok (Py.split s, f').

(** Lines 77-82: the value kind named by the type-flag token. *)
Definition flag_dtype (tok : string) : result Np.dtype :=
  if String.eqb tok "real" then Ok Np.float64
  else if String.eqb tok "complex" then Ok Np.complex128
  else Raise ValueError.

(** Lines 89-95: one line per variable; the name is field 2 of the first line
    and field 1 of the others. *)
Fixpoint read_var_names (n idx : nat) (f : string)
  : result (list string * string) :=
  match n with
  | O => Ok ([], f)
  | S n' =>
      '(_line, f') <- read_tokens f;;
      name <- Py.getitem _line (if idx =? 0 then 2 else 1);;
      '(names, f'') <- read_var_names n' (S idx) f';;
      Ok (name :: names, f'')
  end.

(** Lines 100-105: de-interleaving.  [num_vars] is positive whenever there is
    a name to store. *)
Definition column (nptype : Np.dtype) (bin_data : list Np.sample)
  (num_vars idx : nat) (var_name : string) : Np.vec :=
  let col := Np.mkvec nptype (Np.slice_from idx num_vars bin_data) in
  if String.eqb var_name "freq" then Np.real col else col.

Definition columns (nptype : Np.dtype) (bin_data : list Np.sample)
  (num_vars : nat) (var_names : list string) : Py.dict Np.vec :=
  fold_left
    (fun data iv => Py.set data (snd iv)
                      (column nptype bin_data num_vars (fst iv) (snd iv)))
    (Py.enumerate var_names) [].

Definition parse_analysis (f : string) : result (Py.dict Np.vec * string) :=
  '(flags, f1) <- read_tokens f;;
  tok <- Py.getitem flags 1;;
  nptype <- flag_dtype tok;;
  '(l2, f2) <- read_tokens f1;;
  t2 <- Py.getitem_last l2;;
  num_vars <- Py.int t2;;
  '(l3, f3) <- read_tokens f2;;
  t3 <- Py.getitem_last l3;;
  num_points <- Py.int t3;;
  '(var_names, f4) <- read_var_names (Z.to_nat num_vars) 0 f3;;
  let (_, f5) := readline f4 in
  let (bin_data, f6) := Np.fromfile nptype (num_vars * num_points)%Z f5 in
  Ok (columns nptype bin_data (Z.to_nat num_vars) var_names, f6).

(** *** Plot-name classifier ([get_info_from_plotname], lines 110-149) *)

(** The longest prefix of the current line that ends with an apostrophe. *)
Fixpoint upto_last_quote (s : string) : option string :=
  match s with
  | EmptyString => None
  | String c s' =>
      if Py.is_newline c then None
      else
        match upto_last_quote s' with
        | Some r => Some (String c r)
        | None =>
            if Py.code c =? 39 then Some (String c EmptyString) else None
        end
  end.

(** [re.search] of a back-tick, any characters of the line, an apostrophe:
    group 0 of the leftmost, longest match. *)
Fixpoint search_quoted (s : string) : option string :=
  match s with
  | EmptyString => None
  | String c s' =>
      if Py.code c =? 96 then
        match upto_last_quote s' with
        | Some r => Some (String c r)
        | None => search_quoted s'
        end
      else search_quoted s'
  end.

(** [([a-zA-Z]+)__([a-zA-Z0-9]+_[a-zA-Z0-9]+)] anchored at the start of [s]:
    groups 1 and 2.  Each class excludes the character that must follow its
    run, so a greedy run never gives characters back. *)
Definition match_type_env (s : string) : option (string * string) :=
  let (ty, r1) := Py.span Py.isalpha s in
  match ty, r1 with
  | String _ _, String u1 (String u2 r2) =>
      if (Py.code u1 =? 95) && (Py.code u2 =? 95) then
        let (e1, r3) := Py.span Py.isalnum r2 in
        match e1, r3 with
        | String _ _, String u3 r4 =>
            if Py.code u3 =? 95 then
              let (e2, _) := Py.span Py.isalnum r4 in
              match e2 with
              | String _ _ => Some (ty, (e1 ++ "_" ++ e2)%string)
              | EmptyString => None
              end
            else None
        | _, _ => None
        end
      else None
  | _, _ => None
  end.

Fixpoint search_type_env (s : string) : option (string * string) :=
  match match_type_env s with
  | Some r => Some r
  | None =>
      match s with
      | EmptyString => None
      | String _ s' => search_type_env s'
      end
  end.

(** [: (\w+) =] anchored at the start of [s]: group 1. *)
Definition match_inner (s : string) : option string :=
  match s with
  | String c1 (String c2 r) =>
      if (Py.code c1 =? 58) && (Py.code c2 =? 32) then
        let (w, r') := Py.span Py.isword r in
        match w, r' with
        | String _ _, String c3 (String c4 _) =>
            if (Py.code c3 =? 32) && (Py.code c4 =? 61) then Some w else None
        | _, _ => None
        end
      else None
  | _ => None
  end.

Fixpoint search_inner (s : string) : option string :=
  match match_inner s with
  | Some w => Some w
  | None =>
      match s with
      | EmptyString => None
      | String _ s' => search_inner s'
      end
  end.

(** [s] starts with [n] decimal digits: they, and what follows. *)
Fixpoint digits (n : nat) (s : string) : option (string * string) :=
  match n with
  | O => Some (EmptyString, s)
  | S n' =>
      match s with
      | String c s' =>
          if Py.isdigit c then
            match digits n' s' with
            | Some (d, r) => Some (String c d, r)
            | None => None
            end
          else None
      | EmptyString => None
      end
  end.

(** [swp[0-9]{2}] anchored at the start of [s]. *)
Definition match_swp (s : string) : option string :=
  if String.prefix "swp" s then
    match digits 2 (String.substring 3 (String.length s - 3) s) with
    | Some (d, _) => Some ("swp" ++ d)%string
    | None => None
    end
  else None.

(** [swp[0-9]{2}-[0-9]{3}] anchored at the start of [s]. *)
Definition match_swp_idx (s : string) : option string :=
  if String.prefix "swp" s then
    match digits 2 (String.substring 3 (String.length s - 3) s) with
    | Some (d, String c r) =>
        if Py.code c =? 45 then
          match digits 3 r with
          | Some (i, _) => Some ("swp" ++ d ++ "-" ++ i)%string
          | None => None
          end
        else None
    | _ => None
    end
  else None.

(** [re.findall]: the non-overlapping matches, left to right.  [skip] counts
    the characters of the last match still to step over. *)
Fixpoint findall (m : string -> option string) (skip : nat) (s : string)
  : list string :=
  match s with
  | EmptyString => []
  | String _ s' =>
      match skip with
      | S k => findall m k s'
      | O =>
          match m s with
          | Some t => t :: findall m (String.length t - 1) s'
          | None => findall m 0 s'
          end
      end
  end.

Record PlotnameInfo : Type := mkinfo {
  ana_name : string;
  sim_env : string;
  ana_type : string;
  swp_info : list string;
  swp_combo : list Z;
  inner_sweep : string
}.

Definition get_info_from_plotname (plotname : string) : result PlotnameInfo :=
  quoted <- match search_quoted plotname with
            | Some q => Ok q
            | None => Raise AttributeError
            end;;
  let ana_name := Py.strip_ends quoted in
  let m := search_type_env ana_name in
  ana_type0 <- match m with
               | Some (ty, _) => Ok ty
               | None => Raise AttributeError
               end;;
  let inner_sweep := match search_inner plotname with
                     | Some w => w
                     | None => EmptyString
                     end in
  ana_type <- (if String.eqb ana_type0 "pss" then
                 if String.eqb inner_sweep "freq" then Ok "pss_fd"
                 else if String.eqb inner_sweep "time" then Ok "pss_td"
                 else Raise NotImplementedError
               else Ok ana_type0);;
  let m_swp := findall match_swp 0 ana_name in
  let m_swp1 := findall match_swp_idx 0 ana_name in
  swp_combo <- mapM (fun val => Py.int (Py.last3 val)) m_swp1;;
  sim_env <- match m with
             | Some (_, env) => Ok env
             | None => Raise AttributeError
             end;;
  Ok (mkinfo ana_name sim_env ana_type m_swp swp_combo inner_sweep).

(** *** Accumulator ([populate_dict], lines 151-175) *)

(** One (analysis type, simulation environment) group:
    [{'data': [...], 'swp_combos': [...], 'inner_sweep': ...}]. *)
Record group : Type := mkgroup {
  data : list (Py.dict Np.vec);
  swp_combos : list (list Z);
  g_inner_sweep : string
}.

Definition populate_dict (monte_carlo : bool) (ana_dict : Py.dict (Py.dict group))
  (plotname : string) (blk : Py.dict Np.vec)
  : result (Py.dict (Py.dict group)) :=
  info <- get_info_from_plotname plotname;;
  if monte_carlo && negb (Py.startswith (ana_name info) "__mc_") then
    Ok ana_dict
  else
    let envs := match Py.get ana_dict (ana_type info) with
                | Some e => e
                | None => []
                end in
    let g := match Py.get envs (sim_env info) with
             | Some g => g
             | None => mkgroup [] [] (inner_sweep info)
             end in
    let combos := match swp_combo info with
                  | [] => swp_combos g
                  | _ :: _ => swp_combos g ++ [swp_combo info]
                  end in
    let g' := mkgroup (data g ++ [blk]) combos (g_inner_sweep g) in
    Ok (Py.set ana_dict (ana_type info) (Py.set envs (sim_env info) g')).

(** *** The read loop ([parse_raw_file], lines 57-71)

    Every iteration consumes the plot-name line, which is not empty, so the
    length of the stream bounds the number of iterations; [None] stands for
    an exhausted bound and never arises from [parse_raw_file]. *)
Fixpoint read_blocks (fuel : nat) (monte_carlo : bool)
  (ana_dict : Py.dict (Py.dict group)) (f : string)
  : option (result (Py.dict (Py.dict group))) :=
  match fuel with
  | O => None
  | S fuel' =>
      let (l, f1) := readline f in
      match Py.decode_ascii l with
      | Raise e => Some (Raise e)
      | Ok plotname =>
          if String.length plotname =? 0 then Some (Ok ana_dict)
          else
            match parse_analysis f1 with
            | Raise e => Some (Raise e)
            | Ok (blk, f2) =>
                match populate_dict monte_carlo ana_dict plotname blk with
                | Raise e => Some (Raise e)
                | Ok ana_dict' => read_blocks fuel' monte_carlo ana_dict' f2
                end
            end
      end
  end.

Definition parse_raw_file (monte_carlo : bool) (contents : string)
  : option (result (Py.dict (Py.dict group))) :=
  let (_, f1) := readline contents in
  let (_, f2) := readline f1 in
  read_blocks (S (String.length f2)) monte_carlo [] f2.

(** *** Reconstructor ([convert_to_analysis_data], lines 221-292) *)

(** What an entry of the output mapping holds: a per-axis coordinate array
    returned by the grid detector, the Python list [swp_combo_list] of
    coordinate arrays, or a signal array. *)
Inductive value : Type :=
| VCoord (v : list Z)
| VCoordList (vs : list (list Z))
| VArray (a : Np.ndarray).

Record AnalysisData : Type := mkana {
  sweep_params : list string;
  ana_data : Py.dict value;
  is_md : bool
}.

(** The grid detector [_check_is_md] lives in [bag/simulation/data.py]; the
    parser calls it as [_check_is_md(1, swp_combo_list, rtol, atol, None)].
    It is a parameter of the reconstructor: the coordinate vectors and the
    two tolerances in, a grid shape with per-axis coordinates or nothing
    out. *)
Definition detector : Type :=
  list (list Z) -> Q -> Q -> option (list nat * list (list Z)).

(** [[np.array(swp_combos)[:, i] for i in range(num_swp)]]: the rows must
    all have [num_swp] entries for the two-dimensional array to exist.
    NumPy refuses ragged rows with [ValueError]; releases before 1.24 built
    a one-dimensional array of lists instead and failed at the column index
    with [IndexError]. *)
Definition combo_columns (rows : list (list Z)) (num_swp : nat)
  : result (list (list Z)) :=
  if forallb (fun r => length r =? num_swp) rows then
    Ok (map (fun i => map (fun r => nth i r 0%Z) rows) (seq 0 num_swp))
  else Raise ValueError.

(** Lines 226-251: sweep variable names, [swp_len] and [swp_combo_list]. *)
Definition sweep_info (monte_carlo : bool) (nb_dict : group) (ana_type : string)
  : result (list string * nat * list (list Z)) :=
  '(swp_vars, swp_len, swp_combo_list) <-
    match swp_combos nb_dict with
    | c :: _ =>
        let num_swp := length c in
        cols <- combo_columns (swp_combos nb_dict) num_swp;;
        Ok (map (fun idx => ("sweep" ++ Py.str_of_nat idx)%string) (seq 0 num_swp),
            length (swp_combos nb_dict), cols)
    | [] => Ok ([], 0, [])
    end;;
  let '(swp_vars, swp_len, swp_combo_list) :=
    if monte_carlo then
      let n := length (data nb_dict) in
      (["monte_carlo"], n, [Np.linspace_int 0 (Z.of_nat n - 1) n])
    else (swp_vars, swp_len, swp_combo_list) in
  let '(swp_vars, swp_len, swp_combo_list) :=
    if String.eqb ana_type "pac" then
      let n := length (data nb_dict) in
      let harmonics := Z.of_nat (n / 2) in
      (["harmonic"], n, [Np.linspace_int (- harmonics) harmonics n])
    else (swp_vars, swp_len, swp_combo_list) in
  Ok (swp_vars, swp_len, swp_combo_list).

(** Lines 253-260: the outer shape and the coordinate entries of the output
    mapping. *)
Definition sweep_shape (check_is_md : detector) (rtol atol : Q)
  (swp_vars : list string) (swp_len : nat) (swp_combo_list : list (list Z))
  : result (bool * Py.dict value * list nat) :=
  match check_is_md swp_combo_list rtol atol with
  | Some (swp_shape, swp_vals) =>
      swp_combo <- foldM (fun d iv =>
                            v <- Py.getitem swp_vals (fst iv);;
                            Ok (Py.set d (snd iv) (VCoord v)))
                         (Py.enumerate swp_vars) [];;
      Ok (true, swp_combo, swp_shape)
  | None =>
      Ok (false,
          fold_left (fun d var => Py.set d var (VCoordList swp_combo_list))
                    swp_vars [],
          [swp_len])
  end.

Definition slash : ascii := ascii_of_nat 47.
Definition dot : ascii := ascii_of_nat 46.

(** [data[_new_sig] = a]. *)
Definition store (out : Py.dict value) (entry : string * Np.ndarray)
  : Py.dict value :=
  Py.set out (fst entry) (VArray (snd entry)).

(** Lines 264-267: the entry a signal of run 0 gets when there is no outer
    sweep. *)
Definition single_signal (inner_sweep : string) (swp_shape : list nat)
  (item : string * Np.vec) : result (string * Np.ndarray) :=
  let (sig_name, sig_y) := item in
  let data_shape := swp_shape ++ [Np.size sig_y] in
  let _new_sig := Py.replace slash dot sig_name in
  if String.eqb _new_sig inner_sweep then Ok (_new_sig, Np.of_vec sig_y)
  else
    a <- Np.reshape (Np.of_vec sig_y) data_shape;;
    Ok (_new_sig, a).

Definition all_same_len (sub_dims : list nat) : bool :=
  match sub_dims with
  | [] => true
  | d0 :: _ => forallb (fun d => d =? d0) sub_dims
  end.

(** Line 271: the signal's vector in each of the first [swp_len] runs. *)
Definition gather (runs : list (Py.dict Np.vec)) (swp_len : nat)
  (sig_name : string) : result (list Np.vec) :=
  mapM (fun i => run <- Py.getitem runs i;; Py.lookup run sig_name)
       (seq 0 swp_len).

(** Lines 272-287: the entry a signal gets when it is combined over the
    [swp_len] runs of an outer sweep. *)
Definition combined_signal (runs : list (Py.dict Np.vec)) (inner_sweep : string)
  (swp_len : nat) (swp_shape : list nat) (sig_name : string)
  : result (string * Np.ndarray) :=
  yvecs <- gather runs swp_len sig_name;;
  let sub_dims := map Np.size yvecs in
  let max_dim := fold_right Nat.max 0 sub_dims in
  let is_same_len := all_same_len sub_dims in
  let data_shape := swp_shape ++ [max_dim] in
  let _new_sig := Py.replace slash dot sig_name in
  if negb is_same_len then
    let yvecs_padded :=
      map (fun yd => Np.pad_right (fst yd) (max_dim - snd yd))
          (combine yvecs sub_dims) in
    sig_y <- Np.stack yvecs_padded;;
    a <- Np.reshape sig_y data_shape;;
    Ok (_new_sig, a)
  else if String.eqb _new_sig inner_sweep then
    y0 <- Py.getitem yvecs 0;;
    Ok (_new_sig, Np.of_vec y0)
  else
    sig_y <- Np.stack yvecs;;
    a <- Np.reshape sig_y data_shape;;
    Ok (_new_sig, a).

(** The loop over the signals of run 0: each computes its entry and stores
    it. *)
Definition store_all {A : Type} (entry : A -> result (string * Np.ndarray))
  (xs : list A) (out : Py.dict value) : result (Py.dict value) :=
  foldM (fun acc x => e <- entry x;; Ok (store acc e)) xs out.

(** Lines 289-290: [if inner_sweep: swp_vars.append(inner_sweep)]. *)
Definition with_inner (swp_vars : list string) (inner : string) : list string :=
  if String.eqb inner "" then swp_vars else swp_vars ++ [inner].

Definition convert_to_analysis_data (check_is_md : detector)
  (monte_carlo : bool) (nb_dict : group) (rtol atol : Q) (ana_type : string)
  : result AnalysisData :=
  let inner_sweep := g_inner_sweep nb_dict in
  '(swp_vars, swp_len, swp_combo_list) <- sweep_info monte_carlo nb_dict ana_type;;
  '(is_md, swp_combo, swp_shape) <-
    sweep_shape check_is_md rtol atol swp_vars swp_len swp_combo_list;;
  let out := Py.update [] swp_combo in
  run0 <- Py.getitem (data nb_dict) 0;;
  out' <- (if swp_len =? 0 then
             store_all (single_signal inner_sweep swp_shape) run0 out
           else
             store_all (combined_signal (data nb_dict) inner_sweep swp_len swp_shape)
                       (Py.keys run0) out);;
  Ok (mkana ("corner" :: with_inner swp_vars inner_sweep) out' is_md).

(** *** Assembler ([convert_to_sim_data], lines 210-219) *)

Inductive DesignOutput : Type := SPECTRE.

Record SimData (T : Type) : Type := mksim {
  sim_envs : list string;
  sim_ana_dict : Py.dict T;
  sim_netlist_type : DesignOutput
}.

Arguments mksim {T} _ _ _.
Arguments sim_envs {T} _.
Arguments sim_ana_dict {T} _.
Arguments sim_netlist_type {T} _.

(** [combine_ana_sim_envs] lives in [bag/simulation/srr.py]; it is a
    parameter of the assembler, and so is the type [T] of what it builds. *)
Definition combiner (T : Type) : Type :=
  Py.dict AnalysisData -> list string -> result T.

(** The body of the loop over analysis types; the state is
    [(ana_dict, sim_envs)]. *)
Definition convert_ana_type {T : Type} (check_is_md : detector)
  (combine_ana_sim_envs : combiner T) (monte_carlo : bool) (rtol atol : Q)
  (st : Py.dict T * list string) (item : string * Py.dict group)
  : result (Py.dict T * list string) :=
  let (ana_type, sim_env_dict) := item in
  let sim_envs := Py.sorted (Py.keys sim_env_dict) in
  sub_ana_dict <-
    foldM (fun d env_nb =>
             a <- convert_to_analysis_data check_is_md monte_carlo
                    (snd env_nb) rtol atol ana_type;;
             Ok (Py.set d (fst env_nb) a))
          sim_env_dict [];;
  combined <- combine_ana_sim_envs sub_ana_dict sim_envs;;
  Ok (Py.set (fst st) ana_type combined, sim_envs).

Definition convert_to_sim_data {T : Type} (check_is_md : detector)
  (combine_ana_sim_envs : combiner T) (monte_carlo : bool)
  (nb_data : Py.dict (Py.dict group)) (rtol atol : Q) : result (SimData T) :=
  '(ana_dict, sim_envs) <-
    foldM (convert_ana_type check_is_md combine_ana_sim_envs monte_carlo rtol atol)
          nb_data ([], []);;
  Ok (mksim sim_envs ana_dict SPECTRE).

(** ** Definitions that follow the specification *)

Module Spec.

(** Tolerant equality of two coordinates, as NumPy's [isclose] has it. *)
Definition isclose (rtol atol : Q) (a b : Z) : bool :=
  Qle_bool (inject_Z (Z.abs (a - b))) (atol + rtol * inject_Z (Z.abs b)).

(** The distinct values of one coordinate vector, in increasing order. *)
Fixpoint insert_axis (close : Z -> Z -> bool) (x : Z) (l : list Z) : list Z :=
  match l with
  | [] => [x]
  | y :: l' =>
      if close x y then l
      else if (x <? y)%Z then x :: l
      else y :: insert_axis close x l'
  end.

Definition axis_values (close : Z -> Z -> bool) (v : list Z) : list Z :=
  fold_left (fun acc x => insert_axis close x acc) v [].

Definition same_tuple (close : Z -> Z -> bool) (s t : list Z) : bool :=
  forallb (fun ab => close (fst ab) (snd ab)) (combine s t).

Fixpoint distinct (close : Z -> Z -> bool) (ts : list (list Z)) : bool :=
  match ts with
  | [] => true
  | t :: ts' => negb (existsb (same_tuple close t) ts') && distinct close ts'
  end.

(** Modelled from the spec: the grid detector [_check_is_md] of
    [bag/simulation/data.py], which the parser imports.  Section 6 gives its
    interface and the glossary its meaning: the coordinate tuples of the runs
    must form a complete Cartesian product; the answer is the shape of that
    product and the coordinate values of each axis, or nothing when the
    tuples are irregular or there are none. *)
Definition check_is_md (vectors : list (list Z)) (rtol atol : Q)
  : option (list nat * list (list Z)) :=
  match vectors with
  | [] => None
  | v0 :: _ =>
      let n := length v0 in
      let close := isclose rtol atol in
      let axes := map (axis_values close) vectors in
      let shape := map (@length Z) axes in
      let tuples := map (fun k => map (fun v => nth k v 0%Z) vectors) (seq 0 n) in
      if forallb (fun v => length v =? n) vectors
         && (Np.prod shape =? n) && distinct close tuples
      then Some (shape, axes)
      else None
  end.

(** The file layout of section 6, written out for one block. *)
Record block : Type := mkblock {
  b_dtype : Np.dtype;
  b_names : list string;
  b_points : nat;
  b_payload : list Np.sample
}.

Definition newline : ascii := ascii_of_nat 10.
Definition tab : ascii := ascii_of_nat 9.
Definition space : ascii := ascii_of_nat 32.

Definition nl : string := String newline EmptyString.

(** The tokens of a header line with one separator between them. *)
Fixpoint join (sep : ascii) (toks : list string) : string :=
  match toks with
  | [] => EmptyString
  | [t] => t
  | t :: toks' => (t ++ String sep (join sep toks'))%string
  end.

(** A header line: its tokens, a separator in front of them when [lead] is
    set, and the line terminator. *)
Definition header_line (sep : ascii) (lead : bool) (toks : list string) : string :=
  ((if lead then String sep EmptyString else EmptyString)
   ++ join sep toks ++ nl)%string.

(** [n] bytes, most significant first. *)
Fixpoint be_bytes (n : nat) (x : Z) : string :=
  match n with
  | O => EmptyString
  | S n' =>
      String (ascii_of_nat (Z.to_nat ((x / 256 ^ Z.of_nat n') mod 256)))
             (be_bytes n' x)
  end.

Definition encode_sample (x : Np.sample) : string :=
  match x with
  | Np.Fl b => be_bytes 8 b
  | Np.Cx re im => (be_bytes 8 re ++ be_bytes 8 im)%string
  end.

Fixpoint encode_payload (xs : list Np.sample) : string :=
  match xs with
  | [] => EmptyString
  | x :: xs' => (encode_sample x ++ encode_payload xs')%string
  end.

Definition flag_name (dt : Np.dtype) : string :=
  match dt with
  | Np.float64 => "real"
  | Np.complex128 => "complex"
  end.

(** The variable lines: the first one carries the section title in front of
    the index, the others start with a tab; the unit is the last field. *)
Fixpoint encode_vars (idx : nat) (names : list string) : string :=
  match names with
  | [] => EmptyString
  | name :: names' =>
      ((if (idx =? 0)%nat
        then header_line tab false ["Variables:"; Py.str_of_nat idx; name; "V"]
        else header_line tab true [Py.str_of_nat idx; name; "V"])
       ++ encode_vars (S idx) names')%string
  end.

Definition encode_block (b : block) : string :=
  (header_line space false ["Flags:"; flag_name (b_dtype b)]
   ++ header_line space false
        ["No."; "Variables:"; Py.str_of_nat (length (b_names b))]
   ++ header_line space false ["No."; "Points:"; Py.str_of_nat (b_points b)]
   ++ encode_vars 0 (b_names b)
   ++ header_line space false ["Binary:"]
   ++ encode_payload (b_payload b))%string.

(** A character of a header token: printable ASCII, no blank. *)
Definition token_char (c : ascii) : bool :=
  (33 <=? Py.code c) && (Py.code c <=? 126).

(** A header token: not empty, made of token characters. *)
Definition is_token (s : string) : bool :=
  negb (String.eqb s EmptyString) && Py.forall_chars token_char s.

Definition is_u64 (x : Z) : bool := ((0 <=? x) && (x <? 2 ^ 64))%Z.

Definition sample_ok (dt : Np.dtype) (x : Np.sample) : bool :=
  match dt, x with
  | Np.float64, Np.Fl b => is_u64 b
  | Np.complex128, Np.Cx re im => is_u64 re && is_u64 im
  | _, _ => false
  end.

End Spec.

(** ** Reference values used in the statements *)

(** The rows of [swp_combos] all have as many entries as the first one: the
    condition under which [np.array(swp_combos)] is two-dimensional. *)
Definition rectangular (rows : list (list Z)) : bool :=
  forallb (fun r => length r =? length (hd [] rows)) rows.

(** The integers from [-h] to [+h]. *)
Definition symmetric_range (h : nat) : list Z :=
  map (fun k => (Z.of_nat k - Z.of_nat h)%Z) (seq 0 (2 * h + 1)).

(** The integers from [0] to [n - 1]. *)
Definition run_indices (n : nat) : list Z := map Z.of_nat (seq 0 n).

(** A run's vector as one row of the stacked array of dtype [dt] and inner
    length [len]: its samples, then NaN up to [len]. *)
Definition padded (dt : Np.dtype) (len : nat) (v : Np.vec) : list Np.sample :=
  map (Np.astype dt) (Np.vdata v) ++ repeat (Np.nan dt) (len - Np.size v).

(** [max(sub_dims)]. *)
Definition max_size (vs : list Np.vec) : nat :=
  fold_right Nat.max 0 (map Np.size vs).

(** Row [i] of a buffer made of rows of length [len]. *)
Definition segment {A : Type} (len i : nat) (l : list A) : list A :=
  firstn len (skipn (i * len) l).

(** ** Concrete inputs used in examples *)

Definition ex_tol : Q := 1 # 100000000.

(** A run with the single signal "v" holding one real sample. *)
Definition ex_run (x : Z) : Py.dict Np.vec :=
  [("v", Np.mkvec Np.float64 [Np.Fl x])].

(** The four combos of the 2 x 2 grid in row-major file order. *)
Definition grid_in_file_order : list (list Z) :=
  [[0; 0]; [0; 1]; [1; 0]; [1; 1]]%Z.

Definition ex_grid : group :=
  mkgroup [ex_run 10; ex_run 20; ex_run 30; ex_run 40] grid_in_file_order "".

(** The same four runs arriving in another order: run 0 carries combo
    (1,1). *)
Definition ex_permuted_grid : group :=
  mkgroup [ex_run 10; ex_run 20; ex_run 30; ex_run 40]
          [[1; 1]; [0; 0]; [0; 1]; [1; 0]]%Z "".

(** The value of a conversion that is known to succeed. *)
Definition the_result (c : result AnalysisData) : AnalysisData :=
  match c with
  | Ok r => r
  | Raise _ => mkana [] [] false
  end.

(** Two runs of an outer sweep whose signal "v/out" has three samples in the
    first run and two in the second; "time" is the inner sweep. *)
Definition ex_ragged : group :=
  mkgroup
    [[("time", Np.mkvec Np.float64 [Np.Fl 0; Np.Fl 1; Np.Fl 2]);
      ("v/out", Np.mkvec Np.float64 [Np.Fl 10; Np.Fl 11; Np.Fl 12])];
     [("time", Np.mkvec Np.float64 [Np.Fl 0; Np.Fl 1; Np.Fl 2]);
      ("v/out", Np.mkvec Np.float64 [Np.Fl 20; Np.Fl 21])]]
    [[0]; [1]]%Z "time".

(** A detector that answers the single-corner shape (1,) when there is no
    sweep vector at all, and is the detector of the specification
    otherwise. *)
Definition ex_corner_detector : detector :=
  fun vectors rtol atol =>
    match vectors with
    | [] => Some ([1], [])
    | _ :: _ => Spec.check_is_md vectors rtol atol
    end.

(** A group of five and a group of two "pac" runs. *)
Definition ex_pac5 : group :=
  mkgroup [ex_run 1; ex_run 2; ex_run 3; ex_run 4; ex_run 5] [] "".

Definition ex_pac2 : group := mkgroup [ex_run 1; ex_run 2] [] "".

(** Three runs of which only the first two carry an outer combo; the two
    combos (0,0) and (1,1) are not a full grid. *)
Definition ex_irregular : group :=
  mkgroup [ex_run 10; ex_run 20; ex_run 30] [[0; 0]; [1; 1]]%Z "".

(** The accumulator run over blocks that have already been read, in file
    order: the calls of [populate_dict] that [parse_raw_file] makes. *)
Definition accumulate (monte_carlo : bool)
  (blocks : list (string * Py.dict Np.vec))
  (ana_dict : Py.dict (Py.dict group)) : result (Py.dict (Py.dict group)) :=
  foldM (fun d pb => populate_dict monte_carlo d (fst pb) (snd pb))
        blocks ana_dict.

(** The analysis name of the block carries the Monte-Carlo prefix. *)
Definition is_mc_run (plotname : string) : bool :=
  match get_info_from_plotname plotname with
  | Ok info => Py.startswith (ana_name info) "__mc_"
  | Raise _ => false
  end.

Definition ex_block (x : Z) : Py.dict Np.vec :=
  [("time", Np.mkvec Np.float64 [Np.Fl 0; Np.Fl 1]);
   ("v", Np.mkvec Np.float64 [Np.Fl x; Np.Fl (x + 1)])].

Definition ex_mc_plotname (run : string) : string :=
  ("Plotname: `__mc_tran__tb_env-" ++ run ++ "' Transient: time = (0 s -> 1 ns)"
   ++ Spec.nl)%string.

Definition ex_nominal_plotname : string :=
  ("Plotname: `tran__tb_env' Transient: time = (0 s -> 1 ns)" ++ Spec.nl)%string.

(** A Monte-Carlo file: the nominal run, then five randomized runs. *)
Definition ex_mc_blocks : list (string * Py.dict Np.vec) :=
  [(ex_nominal_plotname, ex_block 0);
   (ex_mc_plotname "001", ex_block 10);
   (ex_mc_plotname "002", ex_block 20);
   (ex_mc_plotname "003", ex_block 30);
   (ex_mc_plotname "004", ex_block 40);
   (ex_mc_plotname "005", ex_block 50)].

(** The order [sorted] puts strings in: code point by code point. *)
Definition str_le (a b : string) : Prop := String.leb a b = true.

(** A combiner that keeps what it is given. *)
Definition ex_combiner : combiner (Py.dict AnalysisData * list string) :=
  fun sub_ana_dict sim_envs => Ok (sub_ana_dict, sim_envs).

(** Two analysis types: "tran" ran in the environments tb_tt and tb_ff,
    "ac", read later, only in tb_ss. *)
Definition ex_tran_envs : Py.dict group :=
  [("tb_tt", mkgroup [ex_run 10] [] ""); ("tb_ff", mkgroup [ex_run 20] [] "")].

Definition ex_ac_envs : Py.dict group :=
  [("tb_ss", mkgroup [ex_run 30] [] "")].

Definition ex_nb_data : Py.dict (Py.dict group) :=
  [("tran", ex_tran_envs); ("ac", ex_ac_envs)].

(** A complex block of one point whose sweep variable "freq" has the value
    1.0 + 2.0j and whose signal has the value 3.0 + 4.0j (IEEE-754 bit
    patterns). *)
Definition ex_complex_block : Spec.block :=
  Spec.mkblock Np.complex128 ["freq"; "v(out)"] 1
    [Np.Cx 4607182418800017408 4611686018427387904;
     Np.Cx 4613937818241073152 4616189618054758400]%Z.

(** A real block of two variables and three points. *)
Definition ex_real_block : Spec.block :=
  Spec.mkblock Np.float64 ["time"; "v(out)"] 3
    [Np.Fl 0; Np.Fl 10; Np.Fl 1; Np.Fl 11; Np.Fl 2; Np.Fl 12]%Z.

(** The blocks of [ex_mc_blocks] as the simulator writes them: two header
    lines, then each plot name followed by its encoded block. *)
Definition ex_file_block (x : Z) : Spec.block :=
  Spec.mkblock Np.float64 ["time"; "v"] 2
    [Np.Fl 0; Np.Fl x; Np.Fl 1; Np.Fl (x + 1)].

Definition ex_mc_file : string :=
  ("Title: monte carlo" ++ Spec.nl ++ "Date: today" ++ Spec.nl
   ++ ex_nominal_plotname ++ Spec.encode_block (ex_file_block 0)
   ++ ex_mc_plotname "001" ++ Spec.encode_block (ex_file_block 10)
   ++ ex_mc_plotname "002" ++ Spec.encode_block (ex_file_block 20)
   ++ ex_mc_plotname "003" ++ Spec.encode_block (ex_file_block 30)
   ++ ex_mc_plotname "004" ++ Spec.encode_block (ex_file_block 40)
   ++ ex_mc_plotname "005" ++ Spec.encode_block (ex_file_block 50))%string.

(** Plot names of one analysis in one environment, with and without outer
    sweep tags. *)
Definition ex_swp_plotname (i j : string) : string :=
  ("Plotname: `swp00-" ++ i ++ "_swp01-" ++ j ++ "_tran__tb_env' Transient"
   ++ Spec.nl)%string.

Definition ex_plain_plotname (ty : string) : string :=
  ("Plotname: `" ++ ty ++ "__tb_env' Analysis" ++ Spec.nl)%string.

(** Two runs without any sweep level whose signal "v" has three samples in
    the first run and two in the second. *)
Definition ex_unequal_plain : group :=
  mkgroup
    [[("v", Np.mkvec Np.float64 [Np.Fl 10; Np.Fl 11; Np.Fl 12])];
     [("v", Np.mkvec Np.float64 [Np.Fl 20; Np.Fl 21])]]
    [] "".

(** ** The remaining members of the class *)

(** *** The constructor ([__init__], lines 43-47)

    [contents] is what the file at [raw_path] holds.  The parent directory
    the constructor remembers is only used by [parse_sweep_info]. *)
Definition __init__ {T : Type} (check_is_md : detector)
  (combine_ana_sim_envs : combiner T) (contents : string) (rtol atol : Q)
  (monte_carlo : bool) : option (result (SimData T)) :=
  match parse_raw_file monte_carlo contents with
  | Some (Ok nb_data) =>
      Some (convert_to_sim_data check_is_md combine_ana_sim_envs monte_carlo
              nb_data rtol atol)
  | Some (Raise e) => Some (Raise e)
  | None => None
  end.

(** *** The sweep-file names ([parse_sweep_info], lines 177-185)

    [parse_sweep_file] opens a file, prints it and stops in the debugger; it
    is a parameter here, called with the three operands of the path
    [self._cwd_path / 'sim.raw.psf' / name] and the block. *)

(** [sep.join(xs)]. *)
Fixpoint str_join (sep : string) (xs : list string) : string :=
  match xs with
  | [] => EmptyString
  | [x] => x
  | x :: xs' => (x ++ sep ++ str_join sep xs')%string
  end.

Definition sweep_file_name (new_swp_info : list string) (suf : string) : string :=
  (str_join "-000_" new_swp_info ++ suf ++ ".sweep")%string.

(** The [while] loop.  [pending] is [new_swp_info] back to front, so that
    [pop()] takes its head. *)
Fixpoint sweep_files (parse_sweep_file : list string -> Py.dict Np.vec -> result string)
  (cwd_path : string) (data : Py.dict Np.vec) (suf : string)
  (pending : list string) (swp_vars : list string) : result (list string) :=
  match pending with
  | [] => Ok swp_vars
  | _ :: pending' =>
      let name := sweep_file_name (rev pending) suf in
      v <- parse_sweep_file [cwd_path; "sim.raw.psf"; name] data;;
      sweep_files parse_sweep_file cwd_path data suf pending' (v :: swp_vars)
  end.

Definition parse_sweep_info
  (parse_sweep_file : list string -> Py.dict Np.vec -> result string)
  (cwd_path : string) (swp_info : list string) (data : Py.dict Np.vec)
  (suf : string) : result (list string) :=
  sweep_files parse_sweep_file cwd_path data suf (rev swp_info) [].

(** ** Further reference values *)

(** [ana_dict[ana_type][sim_env]], when both keys are there. *)
Definition find_group (ana_dict : Py.dict (Py.dict group)) (ty env : string)
  : option group :=
  match Py.get ana_dict ty with
  | Some envs => Py.get envs env
  | None => None
  end.

(** The group [populate_dict] leaves behind for a block classified as
    [info], given the group [old] that was there before. *)
Definition appended (old : option group) (info : PlotnameInfo)
  (blk : Py.dict Np.vec) : group :=
  let g := match old with
           | Some g => g
           | None => mkgroup [] [] (inner_sweep info)
           end in
  mkgroup (data g ++ [blk])
          (match swp_combo info with
           | [] => swp_combos g
           | _ :: _ => swp_combos g ++ [swp_combo info]
           end)
          (g_inner_sweep g).

(** What the accumulator keeps true of a group: it has a run, it has no
    more outer combos than runs, and no outer combo is empty. *)
Definition group_ok (g : group) : Prop :=
  data g <> [] /\
  length (swp_combos g) <= length (data g) /\
  Forall (fun c => c <> []) (swp_combos g).

(** What the accumulator keeps true of its dictionary: no key twice, no
    analysis type without an environment, every group as above. *)
Definition well_formed (ana_dict : Py.dict (Py.dict group)) : Prop :=
  NoDup (Py.keys ana_dict) /\
  forall ty envs, In (ty, envs) ana_dict ->
    envs <> [] /\ NoDup (Py.keys envs) /\
    forall env g, In (env, g) envs -> group_ok g.

(** The blocks the accumulator files: all of them, or the Monte-Carlo runs
    only. *)
Definition kept (monte_carlo : bool) (blocks : list (string * Py.dict Np.vec))
  : list (string * Py.dict Np.vec) :=
  if monte_carlo then filter (fun pb => is_mc_run (fst pb)) blocks else blocks.

(** The analysis type a plot name is filed under; the empty string when the
    classifier raises. *)
Definition type_of_plotname (plotname : string) : string :=
  match get_info_from_plotname plotname with
  | Ok info => ana_type info
  | Raise _ => EmptyString
  end.

(** The elements of a list in the order of their first occurrence. *)
Definition first_occurrences (l : list string) : list string :=
  rev (nodup string_dec (rev l)).

(** The coordinate entry sweep variable number [fst iv] gets on line 256,
    when the detector found a grid: [swp_vals[i]]. *)
Definition coord_of (swp_vals : list (list Z)) (iv : nat * string)
  : result value :=
  match Py.getitem swp_vals (fst iv) with
  | Ok v => Ok (VCoord v)
  | Raise e => Raise e
  end.

(** The sweep variable names of lines 229, 240 and 251. *)
Definition sweep_names (monte_carlo : bool) (ana_type : string) (num_swp : nat)
  : list string :=
  if String.eqb ana_type "pac" then ["harmonic"]
  else if monte_carlo then ["monte_carlo"]
  else map (fun idx => ("sweep" ++ Py.str_of_nat idx)%string) (seq 0 num_swp).

(** No occurrence of the character [c] in [s]. *)
Definition free_of (c : ascii) (s : string) : bool :=
  Py.forall_chars (fun x => negb (Ascii.eqb x c)) s.

Definition backtick : ascii := ascii_of_nat 96.
Definition apostrophe : ascii := ascii_of_nat 39.
Definition underscore : ascii := ascii_of_nat 95.

(** ** The layout of a whole file *)

Module Layout.

(** The header of a block: everything of [Spec.encode_block] in front of the
    payload. *)
Definition encode_header (b : Spec.block) : string :=
  (Spec.header_line Spec.space false ["Flags:"; Spec.flag_name (Spec.b_dtype b)]
   ++ Spec.header_line Spec.space false
        ["No."; "Variables:"; Py.str_of_nat (length (Spec.b_names b))]
   ++ Spec.header_line Spec.space false
        ["No."; "Points:"; Py.str_of_nat (Spec.b_points b)]
   ++ Spec.encode_vars 0 (Spec.b_names b)
   ++ Spec.header_line Spec.space false ["Binary:"])%string.

(** No line terminator inside. *)
Definition no_newline (s : string) : bool :=
  Py.forall_chars (fun c => negb (Py.is_newline c)) s.

(** A line of text: ASCII, no line terminator inside. *)
Definition is_line (s : string) : bool :=
  Py.forall_chars (fun c => negb (Py.is_newline c) && (Py.code c <? 128)) s.

(** A block whose payload is what its header announces. *)
Definition block_ok (b : Spec.block) : bool :=
  forallb Spec.is_token (Spec.b_names b)
  && (length (Spec.b_payload b) =? length (Spec.b_names b) * Spec.b_points b)
  && forallb (Spec.sample_ok (Spec.b_dtype b)) (Spec.b_payload b).

(** The blocks of a file, each behind its plot-name line. *)
Fixpoint encode_blocks (blocks : list (string * Spec.block)) : string :=
  match blocks with
  | [] => EmptyString
  | (plotname, b) :: blocks' =>
      (plotname ++ Spec.nl ++ Spec.encode_block b ++ encode_blocks blocks')%string
  end.

(** Title line, date line, blocks. *)
Definition encode_file (title date : string)
  (blocks : list (string * Spec.block)) : string :=
  (title ++ Spec.nl ++ date ++ Spec.nl ++ encode_blocks blocks)%string.

(** What the read loop hands to [populate_dict] for a block: the plot-name
    line with its terminator, and the columns of the payload. *)
Definition as_read (pb : string * Spec.block) : string * Py.dict Np.vec :=
  ((fst pb ++ Spec.nl)%string,
   columns (Spec.b_dtype (snd pb)) (Spec.b_payload (snd pb))
           (length (Spec.b_names (snd pb))) (Spec.b_names (snd pb))).

(** The decimal digit [d]. *)
Definition digit_char (d : nat) : ascii := ascii_of_nat (48 + d).

(** [n] written with [width] digits, zeros in front. *)
Fixpoint zfill (width n : nat) : string :=
  match width with
  | O => EmptyString
  | S w => (zfill w (n / 10) ++ String (digit_char (n mod 10)) EmptyString)%string
  end.

(** The tag the simulator puts in an analysis name for point [index] of
    outer sweep level [level], and the tagged name of a run. *)
Definition swp_level (level : nat) : string := ("swp" ++ zfill 2 level)%string.

Definition swp_tag (level index : nat) : string :=
  (swp_level level ++ "-" ++ zfill 3 index)%string.

Fixpoint tagged (tags : list (nat * nat)) (name : string) : string :=
  match tags with
  | [] => name
  | (level, index) :: tags' =>
      (swp_tag level index ++ "_" ++ tagged tags' name)%string
  end.

(** [p] occurs somewhere in [s]. *)
Fixpoint occurs (p s : string) : bool :=
  String.prefix p s
  || match s with
     | EmptyString => false
     | String _ s' => occurs p s'
     end.

End Layout.

(** * Properties *)

(** ** The error monad *)

Lemma bind_ok {A B : Type} (c : result A) (k : A -> result B) (b : B) :
  bind c k = Ok b -> exists a, c = Ok a /\ k a = Ok b.
Proof.
  destruct c as [a | e]; simpl; intros H.
  - exists a. split; [reflexivity | exact H].
  - discriminate H.
Qed.

Ltac bind_inv H :=
  let x := fresh "x" in
  let Hx := fresh "Hx" in
  apply bind_ok in H; destruct H as [x [Hx H]].

Ltac bind_as H x Hx := apply bind_ok in H; destruct H as [x [Hx H]].

Lemma mapM_length {A B : Type} (f : A -> result B) (xs : list A) (ys : list B) :
  mapM f xs = Ok ys -> length ys = length xs.
Proof.
  revert ys. induction xs as [| x xs IH]; simpl; intros ys H.
  - inversion H. reflexivity.
  - bind_inv H. bind_inv H. inversion H; subst. simpl.
    f_equal. apply IH. assumption.
Qed.

Lemma mapM_nth {A B : Type} (f : A -> result B) (xs : list A) (ys : list B) :
  mapM f xs = Ok ys ->
  forall i x, nth_error xs i = Some x ->
  exists y, nth_error ys i = Some y /\ f x = Ok y.
Proof.
  revert ys. induction xs as [| x0 xs IH]; simpl; intros ys H i x Hi.
  - destruct i; discriminate Hi.
  - bind_inv H. bind_inv H. inversion H; subst.
    destruct i as [| i]; simpl in *.
    + inversion Hi; subst. eauto.
    + eapply IH; eauto.
Qed.

(** ** Dictionaries *)

Section DictFacts.

Context {V : Type}.
Implicit Types (d : Py.dict V) (k : string) (v : V).

Lemma get_set_same d k v : Py.get (Py.set d k v) k = Some v.
Proof.
  induction d as [| [k' v'] d IH]; simpl.
  - rewrite String.eqb_refl. reflexivity.
  - destruct (String.eqb k' k) eqn:E; simpl; rewrite E; auto.
Qed.

Lemma get_set_other d k k' v :
  k <> k' -> Py.get (Py.set d k v) k' = Py.get d k'.
Proof.
  intros Hne. induction d as [| [k0 v0] d IH]; simpl.
  - destruct (String.eqb k k') eqn:E; [| reflexivity].
    apply String.eqb_eq in E. contradiction.
  - destruct (String.eqb k0 k) eqn:E; simpl.
    + apply String.eqb_eq in E. subst k0.
      destruct (String.eqb k k') eqn:E'; [| reflexivity].
      apply String.eqb_eq in E'. contradiction.
    + destruct (String.eqb k0 k'); auto.
Qed.

Lemma get_in_keys d k v : Py.get d k = Some v -> In k (Py.keys d).
Proof.
  induction d as [| [k0 v0] d IH]; simpl; [discriminate |].
  destruct (String.eqb k0 k) eqn:E; intros H.
  - left. apply String.eqb_eq. exact E.
  - right. auto.
Qed.

Lemma in_keys_get d k : In k (Py.keys d) -> exists v, Py.get d k = Some v.
Proof.
  induction d as [| [k0 v0] d IH]; simpl; [tauto |].
  intros [-> | Hin].
  - rewrite String.eqb_refl. eauto.
  - destruct (String.eqb k0 k); eauto.
Qed.

Lemma keys_set_in d k v k' :
  In k' (Py.keys (Py.set d k v)) <-> k' = k \/ In k' (Py.keys d).
Proof.
  induction d as [| [k0 v0] d IH]; simpl.
  - intuition congruence.
  - destruct (String.eqb k0 k) eqn:E; simpl.
    + apply String.eqb_eq in E. subst. intuition congruence.
    + rewrite IH. intuition congruence.
Qed.

End DictFacts.

(** ** The loop that stores one entry per signal *)

Section StoreAll.

Context {A : Type}.
Variable entry : A -> result (string * Np.ndarray).
Variable key : A -> string.
Hypothesis entry_key : forall x k a, entry x = Ok (k, a) -> k = key x.

Lemma store_all_cons x xs out out' :
  store_all entry (x :: xs) out = Ok out' ->
  exists e, entry x = Ok e /\ store_all entry xs (store out e) = Ok out'.
Proof.
  unfold store_all. simpl. intros H.
  bind_inv H. bind_inv Hx. inversion Hx; subst. eauto.
Qed.

(** Every signal of the loop got an entry. *)
Lemma store_all_entries xs out out' :
  store_all entry xs out = Ok out' ->
  forall x, In x xs -> exists e, entry x = Ok e.
Proof.
  revert out. induction xs as [| x0 xs IH]; intros out H x Hin.
  - destruct Hin.
  - apply store_all_cons in H. destruct H as [e [He H]].
    destruct Hin as [-> | Hin]; eauto.
Qed.

(** Keys no signal writes keep what they held. *)
Lemma store_all_frame xs out out' k0 :
  store_all entry xs out = Ok out' ->
  (forall x, In x xs -> key x <> k0) ->
  Py.get out' k0 = Py.get out k0.
Proof.
  revert out. induction xs as [| x0 xs IH]; intros out H Hk.
  - inversion H. reflexivity.
  - apply store_all_cons in H. destruct H as [[k a] [He H]].
    rewrite (IH _ H) by (intros; apply Hk; right; assumption).
    unfold store. simpl. apply get_set_other.
    rewrite (entry_key _ _ _ He). apply Hk. left. reflexivity.
Qed.

(** The key of every signal holds, at the end, the entry of a signal with
    that key (the last one written). *)
Lemma store_all_has_key xs out out' :
  store_all entry xs out = Ok out' ->
  forall x, In x xs ->
  exists y a, In y xs /\ entry y = Ok (key x, a) /\
              Py.get out' (key x) = Some (VArray a).
Proof.
  revert out. induction xs as [| x0 xs IH]; intros out H x Hin.
  - destruct Hin.
  - apply store_all_cons in H. destruct H as [[k a] [He H]].
    destruct (in_dec string_dec (key x) (map key xs)) as [Hlater | Hlast].
    + apply in_map_iff in Hlater. destruct Hlater as [y [Hy Hin']].
      rewrite <- Hy.
      destruct (IH _ H y Hin') as [z [b [Hz [Hez Hget]]]].
      exists z, b. repeat split; auto. right. exact Hz.
    + destruct Hin as [-> | Hin].
      * exists x, a. pose proof (entry_key _ _ _ He) as Hk. subst k.
        repeat split; auto.
        -- left. reflexivity.
        -- rewrite (store_all_frame _ _ _ _ H).
           ++ unfold store. simpl. apply get_set_same.
           ++ intros y Hy E. apply Hlast. rewrite <- E. apply in_map. exact Hy.
      * exfalso. apply Hlast. apply in_map. exact Hin.
Qed.

(** The loop adds no key but those of its signals. *)
Lemma store_all_keys xs out out' :
  store_all entry xs out = Ok out' ->
  forall k, In k (Py.keys out') -> In k (Py.keys out) \/ In k (map key xs).
Proof.
  revert out. induction xs as [| x0 xs IH]; intros out H k Hin.
  - inversion H; subst. left. exact Hin.
  - apply store_all_cons in H. destruct H as [[k0 a] [He H]].
    destruct (IH _ H k Hin) as [Hk | Hk].
    + unfold store in Hk. simpl in Hk. apply keys_set_in in Hk.
      destruct Hk as [-> | Hk]; [| left; exact Hk].
      right. left. symmetry. eapply entry_key. exact He.
    + right. right. exact Hk.
Qed.

(** When the keys are pairwise distinct, a signal's key holds its entry. *)
Lemma store_all_get xs out out' :
  store_all entry xs out = Ok out' ->
  NoDup (map key xs) ->
  forall x k a, In x xs -> entry x = Ok (k, a) ->
  Py.get out' k = Some (VArray a).
Proof.
  revert out. induction xs as [| x0 xs IH]; intros out H Hnd x k a Hin He.
  - destruct Hin.
  - apply store_all_cons in H. destruct H as [[k0 a0] [He0 H]].
    inversion Hnd as [| ? ? Hnotin Hnd']; subst.
    destruct Hin as [-> | Hin].
    + rewrite He in He0. inversion He0; subst k0 a0.
      rewrite (store_all_frame _ _ _ _ H).
      * unfold store. simpl. apply get_set_same.
      * intros y Hy E. apply Hnotin. rewrite <- (entry_key _ _ _ He).
        rewrite <- E. apply in_map. exact Hy.
    + eapply IH; eauto.
Qed.

End StoreAll.

(** ** The reconstructor, taken apart *)

Lemma single_signal_key inner sh x k a :
  single_signal inner sh x = Ok (k, a) -> k = Py.replace slash dot (fst x).
Proof.
  destruct x as [sig_name sig_y]. unfold single_signal. simpl.
  destruct (String.eqb _ inner).
  - intros H. inversion H. reflexivity.
  - intros H. bind_inv H. inversion H. reflexivity.
Qed.

Lemma combined_signal_key runs inner n sh sig_name k a :
  combined_signal runs inner n sh sig_name = Ok (k, a) ->
  k = Py.replace slash dot sig_name.
Proof.
  unfold combined_signal. intros H. bind_inv H.
  destruct (negb _).
  - bind_inv H. bind_inv H. inversion H. reflexivity.
  - destruct (String.eqb _ inner).
    + bind_inv H. inversion H. reflexivity.
    + bind_inv H. bind_inv H. inversion H. reflexivity.
Qed.

(** A successful conversion went through each stage of the source. *)
Lemma convert_inv det mc nb rtol atol ty r :
  convert_to_analysis_data det mc nb rtol atol ty = Ok r ->
  exists vars n cl combo sh run0,
    sweep_info mc nb ty = Ok (vars, n, cl) /\
    sweep_shape det rtol atol vars n cl = Ok (is_md r, combo, sh) /\
    Py.getitem (data nb) 0 = Ok run0 /\
    (if n =? 0
     then store_all (single_signal (g_inner_sweep nb) sh) run0
                    (Py.update [] combo)
     else store_all (combined_signal (data nb) (g_inner_sweep nb) n sh)
                    (Py.keys run0) (Py.update [] combo))
    = Ok (ana_data r) /\
    sweep_params r = "corner" :: with_inner vars (g_inner_sweep nb).
Proof.
  unfold convert_to_analysis_data. intros H.
  bind_inv H. destruct x as [[vars n] cl].
  bind_inv H. destruct x as [[md combo] sh].
  bind_inv H. rename x into run0.
  bind_inv H. inversion H; subst r; simpl.
  exists vars, n, cl, combo, sh, run0. repeat split; assumption.
Qed.

Lemma getitem_0 {A : Type} (xs : list A) (x : A) :
  Py.getitem xs 0 = Ok x -> exists rest, xs = x :: rest.
Proof.
  destruct xs as [| y rest]; unfold Py.getitem; simpl; intros H.
  - discriminate H.
  - inversion H; subst. eauto.
Qed.

(** The coordinate entries are keyed by sweep variable names only. *)
Lemma fold_set_keys {V A : Type} (f : A -> string) (g : A -> V)
  (xs : list A) (d : Py.dict V) k :
  In k (Py.keys (fold_left (fun acc x => Py.set acc (f x) (g x)) xs d)) ->
  In k (Py.keys d) \/ In k (map f xs).
Proof.
  revert d. induction xs as [| x xs IH]; simpl; intros d H.
  - left. exact H.
  - destruct (IH _ H) as [Hk | Hk].
    + apply keys_set_in in Hk. destruct Hk as [-> | Hk]; auto.
    + auto.
Qed.

Lemma sweep_shape_keys det rtol atol vars n cl md combo sh :
  sweep_shape det rtol atol vars n cl = Ok (md, combo, sh) ->
  forall k, In k (Py.keys (Py.update [] combo)) -> In k vars.
Proof.
  unfold sweep_shape. intros H k Hk.
  assert (Hcombo : forall k', In k' (Py.keys combo) -> In k' vars).
  { destruct (det cl rtol atol) as [[shape vals] |].
    - bind_inv H. inversion H; subst. clear H.
      assert (G : forall xs d d', 
                 foldM (fun d iv => v <- Py.getitem vals (fst iv);;
                                    Ok (Py.set d (snd iv) (VCoord v))) xs d = Ok d' ->
                 forall k', In k' (Py.keys d') ->
                            In k' (Py.keys d) \/ In k' (map snd xs)).
      { induction xs as [| [i var] xs IH]; simpl; intros d d' Hf k' Hin.
        - inversion Hf; subst. auto.
        - bind_inv Hf. bind_inv Hx0. inversion Hx0; subst.
          destruct (IH _ _ Hf _ Hin) as [Hd | Hd]; auto.
          apply keys_set_in in Hd. destruct Hd as [-> | Hd]; auto. }
      intros k' Hin. destruct (G _ _ _ Hx _ Hin) as [[] | Hin'].
      assert (E : forall (l : list string) i, map snd (Py.enumerate_from i l) = l).
      { induction l as [| y l IHl]; simpl; intros; f_equal; auto. }
      unfold Py.enumerate in Hin'. rewrite E in Hin'. exact Hin'.
    - inversion H; subst. intros k' Hin.
      apply (fold_set_keys (fun var => var)) in Hin.
      destruct Hin as [[] | Hin]. rewrite map_id in Hin. exact Hin. }
  unfold Py.update in Hk.
  apply (fold_set_keys fst snd) in Hk. destruct Hk as [[] | Hk].
  apply Hcombo. exact Hk.
Qed.

(** ** Signal names: [sig_name.replace('/', '.')] *)

Lemma replace_get a b s i :
  String.get i (Py.replace a b s)
  = option_map (fun c => if Ascii.eqb c a then b else c) (String.get i s).
Proof.
  revert i. induction s as [| c s IH]; intros i; simpl.
  - reflexivity.
  - destruct i as [| i]; simpl; [reflexivity | apply IH].
Qed.

Lemma replace_length a b s :
  String.length (Py.replace a b s) = String.length s.
Proof.
  induction s as [| c s IH]; simpl; [reflexivity | f_equal; exact IH].
Qed.

Lemma replace_absent a b s :
  (forall i, String.get i s <> Some a) -> Py.replace a b s = s.
Proof.
  induction s as [| c s IH]; simpl; intros H; [reflexivity |].
  destruct (Ascii.eqb c a) eqn:E.
  - apply Ascii.eqb_eq in E. subst c. exfalso. apply (H 0). reflexivity.
  - f_equal. apply IH. intros i. apply (H (S i)).
Qed.

Lemma replace_removes a b s :
  a <> b -> forall i, String.get i (Py.replace a b s) <> Some a.
Proof.
  intros Hab i. rewrite replace_get.
  destruct (String.get i s) as [c |]; simpl; [| discriminate].
  destruct (Ascii.eqb c a) eqn:E; intros H; inversion H; subst.
  - apply Hab. reflexivity.
  - rewrite Ascii.eqb_refl in E. discriminate E.
Qed.

(** C8.  After a successful reconstruction every signal name of run 0 has its
    array stored under the name with each '/' turned into '.': the key has
    the same length, differs from the name exactly where the name has a '/',
    holds no '/' itself, and is the name unchanged when the name has none.
    The output mapping has no other keys than these and the sweep variable
    names, so no signal is stored under its raw name. *)
Theorem signal_key_replaces_slash
  (check_is_md : detector) (monte_carlo : bool) (nb_dict : group)
  (rtol atol : Q) (ana_type : string) (r : AnalysisData) :
  convert_to_analysis_data check_is_md monte_carlo nb_dict rtol atol ana_type
  = Ok r ->
  exists run0 rest swp_vars,
    data nb_dict = run0 :: rest /\
    sweep_params r = "corner" :: with_inner swp_vars (g_inner_sweep nb_dict) /\
    (forall sig_name, In sig_name (Py.keys run0) ->
       let key := Py.replace slash dot sig_name in
       (exists a, Py.get (ana_data r) key = Some (VArray a)) /\
       String.length key = String.length sig_name /\
       (forall i, String.get i key
                  = option_map (fun c => if Ascii.eqb c slash then dot else c)
                               (String.get i sig_name)) /\
       (forall i, String.get i key <> Some slash) /\
       ((forall i, String.get i sig_name <> Some slash) -> key = sig_name)) /\
    (forall k, In k (Py.keys (ana_data r)) ->
       In k swp_vars \/
       exists sig_name, In sig_name (Py.keys run0) /\
                        k = Py.replace slash dot sig_name).
Proof.
  intros H. apply convert_inv in H.
  destruct H as (vars & n & cl & combo & sh & run0 & Hinfo & Hshape & Hrun & Hloop & Hparams).
  destruct (getitem_0 _ _ Hrun) as [rest Hdata].
  exists run0, rest, vars. split; [exact Hdata |]. split; [exact Hparams |].
  split.
  - intros sig_name Hin key. repeat split.
    + destruct (n =? 0).
      * unfold Py.keys in Hin. apply in_map_iff in Hin.
        destruct Hin as [[s y] [Hs Hin]]. simpl in Hs. subst s.
        destruct (store_all_has_key _ (fun x => Py.replace slash dot (fst x))
                    (single_signal_key _ _) _ _ _ Hloop _ Hin)
          as [z [a [_ [_ Hget]]]].
        exists a. exact Hget.
      * destruct (store_all_has_key _ (Py.replace slash dot)
                    (combined_signal_key _ _ _ _) _ _ _ Hloop _ Hin)
          as [z [a [_ [_ Hget]]]].
        exists a. exact Hget.
    + apply replace_length.
    + intros i. apply replace_get.
    + apply replace_removes. intros E. discriminate E.
    + intros Hno. apply replace_absent. exact Hno.
  - intros k Hk.
    assert (Hor : In k (Py.keys (Py.update [] combo)) \/
                  In k (map (Py.replace slash dot) (Py.keys run0))).
    { destruct (n =? 0).
      - destruct (store_all_keys _ (fun x => Py.replace slash dot (fst x))
                    (single_signal_key _ _) _ _ _ Hloop _ Hk) as [Hc | Hs];
          [left; exact Hc | right].
        unfold Py.keys. rewrite map_map. exact Hs.
      - destruct (store_all_keys _ (Py.replace slash dot)
                    (combined_signal_key _ _ _ _) _ _ _ Hloop _ Hk) as [Hc | Hs];
          [left; exact Hc | right; exact Hs]. }
    destruct Hor as [Hc | Hs].
    + left. eapply sweep_shape_keys; eauto.
    + right. apply in_map_iff in Hs. destruct Hs as [s [Hs Hin]].
      exists s. split; [exact Hin | symmetry; exact Hs].
Qed.

(** C9.  With no outer combos recorded, Monte-Carlo mode off and an analysis
    type other than "pac", the reconstruction of a group is the
    reconstruction of its first run alone, under any grid detector: further
    runs change neither the result nor the exception. *)
Theorem zero_sweep_levels_read_run0_only
  (check_is_md : detector) (rtol atol : Q) (ana_type inner : string)
  (run0 : Py.dict Np.vec) (rest : list (Py.dict Np.vec)) :
  String.eqb ana_type "pac" = false ->
  convert_to_analysis_data check_is_md false
    (mkgroup (run0 :: rest) [] inner) rtol atol ana_type
  = convert_to_analysis_data check_is_md false
      (mkgroup [run0] [] inner) rtol atol ana_type.
Proof.
  intros Hpac. unfold convert_to_analysis_data, sweep_info. simpl.
  rewrite Hpac. simpl.
  destruct (sweep_shape check_is_md rtol atol [] 0 []) as [[[md combo] sh] | e];
    simpl; reflexivity.
Qed.

(** ** Sweep assignment *)

Lemma combo_columns_rectangular rows :
  rectangular rows = true ->
  exists cols, combo_columns rows (length (hd [] rows)) = Ok cols.
Proof.
  unfold rectangular, combo_columns. intros H. rewrite H. eauto.
Qed.

Lemma linspace_length start stop num :
  length (Np.linspace_int start stop num) = num.
Proof.
  unfold Np.linspace_int. rewrite length_map, length_seq. reflexivity.
Qed.

(** With [2 * h + 1] points from [-h] to [h] the step is exactly one. *)
Lemma linspace_symmetric h :
  Np.linspace_int (- Z.of_nat h) (Z.of_nat h) (2 * h + 1) = symmetric_range h.
Proof.
  unfold Np.linspace_int, symmetric_range.
  apply map_ext_in. intros k Hk. apply in_seq in Hk.
  destruct (2 * h + 1 =? 1) eqn:E1.
  - apply Nat.eqb_eq in E1. lia.
  - apply Nat.eqb_neq in E1.
    destruct (S k =? 2 * h + 1) eqn:E2.
    + apply Nat.eqb_eq in E2. lia.
    + replace (Z.of_nat h - - Z.of_nat h)%Z with (Z.of_nat (2 * h + 1 - 1)) by lia.
      rewrite Z.div_mul by lia. lia.
Qed.

(** With [n] points from [0] to [n - 1] the step is exactly one. *)
Lemma linspace_indices n :
  Np.linspace_int 0 (Z.of_nat n - 1) n = run_indices n.
Proof.
  unfold Np.linspace_int, run_indices.
  apply map_ext_in. intros k Hk. apply in_seq in Hk.
  destruct (n =? 1) eqn:E1.
  - apply Nat.eqb_eq in E1. lia.
  - apply Nat.eqb_neq in E1.
    destruct (S k =? n) eqn:E2.
    + apply Nat.eqb_eq in E2. lia.
    + replace (Z.of_nat n - 1 - 0)%Z with (Z.of_nat (n - 1)) by lia.
      rewrite Z.div_mul by lia. lia.
Qed.

Lemma odd_half n : Nat.odd n = true -> n = 2 * (n / 2) + 1.
Proof.
  intros H. apply Nat.odd_spec in H. destruct H as [m ->].
  replace (2 * m + 1) with (1 + m * 2) at 2 by lia.
  rewrite Nat.div_add by lia. simpl. lia.
Qed.

(** C4, as the code has it.  For a group of analysis type "pac" with [n]
    runs (and outer combos, if any, of one length) the sweep assignment is
    the single variable "harmonic" with [n] coordinate values, whatever the
    Monte-Carlo flag and the recorded combos are; the values run from [-H]
    to [+H] in steps of one, [H = n // 2], when [n] is odd. *)
Theorem pac_harmonic_sweep (monte_carlo : bool) (nb_dict : group) :
  rectangular (swp_combos nb_dict) = true ->
  let n := length (data nb_dict) in
  exists coords,
    sweep_info monte_carlo nb_dict "pac" = Ok (["harmonic"], n, [coords]) /\
    coords = Np.linspace_int (- Z.of_nat (n / 2)) (Z.of_nat (n / 2)) n /\
    length coords = n /\
    (Nat.odd n = true -> coords = symmetric_range (n / 2)).
Proof.
  intros Hrect n.
  exists (Np.linspace_int (- Z.of_nat (n / 2)) (Z.of_nat (n / 2)) n).
  split; [| split; [reflexivity | split]].
  - unfold sweep_info.
    destruct (swp_combos nb_dict) as [| c rows] eqn:Ec.
    + simpl. destruct monte_carlo; reflexivity.
    + destruct (combo_columns_rectangular _ Hrect) as [cols Hcols].
      simpl in Hcols. rewrite Hcols. simpl.
      destruct monte_carlo; reflexivity.
  - apply linspace_length.
  - intros Hodd. pose proof (odd_half n Hodd) as E.
    rewrite E at 3. apply linspace_symmetric.
Qed.

(** ** Padding, stacking and reshaping *)

Lemma le_max_size vs v : In v vs -> Np.size v <= max_size vs.
Proof.
  unfold max_size. induction vs as [| w vs IH]; simpl; intros H.
  - destruct H.
  - destruct H as [-> | H]; [lia | specialize (IH H); lia].
Qed.

Lemma combine_sizes (f : Np.vec -> nat -> Np.vec) (vs : list Np.vec) :
  map (fun yd => f (fst yd) (snd yd)) (combine vs (map Np.size vs))
  = map (fun v => f v (Np.size v)) vs.
Proof.
  induction vs as [| v vs IH]; simpl; [reflexivity | f_equal; exact IH].
Qed.

Lemma result_type_float vs :
  Np.result_type vs = Np.float64 ->
  forall v, In v vs -> Np.vdtype v = Np.float64.
Proof.
  induction vs as [| w vs IH]; simpl; intros H v Hin.
  - destruct Hin.
  - destruct (Np.vdtype w) eqn:Ew; simpl in H.
    + destruct Hin as [<- | Hin]; [exact Ew |].
      apply IH; [| exact Hin].
      destruct (Np.result_type vs); [reflexivity | discriminate H].
    + discriminate H.
Qed.

Lemma result_type_map_pad (k : Np.vec -> nat) vs :
  Np.result_type (map (fun v => Np.pad_right v (k v)) vs) = Np.result_type vs.
Proof.
  induction vs as [| v vs IH]; simpl; [reflexivity | rewrite IH; reflexivity].
Qed.

(** NaN written into a vector stays NaN when the stack is promoted. *)
Lemma astype_nan vs v :
  In v vs ->
  Np.astype (Np.result_type vs) (Np.nan (Np.vdtype v)) = Np.nan (Np.result_type vs).
Proof.
  intros Hin. destruct (Np.result_type vs) eqn:E.
  - rewrite (result_type_float _ E _ Hin). reflexivity.
  - destruct (Np.vdtype v); reflexivity.
Qed.

Lemma stack_ok ys len :
  ys <> [] ->
  Forall (fun w => Np.size w = len) ys ->
  Np.stack ys
  = Ok (Np.mkarr (Np.result_type ys) [length ys; len]
          (concat (map (fun w => map (Np.astype (Np.result_type ys)) (Np.vdata w))
                       ys))).
Proof.
  intros Hne H. destruct ys as [| v vs]; [contradiction Hne; reflexivity |].
  unfold Np.stack.
  assert (Hv : Np.size v = len).
  { rewrite Forall_forall in H. apply H. left. reflexivity. }
  assert (E : forallb (fun w => Np.size w =? Np.size v) (v :: vs) = true).
  { apply forallb_forall. intros w Hw. apply Nat.eqb_eq.
    rewrite Forall_forall in H. rewrite (H _ Hw). symmetry. exact Hv. }
  rewrite E, Hv. reflexivity.
Qed.

Lemma max_size_same ys len :
  ys <> [] -> Forall (fun w => Np.size w = len) ys -> max_size ys = len.
Proof.
  unfold max_size. intros Hne H.
  destruct ys as [| v vs]; [contradiction Hne; reflexivity |].
  inversion H as [| ? ? Hv Hvs]; subst. clear H Hne.
  simpl. induction Hvs as [| w ws Hw Hws IH]; simpl; lia.
Qed.

Lemma all_same_len_true ys :
  all_same_len (map Np.size ys) = true ->
  Forall (fun w => Np.size w = max_size ys) ys.
Proof.
  intros H. destruct ys as [| v vs]; [constructor |].
  assert (Hall : Forall (fun w => Np.size w = Np.size v) (v :: vs)).
  { unfold all_same_len in H. simpl in H.
    apply Forall_forall. intros w Hw.
    rewrite Nat.eqb_refl in H. simpl in H.
    destruct Hw as [<- | Hw]; [reflexivity |].
    rewrite forallb_forall in H. apply Nat.eqb_eq. apply H.
    apply in_map. exact Hw. }
  rewrite (max_size_same (v :: vs) (Np.size v)); [exact Hall | discriminate | exact Hall].
Qed.

Lemma stack_nonempty ys a : Np.stack ys = Ok a -> ys <> [].
Proof. intros H E. subst ys. discriminate H. Qed.

Lemma reshape_ok a sh b :
  Np.reshape a sh = Ok b ->
  Np.dtype_of b = Np.dtype_of a /\ Np.shape b = sh /\ Np.flat b = Np.flat a.
Proof.
  unfold Np.reshape. destruct (Np.prod sh =? length (Np.flat a)); intros H.
  - inversion H; subst. simpl. auto.
  - discriminate H.
Qed.

Lemma padded_same dt v : padded dt (Np.size v) v = map (Np.astype dt) (Np.vdata v).
Proof.
  unfold padded. rewrite Nat.sub_diag. simpl. apply app_nil_r.
Qed.

Lemma length_padded dt len v : Np.size v <= len -> length (padded dt len v) = len.
Proof.
  intros H. unfold padded. rewrite length_app, length_map, repeat_length.
  unfold Np.size in *. lia.
Qed.

(** What the signal loop stores for a signal that is stacked: rows in run
    order, each padded with NaN to the longest. *)
Lemma combined_signal_stacked runs inner n sh sig_name yvecs k a :
  gather runs n sig_name = Ok yvecs ->
  combined_signal runs inner n sh sig_name = Ok (k, a) ->
  all_same_len (map Np.size yvecs) = false \/
  String.eqb (Py.replace slash dot sig_name) inner = false ->
  Np.dtype_of a = Np.result_type yvecs /\
  Np.shape a = sh ++ [max_size yvecs] /\
  Np.flat a = concat (map (padded (Np.result_type yvecs) (max_size yvecs)) yvecs).
Proof.
  intros Hg H Hcase. unfold combined_signal in H. rewrite Hg in H.
  cbn [bind] in H. fold (max_size yvecs) in H.
  destruct (all_same_len (map Np.size yvecs)) eqn:Esame; cbn [negb] in H.
  - destruct Hcase as [Hc | Hc]; [discriminate Hc |]. rewrite Hc in H.
    bind_inv H. bind_inv H. injection H as Hk Ha. subst x0 k.
    apply reshape_ok in Hx0. destruct Hx0 as (Hd & Hs & Hf).
    pose proof (all_same_len_true _ Esame) as Hall.
    rewrite (stack_ok _ _ (stack_nonempty _ _ Hx) Hall) in Hx.
    injection Hx as Hx. rewrite <- Hx in Hd, Hf.
    cbn [Np.dtype_of Np.flat] in Hd, Hf.
    split; [exact Hd |]. split; [exact Hs |].
    rewrite Hf. apply f_equal. apply map_ext_in. intros w Hw.
    rewrite Forall_forall in Hall. rewrite <- (Hall _ Hw).
    symmetry. apply padded_same.
  - bind_inv H. bind_inv H. injection H as Hk Ha. subst x0 k.
    apply reshape_ok in Hx0. destruct Hx0 as (Hd & Hs & Hf).
    rewrite (combine_sizes (fun v d => Np.pad_right v (max_size yvecs - d))) in Hx.
    set (pad := fun v0 : Np.vec => Np.pad_right v0 (max_size yvecs - Np.size v0)) in *.
    assert (Hall : Forall (fun w => Np.size w = max_size yvecs) (map pad yvecs)).
    { apply Forall_forall. intros w Hw.
      apply in_map_iff in Hw. destruct Hw as [u [<- Hu]].
      unfold pad, Np.size, Np.pad_right. cbn [Np.vdata].
      rewrite length_app, repeat_length.
      pose proof (le_max_size yvecs u Hu) as Hle. unfold Np.size in Hle. lia. }
    rewrite (stack_ok _ _ (stack_nonempty _ _ Hx) Hall) in Hx.
    injection Hx as Hx. rewrite <- Hx in Hd, Hf.
    cbn [Np.dtype_of Np.flat] in Hd, Hf.
    unfold pad in Hd, Hf.
    rewrite (result_type_map_pad (fun v0 => max_size yvecs - Np.size v0)) in Hd, Hf.
    split; [exact Hd |]. split; [exact Hs |].
    rewrite Hf. rewrite map_map. apply f_equal.
    apply map_ext_in. intros w Hw. unfold padded, Np.pad_right. cbn [Np.vdata].
    rewrite map_app. f_equal.
    rewrite map_repeat. rewrite (astype_nan yvecs w Hw). reflexivity.
Qed.

(** ** Rows of a stacked array *)

Lemma concat_segment {A : Type} (len : nat) (bs : list (list A)) :
  Forall (fun b => length b = len) bs ->
  forall i b, nth_error bs i = Some b -> segment len i (concat bs) = b.
Proof.
  unfold segment. induction 1 as [| b0 bs Hb0 Hbs IH]; intros i b Hi.
  - destruct i; discriminate Hi.
  - destruct i as [| i]; simpl in *.
    + inversion Hi; subst b0.
      rewrite firstn_app, Hb0, Nat.sub_diag, firstn_all2 by lia.
      simpl. apply app_nil_r.
    + rewrite skipn_app, Hb0.
      replace (len + i * len - len) with (i * len) by lia.
      rewrite (skipn_all2 b0) by lia. simpl. apply IH. exact Hi.
Qed.

Lemma gather_spec runs n sig_name yvecs :
  gather runs n sig_name = Ok yvecs ->
  length yvecs = n /\
  forall i, i < n ->
    exists run v, nth_error runs i = Some run /\
                  Py.get run sig_name = Some v /\
                  nth_error yvecs i = Some v.
Proof.
  unfold gather. intros H. split.
  - rewrite (mapM_length _ _ _ H). apply length_seq.
  - intros i Hi.
    assert (Hnth : nth_error (seq 0 n) i = Some i).
    { rewrite nth_error_nth' with (d := 0) by (rewrite length_seq; exact Hi).
      rewrite seq_nth by exact Hi. reflexivity. }
    destruct (mapM_nth _ _ _ H _ _ Hnth) as [v [Hv Hf]].
    apply bind_ok in Hf. destruct Hf as [run [Hrun Hlook]].
    unfold Py.getitem in Hrun. unfold Py.lookup in Hlook.
    destruct (nth_error runs i) as [run' |] eqn:Er; [| discriminate Hrun].
    inversion Hrun; subst run'.
    destruct (Py.get run sig_name) as [v' |] eqn:Eg; [| discriminate Hlook].
    inversion Hlook; subst v'.
    exists run, v. repeat split; assumption.
Qed.

Lemma padded_rows_length dt yvecs :
  Forall (fun b => length b = max_size yvecs)
         (map (padded dt (max_size yvecs)) yvecs).
Proof.
  apply Forall_forall. intros b Hb. apply in_map_iff in Hb.
  destruct Hb as [v [<- Hv]]. apply length_padded. apply le_max_size. exact Hv.
Qed.

(** Row [k] of the stacked buffer is run [k], padded. *)
Lemma stacked_segment dt yvecs k v :
  nth_error yvecs k = Some v ->
  segment (max_size yvecs) k
    (concat (map (padded dt (max_size yvecs)) yvecs))
  = padded dt (max_size yvecs) v.
Proof.
  intros Hk. apply concat_segment.
  - apply padded_rows_length.
  - rewrite nth_error_map, Hk. reflexivity.
Qed.

(** In an array of shape [(d1, d2, len)], the vector at [(i, j)] is row
    [i * d2 + j] of the buffer. *)
Lemma row_rank3 a d1 d2 len i j :
  Np.shape a = [d1; d2; len] -> i < d1 -> j < d2 ->
  Np.row a [i; j] = Some (segment len (i * d2 + j) (Np.flat a)).
Proof.
  intros Hs Hi Hj. unfold Np.row. rewrite Hs. simpl.
  apply Nat.ltb_lt in Hi. apply Nat.ltb_lt in Hj. rewrite Hi.
  replace (0 * d1 + i) with i by lia. rewrite Hj. reflexivity.
Qed.

(** The entry the loop stored for a signal, by name. *)
Lemma combined_lookup runs inner n sh names out out' sig_name :
  store_all (combined_signal runs inner n sh) names out = Ok out' ->
  NoDup (map (Py.replace slash dot) names) ->
  In sig_name names ->
  exists a,
    combined_signal runs inner n sh sig_name
    = Ok (Py.replace slash dot sig_name, a) /\
    Py.get out' (Py.replace slash dot sig_name) = Some (VArray a).
Proof.
  intros Hloop Hnd Hin.
  destruct (store_all_entries _ _ _ _ Hloop _ Hin) as [[k a] He].
  pose proof (combined_signal_key _ _ _ _ _ _ _ He) as Hk. subst k.
  exists a. split; [exact He |].
  eapply (store_all_get _ (Py.replace slash dot)); eauto.
  intros. eapply combined_signal_key. eassumption.
Qed.

Lemma combined_signal_gathers runs inner n sh sig_name e :
  combined_signal runs inner n sh sig_name = Ok e ->
  exists yvecs, gather runs n sig_name = Ok yvecs.
Proof.
  unfold combined_signal. intros H. bind_inv H. eauto.
Qed.

Lemma combined_signal_inner runs inner n sh sig_name yvecs k a :
  gather runs n sig_name = Ok yvecs ->
  combined_signal runs inner n sh sig_name = Ok (k, a) ->
  all_same_len (map Np.size yvecs) = true ->
  String.eqb (Py.replace slash dot sig_name) inner = true ->
  exists y0, nth_error yvecs 0 = Some y0 /\ a = Np.of_vec y0.
Proof.
  intros Hg H Hsame Hinner. unfold combined_signal in H. rewrite Hg in H.
  cbn [bind] in H. rewrite Hsame, Hinner in H. cbn [negb] in H.
  bind_inv H. injection H as _ Ha. unfold Py.getitem in Hx.
  destruct (nth_error yvecs 0) as [y0 |]; [| discriminate Hx].
  injection Hx as Hx. subst x.
  exists y0. split; [reflexivity | symmetry; exact Ha].
Qed.

Lemma convert_sweep_case det mc nb rtol atol ty r vars n cl :
  convert_to_analysis_data det mc nb rtol atol ty = Ok r ->
  sweep_info mc nb ty = Ok (vars, n, cl) ->
  n <> 0 ->
  exists combo sh run0 rest,
    sweep_shape det rtol atol vars n cl = Ok (is_md r, combo, sh) /\
    data nb = run0 :: rest /\
    store_all (combined_signal (data nb) (g_inner_sweep nb) n sh)
              (Py.keys run0) (Py.update [] combo)
    = Ok (ana_data r).
Proof.
  intros H Hinfo Hn. apply convert_inv in H.
  destruct H as (vars' & n' & cl' & combo & sh & run0 & Hinfo' & Hshape & Hrun & Hloop & _).
  rewrite Hinfo in Hinfo'. injection Hinfo' as <- <- <-.
  destruct (getitem_0 _ _ Hrun) as [rest Hdata].
  exists combo, sh, run0, rest. repeat split; try assumption.
  apply Nat.eqb_neq in Hn. rewrite Hn in Hloop. exact Hloop.
Qed.

(** C3, as the code has it.  In a group with an outer sweep of [n >= 1]
    points, take a signal of run 0 (the keys of run 0 being pairwise
    distinct after the '/' to '.' renaming).  Its vectors over the first [n]
    runs are gathered; when their
    lengths differ, the stored array has the maximum length as its last
    axis and row [i] is run [i]'s vector followed by NaN up to that length.
    When all lengths agree nothing is padded: the rows are the vectors
    themselves, or, for the inner-sweep signal, the array is run 0's vector
    alone. *)
Theorem unequal_runs_padded_with_nan
  (check_is_md : detector) (monte_carlo : bool) (nb_dict : group)
  (rtol atol : Q) (ana_type : string) (r : AnalysisData)
  (swp_vars : list string) (swp_len : nat) (swp_combo_list : list (list Z))
  (run0 : Py.dict Np.vec) (sig_name : string) :
  convert_to_analysis_data check_is_md monte_carlo nb_dict rtol atol ana_type
  = Ok r ->
  sweep_info monte_carlo nb_dict ana_type
  = Ok (swp_vars, swp_len, swp_combo_list) ->
  swp_len <> 0 ->
  nth_error (data nb_dict) 0 = Some run0 ->
  NoDup (map (Py.replace slash dot) (Py.keys run0)) ->
  In sig_name (Py.keys run0) ->
  exists yvecs a,
    gather (data nb_dict) swp_len sig_name = Ok yvecs /\
    Py.get (ana_data r) (Py.replace slash dot sig_name) = Some (VArray a) /\
    let max_dim := max_size yvecs in
    let dt := Np.result_type yvecs in
    (all_same_len (map Np.size yvecs) = false ->
       last (Np.shape a) 0 = max_dim /\
       forall i v, nth_error yvecs i = Some v ->
         segment max_dim i (Np.flat a)
         = map (Np.astype dt) (Np.vdata v)
           ++ repeat (Np.nan dt) (max_dim - Np.size v)) /\
    (all_same_len (map Np.size yvecs) = true ->
       (forall v, In v yvecs -> Np.size v = max_dim) /\
       (String.eqb (Py.replace slash dot sig_name) (g_inner_sweep nb_dict) = false ->
          last (Np.shape a) 0 = max_dim /\
          forall i v, nth_error yvecs i = Some v ->
            segment max_dim i (Np.flat a) = map (Np.astype dt) (Np.vdata v)) /\
       (String.eqb (Py.replace slash dot sig_name) (g_inner_sweep nb_dict) = true ->
          exists y0, nth_error yvecs 0 = Some y0 /\ a = Np.of_vec y0)).
Proof.
  intros Hconv Hinfo Hn Hrun0 Hnd Hin.
  destruct (convert_sweep_case _ _ _ _ _ _ _ _ _ _ Hconv Hinfo Hn)
    as (combo & sh & run0' & rest & Hshape & Hdata & Hloop).
  rewrite Hdata in Hrun0. injection Hrun0 as ->.
  destruct (combined_lookup _ _ _ _ _ _ _ _ Hloop Hnd Hin) as [a [He Hget]].
  destruct (combined_signal_gathers _ _ _ _ _ _ He) as [yvecs Hg].
  exists yvecs, a. split; [exact Hg |]. split; [exact Hget |].
  intros max_dim dt. split.
  - intros Hdiff.
    destruct (combined_signal_stacked _ _ _ _ _ _ _ _ Hg He (or_introl Hdiff))
      as (_ & Hs & Hf).
    split.
    + rewrite Hs. apply last_last.
    + intros i v Hi. rewrite Hf.
      rewrite (stacked_segment _ _ _ _ Hi). reflexivity.
  - intros Hsame. pose proof (all_same_len_true _ Hsame) as Hall.
    split; [| split].
    + intros v Hv. rewrite Forall_forall in Hall. apply Hall. exact Hv.
    + intros Hinner.
      destruct (combined_signal_stacked _ _ _ _ _ _ _ _ Hg He (or_intror Hinner))
        as (_ & Hs & Hf).
      split.
      * rewrite Hs. apply last_last.
      * intros i v Hi. rewrite Hf.
        rewrite (stacked_segment _ _ _ _ Hi).
        assert (Hv : Np.size v = max_size yvecs).
        { rewrite Forall_forall in Hall. apply Hall.
          eapply nth_error_In. exact Hi. }
        unfold max_dim. rewrite <- Hv. apply padded_same.
    + intros Hinner.
      eapply combined_signal_inner; eauto.
Qed.

(** ** The outer shape *)

Lemma sweep_shape_md det rtol atol vars n cl md combo sh shape vals :
  sweep_shape det rtol atol vars n cl = Ok (md, combo, sh) ->
  det cl rtol atol = Some (shape, vals) ->
  md = true /\ sh = shape.
Proof.
  unfold sweep_shape. intros H Hdet. rewrite Hdet in H.
  bind_inv H. injection H as <- _ <-. split; reflexivity.
Qed.

Lemma sweep_shape_not_md det rtol atol vars n cl md combo sh :
  sweep_shape det rtol atol vars n cl = Ok (md, combo, sh) ->
  det cl rtol atol = None ->
  md = false /\ sh = [n] /\
  combo = fold_left (fun d var => Py.set d var (VCoordList cl)) vars [].
Proof.
  unfold sweep_shape. intros H Hdet. rewrite Hdet in H.
  injection H as <- <- <-. repeat split.
Qed.

(** C1, as the code has it.  Take a group whose sweep assignment has four
    points and for which the detector reports the shape (2, 2), and a signal
    of run 0 that is stacked (its lengths differ over the runs, or it is not
    the inner-sweep signal).  The stored array has shape (2, 2, max_dim) and
    the vector at coordinate (k div 2, k mod 2) is the padded vector of run
    [k]: the position follows the arrival index [k].  When the recorded
    combos are (0,0), (0,1), (1,0), (1,1) in that file order, this coordinate
    is the combo of run [k], so every run sits at the coordinate of its
    combo. *)
Theorem grid_runs_placed_by_arrival_index
  (check_is_md : detector) (monte_carlo : bool) (nb_dict : group)
  (rtol atol : Q) (ana_type : string) (r : AnalysisData)
  (swp_vars : list string) (swp_combo_list swp_vals : list (list Z))
  (run0 : Py.dict Np.vec) (sig_name : string) :
  convert_to_analysis_data check_is_md monte_carlo nb_dict rtol atol ana_type
  = Ok r ->
  sweep_info monte_carlo nb_dict ana_type = Ok (swp_vars, 4, swp_combo_list) ->
  check_is_md swp_combo_list rtol atol = Some ([2; 2], swp_vals) ->
  nth_error (data nb_dict) 0 = Some run0 ->
  NoDup (map (Py.replace slash dot) (Py.keys run0)) ->
  In sig_name (Py.keys run0) ->
  exists yvecs a,
    gather (data nb_dict) 4 sig_name = Ok yvecs /\
    Py.get (ana_data r) (Py.replace slash dot sig_name) = Some (VArray a) /\
    (all_same_len (map Np.size yvecs) = false \/
     String.eqb (Py.replace slash dot sig_name) (g_inner_sweep nb_dict) = false ->
     let row_of := padded (Np.result_type yvecs) (max_size yvecs) in
     Np.shape a = [2; 2; max_size yvecs] /\
     (forall k v, nth_error yvecs k = Some v ->
        Np.row a [k / 2; k mod 2] = Some (row_of v)) /\
     (swp_combos nb_dict = grid_in_file_order ->
      forall k c v,
        nth_error (swp_combos nb_dict) k = Some c ->
        nth_error yvecs k = Some v ->
        Np.row a (map Z.to_nat c) = Some (row_of v))).
Proof.
  intros Hconv Hinfo Hdet Hrun0 Hnd Hin.
  destruct (convert_sweep_case _ _ _ _ _ _ _ _ _ _ Hconv Hinfo)
    as (combo & sh & run0' & rest & Hshape & Hdata & Hloop); [discriminate |].
  rewrite Hdata in Hrun0. injection Hrun0 as ->.
  destruct (sweep_shape_md _ _ _ _ _ _ _ _ _ _ _ Hshape Hdet) as [_ ->].
  destruct (combined_lookup _ _ _ _ _ _ _ _ Hloop Hnd Hin) as [a [He Hget]].
  destruct (combined_signal_gathers _ _ _ _ _ _ He) as [yvecs Hg].
  exists yvecs, a. split; [exact Hg |]. split; [exact Hget |].
  intros Hcase row_of.
  destruct (combined_signal_stacked _ _ _ _ _ _ _ _ Hg He Hcase) as (_ & Hs & Hf).
  destruct (gather_spec _ _ _ _ Hg) as [Hlen _].
  assert (Hrow : forall k v, nth_error yvecs k = Some v ->
                   Np.row a [k / 2; k mod 2] = Some (row_of v)).
  { intros k v Hk.
    assert (Hk4 : k < 4).
    { rewrite <- Hlen. apply nth_error_Some. rewrite Hk. discriminate. }
    rewrite (row_rank3 a 2 2 (max_size yvecs)).
    - f_equal. replace (k / 2 * 2 + k mod 2) with k.
      + rewrite Hf. apply stacked_segment. exact Hk.
      + pose proof (Nat.div_mod_eq k 2). lia.
    - exact Hs.
    - apply Nat.Div0.div_lt_upper_bound. lia.
    - apply Nat.mod_upper_bound. discriminate. }
  split; [exact Hs |]. split; [exact Hrow |].
  intros Hgrid k c v Hc Hk. rewrite Hgrid in Hc.
  assert (Hcoord : map Z.to_nat c = [k / 2; k mod 2]).
  { destruct k as [| [| [| [| k]]]]; simpl in Hc;
      try (injection Hc as <-; reflexivity).
    destruct k; discriminate Hc. }
  rewrite Hcoord. apply Hrow. exact Hk.
Qed.

(** The theorem at the four runs of [ex_grid] with the detector of the
    specification: run 2, of combo (1,0), is found at coordinate (1,0). *)
Lemma grid_placement_witness :
  exists a,
    Py.get (ana_data (the_result
              (convert_to_analysis_data Spec.check_is_md false ex_grid
                 ex_tol ex_tol "tran"))) "v" = Some (VArray a) /\
    Np.shape a = [2; 2; 1] /\
    Np.row a [1; 0] = Some [Np.Fl 30].
Proof.
  destruct (grid_runs_placed_by_arrival_index Spec.check_is_md false ex_grid
              ex_tol ex_tol "tran"
              (the_result (convert_to_analysis_data Spec.check_is_md false
                             ex_grid ex_tol ex_tol "tran"))
              ["sweep0"; "sweep1"] [[0; 0; 1; 1]; [0; 1; 0; 1]]%Z
              [[0; 1]; [0; 1]]%Z (ex_run 10) "v")
    as (yvecs & a & Hg & Hget & H).
  - vm_compute. reflexivity.
  - vm_compute. reflexivity.
  - vm_compute. reflexivity.
  - reflexivity.
  - simpl. constructor; [intros [] | constructor].
  - simpl. left. reflexivity.
  - vm_compute in Hg. injection Hg as <-.
    destruct (H (or_intror eq_refl)) as (Hs & _ & Hgrid).
    exists a. split; [exact Hget |]. split; [exact Hs |].
    exact (Hgrid eq_refl 2 [1; 0]%Z _ eq_refl eq_refl).
Defined.

(** Under no detector does the vector of run 0, whose combo is (1,1), end
    up at coordinate (1,1) when the runs arrive in the permuted order. *)
Lemma permuted_grid_any_detector (det : detector) (r : AnalysisData)
  (a : Np.ndarray) :
  convert_to_analysis_data det false ex_permuted_grid ex_tol ex_tol "tran"
  = Ok r ->
  Py.get (ana_data r) "v" = Some (VArray a) ->
  Np.row a [1; 1] <> Some [Np.Fl 10].
Proof.
  intros Hconv Hget.
  destruct (convert_sweep_case det false ex_permuted_grid ex_tol ex_tol "tran" r
              ["sweep0"; "sweep1"] 4 [[1; 0; 0; 1]; [1; 0; 1; 0]]%Z Hconv)
    as (combo & sh & run0 & rest & Hshape & Hdata & Hloop);
    [reflexivity | discriminate |].
  injection Hdata as <- <-.
  destruct (combined_lookup _ _ _ _ _ _ _ "v" Hloop) as [a' [He Hget']].
  { simpl. constructor; [intros [] | constructor]. }
  { simpl. left. reflexivity. }
  change (Py.replace slash dot "v") with "v" in Hget', He.
  rewrite Hget in Hget'. injection Hget' as <-.
  destruct (combined_signal_stacked (data ex_permuted_grid)
              (g_inner_sweep ex_permuted_grid) 4 sh "v"
              [Np.mkvec Np.float64 [Np.Fl 10]; Np.mkvec Np.float64 [Np.Fl 20];
               Np.mkvec Np.float64 [Np.Fl 30]; Np.mkvec Np.float64 [Np.Fl 40]]
              "v" a eq_refl He (or_intror eq_refl)) as (_ & Hs & Hf).
  change (Np.flat a = [Np.Fl 10; Np.Fl 20; Np.Fl 30; Np.Fl 40]) in Hf.
  change (Np.shape a = sh ++ [1]) in Hs.
  unfold Np.row. rewrite Hs, rev_app_distr. simpl. rewrite rev_involutive, Hf.
  intros Hrow.
  destruct sh as [| d1 [| d2 [| d3 sh]]]; simpl in Hrow; try discriminate Hrow.
  - destruct (1 <? d1); discriminate Hrow.
  - destruct (1 <? d1); [| discriminate Hrow].
    destruct d2 as [| [| [| d2]]]; simpl in Hrow; try discriminate Hrow.
    replace ((d2 + 0 + 1) * 1) with (S d2) in Hrow by lia.
    simpl in Hrow. destruct d2; discriminate Hrow.
  - destruct (1 <? d1); [| discriminate Hrow].
    destruct (1 <? d2); discriminate Hrow.
Qed.

(** C1 fails as stated: the runs of the 2 x 2 grid arrive in the order
    (1,1), (0,0), (0,1), (1,0).  With the detector of the specification the
    outer shape is (2, 2), coordinate (0,0) holds the vector of run 0 and
    coordinate (1,1) that of run 3, although run 0 carries combo (1,1) and
    run 3 combo (1,0); and under no detector at all is the vector of run 0
    found at coordinate (1,1). *)
Lemma permuted_grid_is_misplaced :
  (exists r a,
     convert_to_analysis_data Spec.check_is_md false ex_permuted_grid
       ex_tol ex_tol "tran" = Ok r /\
     Py.get (ana_data r) "v" = Some (VArray a) /\
     Np.shape a = [2; 2; 1] /\
     Np.row a [0; 0] = Some [Np.Fl 10] /\
     Np.row a [1; 1] = Some [Np.Fl 40]) /\
  ~ (exists det r a,
       convert_to_analysis_data det false ex_permuted_grid ex_tol ex_tol "tran"
       = Ok r /\
       Py.get (ana_data r) "v" = Some (VArray a) /\
       Np.row a [1; 1] = Some [Np.Fl 10]).
Proof.
  split.
  - eexists. eexists. split; [vm_compute; reflexivity |].
    split; [reflexivity |]. repeat split.
  - intros (det & r & a & Hconv & Hget & Hrow).
    exact (permuted_grid_any_detector det r a Hconv Hget Hrow).
Qed.

(** The theorem at [ex_ragged]: the second run of "v/out" has two samples,
    its row is completed by one NaN. *)
Lemma ragged_padding_witness :
  exists a,
    Py.get (ana_data (the_result
              (convert_to_analysis_data Spec.check_is_md false ex_ragged
                 ex_tol ex_tol "tran"))) "v.out" = Some (VArray a) /\
    last (Np.shape a) 0 = 3 /\
    segment 3 1 (Np.flat a) = [Np.Fl 20; Np.Fl 21; Np.nan Np.float64].
Proof.
  destruct (unequal_runs_padded_with_nan Spec.check_is_md false ex_ragged
              ex_tol ex_tol "tran"
              (the_result (convert_to_analysis_data Spec.check_is_md false
                             ex_ragged ex_tol ex_tol "tran"))
              ["sweep0"] 2 [[0; 1]]%Z
              [("time", Np.mkvec Np.float64 [Np.Fl 0; Np.Fl 1; Np.Fl 2]);
               ("v/out", Np.mkvec Np.float64 [Np.Fl 10; Np.Fl 11; Np.Fl 12])]
              "v/out")
    as (yvecs & a & Hg & Hget & Hpad & _).
  - vm_compute. reflexivity.
  - vm_compute. reflexivity.
  - discriminate.
  - reflexivity.
  - simpl. constructor.
    + intros [H | []]. discriminate H.
    + constructor; [intros [] | constructor].
  - simpl. right. left. reflexivity.
  - vm_compute in Hg. injection Hg as <-.
    destruct (Hpad eq_refl) as [Hlast Hrows].
    exists a. split; [exact Hget |]. split; [exact Hlast |].
    exact (Hrows 1 _ eq_refl).
Defined.

(** The theorem at [ex_ragged]: "v/out" is stored under "v.out". *)
Lemma signal_key_witness :
  exists a,
    Py.get (ana_data (the_result
              (convert_to_analysis_data Spec.check_is_md false ex_ragged
                 ex_tol ex_tol "tran"))) "v.out" = Some (VArray a).
Proof.
  destruct (signal_key_replaces_slash Spec.check_is_md false ex_ragged
              ex_tol ex_tol "tran"
              (the_result (convert_to_analysis_data Spec.check_is_md false
                             ex_ragged ex_tol ex_tol "tran")))
    as (run0 & rest & vars & Hdata & _ & Hsig & _).
  - vm_compute. reflexivity.
  - injection Hdata as <- _.
    destruct (Hsig "v/out") as [Hget _].
    + simpl. right. left. reflexivity.
    + exact Hget.
Defined.

(** The theorem at a group of two runs without sweep levels. *)
Lemma zero_sweep_witness :
  convert_to_analysis_data ex_corner_detector false
    (mkgroup [ex_run 10; ex_run 20] [] "") ex_tol ex_tol "tran"
  = convert_to_analysis_data ex_corner_detector false
      (mkgroup [ex_run 10] [] "") ex_tol ex_tol "tran".
Proof.
  apply (zero_sweep_levels_read_run0_only ex_corner_detector ex_tol ex_tol
           "tran" "" (ex_run 10) [ex_run 20]).
  reflexivity.
Defined.

(** The theorem at five "pac" runs: the values are -2, -1, 0, 1, 2. *)
Lemma pac_five_runs_witness :
  sweep_info false ex_pac5 "pac"
  = Ok (["harmonic"], 5, [[-2; -1; 0; 1; 2]%Z]).
Proof.
  destruct (pac_harmonic_sweep false ex_pac5 eq_refl) as (c & Hinfo & _ & _ & Hodd).
  rewrite Hinfo. rewrite (Hodd eq_refl). reflexivity.
Defined.

(** C4 fails as stated for an even run count: with two "pac" runs [H] is 1
    and the two coordinate values are -1 and 1, not the range -1, 0, 1. *)
Lemma pac_two_runs_not_symmetric_range :
  sweep_info false ex_pac2 "pac" = Ok (["harmonic"], 2, [[-1; 1]%Z]) /\
  [-1; 1]%Z <> symmetric_range (2 / 2).
Proof.
  split.
  - reflexivity.
  - intros H. vm_compute in H. discriminate H.
Qed.

(** ** When grid detection fails *)

Lemma sweep_info_len mc nb ty vars n cl :
  sweep_info mc nb ty = Ok (vars, n, cl) ->
  n = if String.eqb ty "pac" then length (data nb)
      else if mc then length (data nb)
      else length (swp_combos nb).
Proof.
  unfold sweep_info. intros H. bind_inv H. destruct x as [[v0 n0] c0].
  assert (Hn0 : n0 = length (swp_combos nb)).
  { destruct (swp_combos nb) as [| c rows].
    - injection Hx as _ <- _. reflexivity.
    - bind_inv Hx. injection Hx as _ <- _. reflexivity. }
  destruct mc; destruct (String.eqb ty "pac"); injection H as _ <- _;
    auto.
Qed.

Lemma single_lookup inner sh (run0 : Py.dict Np.vec) out out' sig_name y :
  store_all (single_signal inner sh) run0 out = Ok out' ->
  NoDup (map (Py.replace slash dot) (Py.keys run0)) ->
  In (sig_name, y) run0 ->
  exists a,
    single_signal inner sh (sig_name, y) = Ok (Py.replace slash dot sig_name, a) /\
    Py.get out' (Py.replace slash dot sig_name) = Some (VArray a).
Proof.
  intros Hloop Hnd Hin.
  destruct (store_all_entries _ _ _ _ Hloop _ Hin) as [[k a] He].
  pose proof (single_signal_key _ _ _ _ _ He) as Hk. simpl in Hk. subst k.
  exists a. split; [exact He |].
  eapply (store_all_get _ (fun x => Py.replace slash dot (fst x))).
  - intros x k a' Hx. eapply single_signal_key. exact Hx.
  - exact Hloop.
  - unfold Py.keys in Hnd. rewrite map_map in Hnd. exact Hnd.
  - exact Hin.
  - exact He.
Qed.

Lemma single_signal_shape inner sh sig_name y k a :
  single_signal inner sh (sig_name, y) = Ok (k, a) ->
  (String.eqb (Py.replace slash dot sig_name) inner = true /\ a = Np.of_vec y) \/
  (String.eqb (Py.replace slash dot sig_name) inner = false /\
   Np.shape a = sh ++ [Np.size y] /\ Np.flat a = Np.vdata y).
Proof.
  unfold single_signal.
  destruct (String.eqb (Py.replace slash dot sig_name) inner); intros H.
  - left. injection H as _ <-. split; reflexivity.
  - right. bind_inv H. injection H as _ <-.
    apply reshape_ok in Hx. destruct Hx as (_ & Hs & Hf).
    split; [reflexivity |]. split; assumption.
Qed.

(** The shape of every stored signal when the detector finds no grid. *)
Lemma failed_detection_shapes det mc nb rtol atol ty r vars n cl run0 sig_name :
  convert_to_analysis_data det mc nb rtol atol ty = Ok r ->
  sweep_info mc nb ty = Ok (vars, n, cl) ->
  det cl rtol atol = None ->
  nth_error (data nb) 0 = Some run0 ->
  NoDup (map (Py.replace slash dot) (Py.keys run0)) ->
  In sig_name (Py.keys run0) ->
  exists a,
    Py.get (ana_data r) (Py.replace slash dot sig_name) = Some (VArray a) /\
    ((exists len, Np.shape a = [n; len]) \/
     (String.eqb (Py.replace slash dot sig_name) (g_inner_sweep nb) = true /\
      exists len, Np.shape a = [len])).
Proof.
  intros Hconv Hinfo Hdet Hrun0 Hnd Hin.
  destruct (Nat.eq_dec n 0) as [Hz | Hnz].
  - apply convert_inv in Hconv.
    destruct Hconv as (vars' & n' & cl' & combo & sh & run0' & Hinfo' & Hshape
                       & Hrun & Hloop & _).
    rewrite Hinfo in Hinfo'. injection Hinfo' as <- <- <-.
    destruct (sweep_shape_not_md _ _ _ _ _ _ _ _ _ Hshape Hdet) as (_ & -> & _).
    unfold Py.getitem in Hrun. rewrite Hrun0 in Hrun. injection Hrun as <-.
    subst n. simpl in Hloop.
    unfold Py.keys in Hin. apply in_map_iff in Hin.
    destruct Hin as [[s y] [Hs Hin]]. simpl in Hs. subst s.
    destruct (single_lookup _ _ _ _ _ _ _ Hloop Hnd Hin) as [a [He Hget]].
    exists a. split; [exact Hget |].
    destruct (single_signal_shape _ _ _ _ _ _ He) as [[Hi ->] | (Hi & Hs & _)].
    + right. split; [exact Hi |]. exists (Np.size y). reflexivity.
    + left. exists (Np.size y). exact Hs.
  - destruct (convert_sweep_case _ _ _ _ _ _ _ _ _ _ Hconv Hinfo Hnz)
      as (combo & sh & run0' & rest & Hshape & Hdata & Hloop).
    rewrite Hdata in Hrun0. injection Hrun0 as ->.
    destruct (sweep_shape_not_md _ _ _ _ _ _ _ _ _ Hshape Hdet) as (_ & -> & _).
    destruct (combined_lookup _ _ _ _ _ _ _ _ Hloop Hnd Hin) as [a [He Hget]].
    destruct (combined_signal_gathers _ _ _ _ _ _ He) as [yvecs Hg].
    exists a. split; [exact Hget |].
    destruct (all_same_len (map Np.size yvecs)) eqn:Esame;
      [destruct (String.eqb (Py.replace slash dot sig_name) (g_inner_sweep nb))
         eqn:Einner |].
    + right. split; [reflexivity |].
      destruct (combined_signal_inner _ _ _ _ _ _ _ _ Hg He Esame Einner)
        as [y0 [_ ->]].
      exists (Np.size y0). reflexivity.
    + left. exists (max_size yvecs).
      destruct (combined_signal_stacked _ _ _ _ _ _ _ _ Hg He (or_intror Einner))
        as (_ & Hs & _). exact Hs.
    + left. exists (max_size yvecs).
      destruct (combined_signal_stacked _ _ _ _ _ _ _ _ Hg He (or_introl Esame))
        as (_ & Hs & _). exact Hs.
Qed.

Lemma failed_detection_not_md det mc nb rtol atol ty r vars n cl :
  convert_to_analysis_data det mc nb rtol atol ty = Ok r ->
  sweep_info mc nb ty = Ok (vars, n, cl) ->
  det cl rtol atol = None ->
  is_md r = false.
Proof.
  intros Hconv Hinfo Hdet. apply convert_inv in Hconv.
  destruct Hconv as (vars' & n' & cl' & combo & sh & run0' & Hinfo' & Hshape & _).
  rewrite Hinfo in Hinfo'. injection Hinfo' as <- <- <-.
  destruct (sweep_shape_not_md _ _ _ _ _ _ _ _ _ Hshape Hdet) as (Hmd & _).
  exact Hmd.
Qed.

(** C6, as the code has it.  When the detector finds no grid the result is
    flagged as not multi-dimensional and the outer shape is the
    one-dimensional [(swp_len,)]: every stored signal has shape
    [(swp_len, len)], except the inner-sweep signal, which may be stored as
    a plain vector.  [swp_len] is the number of runs in the Monte-Carlo and
    "pac" cases and the number of recorded outer combos otherwise. *)
Theorem failed_detection_outer_shape_is_swp_len
  (check_is_md : detector) (monte_carlo : bool) (nb_dict : group)
  (rtol atol : Q) (ana_type : string) (r : AnalysisData)
  (swp_vars : list string) (swp_len : nat) (swp_combo_list : list (list Z)) :
  convert_to_analysis_data check_is_md monte_carlo nb_dict rtol atol ana_type
  = Ok r ->
  sweep_info monte_carlo nb_dict ana_type
  = Ok (swp_vars, swp_len, swp_combo_list) ->
  check_is_md swp_combo_list rtol atol = None ->
  is_md r = false /\
  swp_len = (if String.eqb ana_type "pac" then length (data nb_dict)
             else if monte_carlo then length (data nb_dict)
             else length (swp_combos nb_dict)) /\
  forall run0 sig_name,
    nth_error (data nb_dict) 0 = Some run0 ->
    NoDup (map (Py.replace slash dot) (Py.keys run0)) ->
    In sig_name (Py.keys run0) ->
    exists a,
      Py.get (ana_data r) (Py.replace slash dot sig_name) = Some (VArray a) /\
      ((exists len, Np.shape a = [swp_len; len]) \/
       (String.eqb (Py.replace slash dot sig_name) (g_inner_sweep nb_dict) = true /\
        exists len, Np.shape a = [len])).
Proof.
  intros Hconv Hinfo Hdet. split; [| split].
  - eapply failed_detection_not_md; eauto.
  - apply sweep_info_len with (vars := swp_vars) (cl := swp_combo_list).
    exact Hinfo.
  - intros run0 sig_name Hrun0 Hnd Hin.
    eapply failed_detection_shapes; eauto.
Qed.

(** The theorem at [ex_irregular], where the detector of the specification
    finds no grid: the signal has the outer shape (2,). *)
Lemma failed_detection_witness :
  is_md (the_result (convert_to_analysis_data Spec.check_is_md false
                       ex_irregular ex_tol ex_tol "tran")) = false /\
  exists a,
    Py.get (ana_data (the_result
              (convert_to_analysis_data Spec.check_is_md false ex_irregular
                 ex_tol ex_tol "tran"))) "v" = Some (VArray a) /\
    Np.shape a = [2; 1].
Proof.
  destruct (failed_detection_outer_shape_is_swp_len Spec.check_is_md false
              ex_irregular ex_tol ex_tol "tran"
              (the_result (convert_to_analysis_data Spec.check_is_md false
                             ex_irregular ex_tol ex_tol "tran"))
              ["sweep0"; "sweep1"] 2 [[0; 1]; [0; 1]]%Z)
    as (Hmd & _ & Hsig).
  - vm_compute. reflexivity.
  - vm_compute. reflexivity.
  - vm_compute. reflexivity.
  - split; [exact Hmd |].
    exists (Np.mkarr Np.float64 [2; 1] [Np.Fl 10; Np.Fl 20]).
    split; reflexivity.
Defined.

(** C6 fails as stated: three runs, of which two carry the combos (0,0) and
    (1,1).  The detector of the specification finds no grid; the outer shape
    is (2,), not (3,) for the three runs, and the entry of "sweep0" is the
    list of both coordinate vectors rather than its own vector [0, 1].  Under
    no detector that finds no grid is the signal stored with the outer shape
    (3,). *)
Lemma irregular_sweep_shape_and_values :
  (exists r a,
     Spec.check_is_md [[0; 1]; [0; 1]]%Z ex_tol ex_tol = None /\
     convert_to_analysis_data Spec.check_is_md false ex_irregular
       ex_tol ex_tol "tran" = Ok r /\
     length (data ex_irregular) = 3 /\
     Py.get (ana_data r) "v" = Some (VArray a) /\
     Np.shape a = [2; 1] /\
     Py.get (ana_data r) "sweep0" = Some (VCoordList [[0; 1]; [0; 1]]%Z) /\
     Py.get (ana_data r) "sweep1" = Some (VCoordList [[0; 1]; [0; 1]]%Z)) /\
  ~ (exists det r a len,
       det [[0; 1]; [0; 1]]%Z ex_tol ex_tol = None /\
       convert_to_analysis_data det false ex_irregular ex_tol ex_tol "tran"
       = Ok r /\
       Py.get (ana_data r) "v" = Some (VArray a) /\
       Np.shape a = [length (data ex_irregular); len]).
Proof.
  split.
  - eexists. eexists. split; [vm_compute; reflexivity |].
    split; [vm_compute; reflexivity |]. repeat split.
  - intros (det & r & a & len & Hdet & Hconv & Hget & Hs).
    destruct (failed_detection_shapes det false ex_irregular ex_tol ex_tol "tran"
                r ["sweep0"; "sweep1"] 2 [[0; 1]; [0; 1]]%Z (ex_run 10) "v"
                Hconv eq_refl Hdet eq_refl)
      as (a' & Hget' & Hshape).
    + simpl. constructor; [intros [] | constructor].
    + simpl. left. reflexivity.
    + change (Py.replace slash dot "v") with "v" in Hget', Hshape.
      rewrite Hget in Hget'. injection Hget' as <-.
      rewrite Hs in Hshape. destruct Hshape as [[len' H] | [H _]].
      * discriminate H.
      * discriminate H.
Qed.

(** ** The type flag of a block *)

Lemma flag_dtype_ok tok dt :
  flag_dtype tok = Ok dt <->
  (tok = "real" /\ dt = Np.float64) \/ (tok = "complex" /\ dt = Np.complex128).
Proof.
  unfold flag_dtype. split.
  - destruct (String.eqb tok "real") eqn:Er.
    + intros H. injection H as <-. apply String.eqb_eq in Er. auto.
    + destruct (String.eqb tok "complex") eqn:Ec.
      * intros H. injection H as <-. apply String.eqb_eq in Ec. auto.
      * discriminate.
  - intros [[-> ->] | [-> ->]]; reflexivity.
Qed.

Lemma flag_dtype_other tok :
  tok <> "real" -> tok <> "complex" -> flag_dtype tok = Raise ValueError.
Proof.
  intros Hr Hc. unfold flag_dtype.
  apply String.eqb_neq in Hr. apply String.eqb_neq in Hc.
  rewrite Hr, Hc. reflexivity.
Qed.

(** C7.  Let the first line of a block split into tokens of which the
    second, the type flag, is [tok].  If [tok] is neither "real" nor
    "complex" the block reader raises [ValueError] (the spec's FormatError),
    whatever follows in the stream; and the value kind is classified exactly
    for these two tokens: "real" as a double, "complex" as a complex
    number. *)
Theorem unknown_type_flag_raises
  (f f1 : string) (flags : list string) (tok : string) :
  read_tokens f = Ok (flags, f1) ->
  nth_error flags 1 = Some tok ->
  (tok <> "real" -> tok <> "complex" -> parse_analysis f = Raise ValueError) /\
  (forall dt, flag_dtype tok = Ok dt <->
              (tok = "real" /\ dt = Np.float64) \/
              (tok = "complex" /\ dt = Np.complex128)) /\
  ((exists dt, flag_dtype tok = Ok dt) <-> tok = "real" \/ tok = "complex").
Proof.
  intros Hread Htok. split; [| split].
  - intros Hr Hc. unfold parse_analysis. rewrite Hread. cbn [bind].
    unfold Py.getitem. rewrite Htok. cbn [bind].
    rewrite (flag_dtype_other _ Hr Hc). reflexivity.
  - intros dt. apply flag_dtype_ok.
  - split.
    + intros [dt H]. apply flag_dtype_ok in H.
      destruct H as [[H _] | [H _]]; auto.
    + intros [-> | ->]; eexists; reflexivity.
Qed.

(** The theorem at a block whose type flag is "double". *)
Lemma unknown_type_flag_witness :
  parse_analysis ("Flags: double" ++ Spec.nl ++ "No. Variables: 1")%string
  = Raise ValueError.
Proof.
  refine (proj1 (unknown_type_flag_raises
                   ("Flags: double" ++ Spec.nl ++ "No. Variables: 1")%string
                   "No. Variables: 1" ["Flags:"; "double"] "double" _ _) _ _).
  - reflexivity.
  - reflexivity.
  - discriminate.
  - discriminate.
Defined.

(** ** Monte-Carlo mode *)

Lemma populate_dict_discards d plotname blk info :
  get_info_from_plotname plotname = Ok info ->
  Py.startswith (ana_name info) "__mc_" = false ->
  populate_dict true d plotname blk = Ok d.
Proof.
  intros Hinfo Hpre. unfold populate_dict. rewrite Hinfo. cbn [bind].
  rewrite Hpre. reflexivity.
Qed.

Lemma populate_dict_keeps d plotname blk info :
  get_info_from_plotname plotname = Ok info ->
  Py.startswith (ana_name info) "__mc_" = true ->
  populate_dict true d plotname blk = populate_dict false d plotname blk.
Proof.
  intros Hinfo Hpre. unfold populate_dict. rewrite Hinfo. cbn [bind].
  rewrite Hpre. reflexivity.
Qed.

(** In Monte-Carlo mode the accumulator sees the file as if the blocks
    without the prefix were not there. *)
Lemma accumulate_filters blocks :
  Forall (fun pb => exists info, get_info_from_plotname (fst pb) = Ok info)
         blocks ->
  forall d,
    accumulate true blocks d
    = accumulate false (filter (fun pb => is_mc_run (fst pb)) blocks) d.
Proof.
  unfold accumulate.
  induction 1 as [| [pn blk] blocks [info Hinfo] _ IH]; intros d.
  - reflexivity.
  - simpl in Hinfo. cbn [foldM filter fst snd].
    unfold is_mc_run at 1. rewrite Hinfo.
    destruct (Py.startswith (ana_name info) "__mc_") eqn:Hpre.
    + cbn [foldM fst snd].
      rewrite (populate_dict_keeps _ _ _ _ Hinfo Hpre).
      destruct (populate_dict false d pn blk) as [d' | e]; cbn [bind].
      * apply IH.
      * reflexivity.
    + rewrite (populate_dict_discards _ _ _ _ Hinfo Hpre). cbn [bind].
      apply IH.
Qed.

Lemma monte_carlo_sweep_info nb ty :
  String.eqb ty "pac" = false ->
  rectangular (swp_combos nb) = true ->
  sweep_info true nb ty
  = Ok (["monte_carlo"], length (data nb), [run_indices (length (data nb))]).
Proof.
  intros Hpac Hrect. unfold sweep_info. rewrite Hpac.
  rewrite linspace_indices.
  destruct (swp_combos nb) as [| c rows] eqn:Ec.
  - reflexivity.
  - destruct (combo_columns_rectangular _ Hrect) as [cols Hcols].
    simpl in Hcols. rewrite Hcols. reflexivity.
Qed.

(** C5.  In Monte-Carlo mode a block whose analysis name lacks the prefix
    "__mc_" leaves the accumulated dictionary as it was, so accumulating a
    file is accumulating its prefixed blocks only; the sweep assignment of a
    Monte-Carlo group of [n] runs is the single variable "monte_carlo" with
    the coordinates 0 .. n-1.  For the nominal run followed by five
    randomized runs the group holds exactly five runs, and with the detector
    of the specification the "monte_carlo" axis is stored as
    [0, 1, 2, 3, 4]. *)
Theorem monte_carlo_discards_nominal_run :
  (forall ana_dict plotname blk info,
     get_info_from_plotname plotname = Ok info ->
     Py.startswith (ana_name info) "__mc_" = false ->
     populate_dict true ana_dict plotname blk = Ok ana_dict) /\
  (forall blocks ana_dict,
     Forall (fun pb => exists info, get_info_from_plotname (fst pb) = Ok info)
            blocks ->
     accumulate true blocks ana_dict
     = accumulate false (filter (fun pb => is_mc_run (fst pb)) blocks) ana_dict) /\
  (forall nb_dict ana_type,
     String.eqb ana_type "pac" = false ->
     rectangular (swp_combos nb_dict) = true ->
     sweep_info true nb_dict ana_type
     = Ok (["monte_carlo"], length (data nb_dict),
           [run_indices (length (data nb_dict))])) /\
  (exists g r,
     accumulate true ex_mc_blocks [] = Ok [("tran", [("tb_env", g)])] /\
     data g = [ex_block 10; ex_block 20; ex_block 30; ex_block 40; ex_block 50] /\
     convert_to_analysis_data Spec.check_is_md true g ex_tol ex_tol "tran" = Ok r /\
     sweep_params r = ["corner"; "monte_carlo"; "time"] /\
     Py.get (ana_data r) "monte_carlo" = Some (VCoord [0; 1; 2; 3; 4]%Z)).
Proof.
  split; [| split; [| split]].
  - intros. eapply populate_dict_discards; eauto.
  - intros blocks d H. apply accumulate_filters. exact H.
  - intros. apply monte_carlo_sweep_info; assumption.
  - eexists. eexists. split; [vm_compute; reflexivity |].
    split; [reflexivity |].
    split; [vm_compute; reflexivity |].
    split; reflexivity.
Qed.

(** The theorem at the nominal plot name and at a Monte-Carlo group of two
    runs. *)
Lemma monte_carlo_witness :
  populate_dict true [] ex_nominal_plotname (ex_block 0) = Ok [] /\
  sweep_info true (mkgroup [ex_block 10; ex_block 20] [] "time") "tran"
  = Ok (["monte_carlo"], 2, [[0; 1]%Z]).
Proof.
  destruct monte_carlo_discards_nominal_run as (Hdiscard & _ & Hsweep & _).
  split.
  - apply (Hdiscard [] ex_nominal_plotname (ex_block 0)
             (mkinfo "tran__tb_env" "tb_env" "tran" [] [] "time")).
    + vm_compute. reflexivity.
    + reflexivity.
  - apply (Hsweep (mkgroup [ex_block 10; ex_block 20] [] "time") "tran").
    + reflexivity.
    + reflexivity.
Defined.

(** ** The environment list of the output container *)

Lemma insert_sorted_perm k l : Permutation (k :: l) (Py.insert_sorted k l).
Proof.
  induction l as [| x l IH]; simpl.
  - apply Permutation_refl.
  - destruct (String.leb k x).
    + apply Permutation_refl.
    + eapply Permutation_trans; [apply perm_swap |].
      apply perm_skip. exact IH.
Qed.

Lemma sorted_perm l : Permutation l (Py.sorted l).
Proof.
  induction l as [| k l IH]; simpl.
  - apply Permutation_refl.
  - eapply Permutation_trans; [| apply insert_sorted_perm].
    apply perm_skip. exact IH.
Qed.

Lemma insert_sorted_hd k x l :
  str_le x k -> HdRel str_le x l -> HdRel str_le x (Py.insert_sorted k l).
Proof.
  intros Hxk Hhd. destruct l as [| y l]; simpl.
  - constructor. exact Hxk.
  - destruct (String.leb k y).
    + constructor. exact Hxk.
    + constructor. inversion Hhd; subst. assumption.
Qed.

Lemma insert_sorted_sorted k l :
  Sorted str_le l -> Sorted str_le (Py.insert_sorted k l).
Proof.
  induction 1 as [| x l Hs IH Hhd]; simpl.
  - constructor; constructor.
  - destruct (String.leb k x) eqn:E.
    + constructor; [constructor; assumption |]. constructor. exact E.
    + constructor; [exact IH |].
      apply insert_sorted_hd; [| exact Hhd].
      destruct (String.leb_total k x) as [H | H]; [congruence | exact H].
Qed.

Lemma sorted_sorted l : Sorted str_le (Py.sorted l).
Proof.
  induction l as [| k l IH]; simpl.
  - constructor.
  - apply insert_sorted_sorted. exact IH.
Qed.

Lemma foldM_app {A S : Type} (body : S -> A -> result S) xs ys s :
  foldM body (xs ++ ys) s = (s' <- foldM body xs s;; foldM body ys s').
Proof.
  revert s. induction xs as [| x xs IH]; intros s; simpl.
  - reflexivity.
  - destruct (body s x) as [s1 | e]; simpl; [apply IH | reflexivity].
Qed.

Lemma convert_ana_type_envs {T : Type} det (combine_envs : combiner T)
  mc rtol atol st item st' :
  convert_ana_type det combine_envs mc rtol atol st item = Ok st' ->
  snd st' = Py.sorted (Py.keys (snd item)).
Proof.
  destruct item as [ty envs]. unfold convert_ana_type. intros H.
  bind_inv H. bind_inv H. injection H as <-. reflexivity.
Qed.

(** C10.  The environment list handed to [SimData] is the sorted key list
    of the environment dictionary of the last analysis type iterated (the
    empty list when there is no analysis type): it is in code-point order,
    a permutation of those keys, and holds no environment that only an
    earlier analysis type saw. *)
Theorem sim_envs_of_last_analysis_type
  {T : Type} (check_is_md : detector) (combine_ana_sim_envs : combiner T)
  (monte_carlo : bool) (nb_data : Py.dict (Py.dict group)) (rtol atol : Q)
  (sd : SimData T) :
  convert_to_sim_data check_is_md combine_ana_sim_envs monte_carlo nb_data
    rtol atol = Ok sd ->
  (nb_data = [] -> sim_envs sd = []) /\
  (forall earlier ana_type sim_env_dict,
     nb_data = earlier ++ [(ana_type, sim_env_dict)] ->
     sim_envs sd = Py.sorted (Py.keys sim_env_dict) /\
     Sorted str_le (sim_envs sd) /\
     Permutation (Py.keys sim_env_dict) (sim_envs sd) /\
     (forall ana_type' sim_env_dict' env,
        In (ana_type', sim_env_dict') earlier ->
        In env (Py.keys sim_env_dict') ->
        ~ In env (Py.keys sim_env_dict) ->
        ~ In env (sim_envs sd))).
Proof.
  unfold convert_to_sim_data. intros H. bind_inv H.
  destruct x as [ana_dict envs]. injection H as <-. simpl. split.
  - intros ->. simpl in Hx. injection Hx as _ <-. reflexivity.
  - intros earlier ana_type sim_env_dict ->.
    rewrite foldM_app in Hx. apply bind_ok in Hx.
    destruct Hx as [st [_ Hlast]]. cbn [foldM] in Hlast.
    apply bind_ok in Hlast. destruct Hlast as [st' [Hstep Hret]].
    injection Hret as ->.
    apply convert_ana_type_envs in Hstep. cbn [snd] in Hstep.
    rewrite Hstep. split; [reflexivity |]. split; [apply sorted_sorted |].
    split; [apply sorted_perm |].
    intros ty' envs' env _ _ Hnot Hin. apply Hnot.
    eapply Permutation_in; [| exact Hin].
    apply Permutation_sym. apply sorted_perm.
Qed.

(** The theorem at [ex_nb_data]: the list is that of "ac", read last, and
    the environment tb_tt of "tran" is not in it. *)
Lemma sim_envs_witness :
  exists sd,
    convert_to_sim_data ex_corner_detector ex_combiner false ex_nb_data
      ex_tol ex_tol = Ok sd /\
    sim_envs sd = ["tb_ss"] /\
    ~ In "tb_tt" (sim_envs sd).
Proof.
  assert (H : exists sd, convert_to_sim_data ex_corner_detector ex_combiner
                           false ex_nb_data ex_tol ex_tol = Ok sd).
  { vm_compute. eexists. reflexivity. }
  destruct H as [sd Hsd]. exists sd. split; [exact Hsd |].
  destruct (sim_envs_of_last_analysis_type _ _ _ _ _ _ sd Hsd) as [_ Hlast].
  destruct (Hlast [("tran", ex_tran_envs)] "ac" ex_ac_envs eq_refl)
    as (Heq & _ & _ & Habsent).
  split.
  - rewrite Heq. reflexivity.
  - apply (Habsent "tran" ex_tran_envs "tb_tt").
    + left. reflexivity.
    + left. reflexivity.
    + simpl. intros [H | []]. discriminate H.
Defined.

(** ** Header lines: printing and reading back *)

Ltac digit_vals :=
  change (Py.digit_val "0") with 0%Z; change (Py.digit_val "1") with 1%Z;
  change (Py.digit_val "2") with 2%Z; change (Py.digit_val "3") with 3%Z;
  change (Py.digit_val "4") with 4%Z; change (Py.digit_val "5") with 5%Z;
  change (Py.digit_val "6") with 6%Z; change (Py.digit_val "7") with 7%Z;
  change (Py.digit_val "8") with 8%Z; change (Py.digit_val "9") with 9%Z.

Lemma int_digits_uint d acc :
  (0 <= acc)%Z ->
  Py.int_digits acc true (NilEmpty.string_of_uint d)
  = Some (Z.of_nat (Nat.of_uint_acc d (Z.to_nat acc))).
Proof.
  revert acc. induction d as [| d IH | d IH | d IH | d IH | d IH | d IH
                               | d IH | d IH | d IH | d IH]; intros acc Hacc;
    cbn [NilEmpty.string_of_uint Py.int_digits Nat.of_uint_acc];
    try (change (Py.isdigit _) with true; cbv iota; digit_vals;
         rewrite IH by lia;
         rewrite Nat.tail_mul_spec; do 3 f_equal; lia).
  f_equal. lia.
Qed.

Lemma int_string_of_uint d :
  d <> Decimal.Nil ->
  Py.int (NilEmpty.string_of_uint d) = Ok (Z.of_nat (Nat.of_uint d)).
Proof.
  intros Hd. unfold Py.int, Nat.of_uint.
  destruct d; [contradiction Hd; reflexivity | ..];
    cbn [NilEmpty.string_of_uint Py.int_digits Nat.of_uint_acc];
    change (Py.code _ =? 45) with false; change (Py.code _ =? 43) with false;
    change (Py.isdigit _) with true; cbv iota; digit_vals;
    (rewrite int_digits_uint by lia);
    rewrite Nat.tail_mul_spec; f_equal; rewrite Z.mul_1_l; do 2 f_equal; lia.
Qed.

Lemma int_str_of_nat n : Py.int (Py.str_of_nat n) = Ok (Z.of_nat n).
Proof.
  unfold Py.str_of_nat, NilZero.string_of_uint.
  pose proof (DecimalNat.Unsigned.of_to n) as Hn.
  destruct (Nat.to_uint n) eqn:E;
    [simpl in Hn; subst n; reflexivity
    | rewrite <- Hn; apply int_string_of_uint; discriminate ..].
Qed.

Lemma string_app_nil_r s : (s ++ EmptyString)%string = s.
Proof.
  induction s as [| c s IH]; simpl; [reflexivity | rewrite IH; reflexivity].
Qed.

Lemma string_app_assoc a b c : ((a ++ b) ++ c)%string = (a ++ (b ++ c))%string.
Proof.
  induction a as [| x a IH]; simpl; [reflexivity | rewrite IH; reflexivity].
Qed.

Lemma forall_chars_app p a b :
  Py.forall_chars p (a ++ b)%string = Py.forall_chars p a && Py.forall_chars p b.
Proof.
  induction a as [| c a IH]; simpl; [reflexivity |].
  rewrite IH. apply andb_assoc.
Qed.

Lemma forall_chars_impl (p q : ascii -> bool) s :
  (forall c, p c = true -> q c = true) ->
  Py.forall_chars p s = true -> Py.forall_chars q s = true.
Proof.
  intros Hpq. induction s as [| c s IH]; simpl; [reflexivity |].
  intros H. apply andb_true_iff in H. destruct H as [Hc Hs].
  rewrite (Hpq _ Hc), (IH Hs). reflexivity.
Qed.

Lemma token_char_plain c :
  Spec.token_char c = true ->
  Py.isspace c = false /\ Py.is_newline c = false /\ (Py.code c <? 128) = true.
Proof.
  unfold Spec.token_char, Py.isspace, Py.is_newline. intros H.
  apply andb_true_iff in H. destruct H as [H1 H2].
  apply Nat.leb_le in H1. apply Nat.leb_le in H2.
  repeat split.
  - apply orb_false_iff. split; apply andb_false_iff.
    + right. apply Nat.leb_gt. lia.
    + right. apply Nat.leb_gt. lia.
  - apply Nat.eqb_neq. lia.
  - apply Nat.ltb_lt. lia.
Qed.

Lemma is_token_chars t :
  Spec.is_token t = true -> t <> EmptyString /\ Py.forall_chars Spec.token_char t = true.
Proof.
  unfold Spec.is_token. intros H. apply andb_true_iff in H.
  destruct H as [Hne Hc]. split; [| exact Hc].
  intros ->. discriminate Hne.
Qed.

(** [readline] stops at the first line terminator. *)
Lemma readline_line s rest :
  Py.forall_chars (fun c => negb (Py.is_newline c)) s = true ->
  readline (s ++ String Spec.newline rest) = ((s ++ Spec.nl)%string, rest).
Proof.
  induction s as [| c s IH]; simpl; intros H.
  - reflexivity.
  - apply andb_true_iff in H. destruct H as [Hc Hs].
    apply negb_true_iff in Hc. rewrite Hc, (IH Hs). reflexivity.
Qed.

Lemma snoc_append w c : Py.snoc w c = (w ++ String c EmptyString)%string.
Proof.
  induction w as [| d w IH]; simpl; [reflexivity | rewrite IH; reflexivity].
Qed.

Lemma append_assoc_cons w c t :
  ((w ++ String c EmptyString) ++ t)%string = (w ++ String c t)%string.
Proof.
  induction w as [| d w IH]; simpl; [reflexivity | rewrite IH; reflexivity].
Qed.

(** A token in progress swallows token characters. *)
Lemma split_go_some w t r :
  Py.forall_chars Spec.token_char t = true ->
  Py.split_go (Some w) (t ++ r) = Py.split_go (Some (w ++ t)%string) r.
Proof.
  revert w. induction t as [| c t IH]; intros w H; simpl.
  - rewrite string_app_nil_r. reflexivity.
  - simpl in H. apply andb_true_iff in H. destruct H as [Hc Ht].
    destruct (token_char_plain _ Hc) as (Hsp & _ & _). rewrite Hsp.
    rewrite (IH _ Ht). rewrite snoc_append, append_assoc_cons. reflexivity.
Qed.

Lemma split_go_token t c r :
  Spec.is_token t = true -> Py.isspace c = true ->
  Py.split_go None (t ++ String c r) = t :: Py.split_go None r.
Proof.
  intros Ht Hc. destruct (is_token_chars _ Ht) as [Hne Hchars].
  destruct t as [| d t]; [contradiction Hne; reflexivity |].
  simpl in Hchars. apply andb_true_iff in Hchars. destruct Hchars as [Hd Hrest].
  destruct (token_char_plain _ Hd) as (Hsp & _ & _).
  cbn [String.append Py.split_go]. rewrite Hsp.
  rewrite (split_go_some _ _ _ Hrest). cbn [Py.split_go String.append].
  rewrite Hc. reflexivity.
Qed.

Lemma sep_plain sep :
  sep = Spec.space \/ sep = Spec.tab ->
  Py.isspace sep = true /\ Py.is_newline sep = false /\ (Py.code sep <? 128) = true.
Proof. intros [-> | ->]; repeat split. Qed.

Lemma join_chars (p : ascii -> bool) sep toks :
  p sep = true ->
  Forall (fun t => Py.forall_chars p t = true) toks ->
  Py.forall_chars p (Spec.join sep toks) = true.
Proof.
  intros Hsep. induction 1 as [| t toks Ht Htoks IH]; [reflexivity |].
  destruct toks as [| t' toks]; [exact Ht |].
  change (Spec.join sep (t :: t' :: toks))
    with (t ++ String sep (Spec.join sep (t' :: toks)))%string.
  rewrite forall_chars_app, Ht. cbn [Py.forall_chars andb].
  rewrite Hsep. cbn [andb]. exact IH.
Qed.

Lemma split_join sep toks :
  Py.isspace sep = true ->
  Forall (fun t => Spec.is_token t = true) toks ->
  Py.split_go None (Spec.join sep toks ++ Spec.nl) = toks.
Proof.
  intros Hsep. induction 1 as [| t toks Ht Htoks IH]; [reflexivity |].
  destruct toks as [| t' toks].
  - cbn [Spec.join]. unfold Spec.nl.
    rewrite (split_go_token _ _ _ Ht) by reflexivity. reflexivity.
  - change (Spec.join sep (t :: t' :: toks))
      with (t ++ String sep (Spec.join sep (t' :: toks)))%string.
    rewrite string_app_assoc. cbn [String.append].
    rewrite (split_go_token _ _ _ Ht Hsep). f_equal. exact IH.
Qed.

(** Reading a header line gives back its tokens and leaves the rest of the
    stream. *)
Lemma read_tokens_header_line sep lead toks rest :
  sep = Spec.space \/ sep = Spec.tab ->
  Forall (fun t => Spec.is_token t = true) toks ->
  read_tokens (Spec.header_line sep lead toks ++ rest) = Ok (toks, rest).
Proof.
  intros Hsep Htoks. destruct (sep_plain _ Hsep) as (Hsp & Hnl & Hasc).
  set (body := ((if lead then String sep EmptyString else EmptyString)
                ++ Spec.join sep toks)%string).
  assert (Hline : (Spec.header_line sep lead toks ++ rest)%string
                  = (body ++ String Spec.newline rest)%string).
  { unfold Spec.header_line, body, Spec.nl.
    rewrite !string_app_assoc. reflexivity. }
  assert (Hplain : forall p, p sep = true ->
                     (forall c, Spec.token_char c = true -> p c = true) ->
                     Py.forall_chars p body = true).
  { intros p Hp Htok. unfold body. rewrite forall_chars_app.
    apply andb_true_iff. split.
    - destruct lead; simpl; [rewrite Hp |]; reflexivity.
    - apply join_chars; [exact Hp |].
      eapply Forall_impl; [| exact Htoks]. intros t Ht.
      destruct (is_token_chars _ Ht) as [_ Hc].
      eapply forall_chars_impl; [exact Htok | exact Hc]. }
  unfold read_tokens. rewrite Hline, readline_line.
  - unfold Py.decode_ascii, Py.all_ascii.
    rewrite forall_chars_app, Hplain; cycle 1.
    + exact Hasc.
    + intros c Hc. apply (token_char_plain _ Hc).
    + change (Py.forall_chars (fun c => Py.code c <? 128) Spec.nl) with true.
      cbn [andb bind]. f_equal. f_equal. unfold Py.split, body.
      destruct lead.
      * cbn [String.append Py.split_go]. rewrite Hsp.
        apply split_join; assumption.
      * cbn [String.append]. apply split_join; assumption.
  - apply Hplain.
    + rewrite Hnl. reflexivity.
    + intros c Hc. destruct (token_char_plain _ Hc) as (_ & Hn & _).
      rewrite Hn. reflexivity.
Qed.

Lemma string_of_uint_chars d :
  Py.forall_chars Spec.token_char (NilEmpty.string_of_uint d) = true.
Proof.
  induction d; cbn [NilEmpty.string_of_uint Py.forall_chars];
    [reflexivity | rewrite IHd; reflexivity ..].
Qed.

Lemma str_of_nat_token n : Spec.is_token (Py.str_of_nat n) = true.
Proof.
  unfold Py.str_of_nat, NilZero.string_of_uint, Spec.is_token.
  destruct (Nat.to_uint n) as [| d | d | d | d | d | d | d | d | d | d];
    [reflexivity | ..];
    cbn [NilEmpty.string_of_uint Py.forall_chars String.eqb negb andb];
    rewrite string_of_uint_chars; reflexivity.
Qed.

Lemma read_var_names_encode names idx rest :
  Forall (fun t => Spec.is_token t = true) names ->
  read_var_names (length names) idx (Spec.encode_vars idx names ++ rest)
  = Ok (names, rest).
Proof.
  intros H. revert idx. induction H as [| name names Hname Hnames IH]; intros idx.
  - reflexivity.
  - cbn [length read_var_names Spec.encode_vars].
    rewrite string_app_assoc.
    destruct (idx =? 0) eqn:E.
    + rewrite read_tokens_header_line.
      * cbn [bind]. unfold Py.getitem. cbn [nth_error bind].
        rewrite IH. reflexivity.
      * right. reflexivity.
      * repeat constructor; try assumption. apply str_of_nat_token.
    + rewrite read_tokens_header_line.
      * cbn [bind]. unfold Py.getitem. cbn [nth_error bind].
        rewrite IH. reflexivity.
      * right. reflexivity.
      * repeat constructor; try assumption. apply str_of_nat_token.
Qed.

(** ** The binary payload: writing and reading back *)

Lemma code_ascii_of_nat k : k < 256 -> Py.code (ascii_of_nat k) = k.
Proof. intros H. unfold Py.code. apply nat_ascii_embedding. exact H. Qed.

Lemma read_be_bytes n x acc rest :
  Np.read_be n acc (Spec.be_bytes n x ++ rest)
  = Some ((acc * 256 ^ Z.of_nat n + x mod 256 ^ Z.of_nat n)%Z, rest).
Proof.
  revert acc. induction n as [| n IH]; intros acc.
  - simpl. rewrite Z.mod_1_r. do 2 f_equal. lia.
  - cbn [Spec.be_bytes String.append Np.read_be].
    assert (Hd : (0 <= (x / 256 ^ Z.of_nat n) mod 256 < 256)%Z)
      by (apply Z.mod_pos_bound; lia).
    rewrite code_ascii_of_nat by lia.
    rewrite Z2Nat.id by lia. rewrite IH. do 2 f_equal.
    rewrite Nat2Z.inj_succ, Z.pow_succ_r by lia.
    rewrite (Z.mul_comm 256 (256 ^ Z.of_nat n)).
    rewrite (Z.rem_mul_r x (256 ^ Z.of_nat n) 256) by lia.
    ring.
Qed.

Lemma read_u64 b rest :
  Spec.is_u64 b = true ->
  Np.read_be 8 0 (Spec.be_bytes 8 b ++ rest) = Some (b, rest).
Proof.
  intros H. unfold Spec.is_u64 in H. apply andb_true_iff in H.
  destruct H as [H0 H1]. apply Z.leb_le in H0. apply Z.ltb_lt in H1.
  rewrite read_be_bytes. do 2 f_equal.
  change (256 ^ Z.of_nat 8)%Z with (2 ^ 64)%Z.
  rewrite Z.mod_small by lia. lia.
Qed.

Lemma read_sample_encode dt x rest :
  Spec.sample_ok dt x = true ->
  Np.read_sample dt (Spec.encode_sample x ++ rest) = Some (x, rest).
Proof.
  destruct dt, x as [b | re im]; simpl Spec.sample_ok; intros H;
    try discriminate H.
  - unfold Np.read_sample, Spec.encode_sample. rewrite (read_u64 _ _ H).
    reflexivity.
  - apply andb_true_iff in H. destruct H as [Hre Him].
    unfold Np.read_sample, Spec.encode_sample.
    rewrite string_app_assoc, (read_u64 _ _ Hre), (read_u64 _ _ Him).
    reflexivity.
Qed.

Lemma read_samples_encode dt xs rest :
  Forall (fun x => Spec.sample_ok dt x = true) xs ->
  Np.read_samples dt (length xs) (Spec.encode_payload xs ++ rest) = (xs, rest).
Proof.
  induction 1 as [| x xs Hx Hxs IH]; [reflexivity |].
  cbn [length Np.read_samples Spec.encode_payload].
  rewrite string_app_assoc, (read_sample_encode _ _ _ Hx), IH. reflexivity.
Qed.

(** ** De-interleaving *)

Lemma every_nth {A : Type} (step : nat) (l : list A) :
  0 < step ->
  forall wait j,
    nth_error (Np.every step wait l) j = nth_error l (wait + j * step).
Proof.
  intros Hstep. induction l as [| x l IH]; intros wait j.
  - simpl. destruct j, (wait + _); reflexivity.
  - destruct wait as [| w].
    + cbn [Np.every]. destruct j as [| j].
      * reflexivity.
      * cbn [nth_error]. rewrite IH.
        replace (0 + S j * step) with (S (step - 1 + j * step)) by lia.
        reflexivity.
    + cbn [Np.every]. rewrite IH. reflexivity.
Qed.

Lemma slice_nth {A : Type} (idx step j : nat) (l : list A) :
  0 < step ->
  nth_error (Np.slice_from idx step l) j = nth_error l (j * step + idx).
Proof.
  intros Hstep. unfold Np.slice_from. rewrite every_nth by exact Hstep.
  f_equal. lia.
Qed.

Lemma slice_length {A : Type} (idx step num : nat) (l : list A) :
  idx < step -> length l = step * num ->
  length (Np.slice_from idx step l) = num.
Proof.
  intros Hidx Hlen.
  assert (Hiff : forall j, j < length (Np.slice_from idx step l) <-> j < num).
  { intros j. rewrite <- nth_error_Some, slice_nth by lia.
    rewrite nth_error_Some, Hlen. split; intros H; nia. }
  destruct (Nat.lt_trichotomy (length (Np.slice_from idx step l)) num)
    as [H | [H | H]].
  - apply Hiff in H. lia.
  - exact H.
  - apply Hiff in H. lia.
Qed.

Lemma set_fresh {V : Type} (d : Py.dict V) k v :
  ~ In k (Py.keys d) -> Py.set d k v = d ++ [(k, v)].
Proof.
  induction d as [| [k' v'] d IH]; simpl; intros H; [reflexivity |].
  destruct (String.eqb k' k) eqn:E.
  - apply String.eqb_eq in E. subst. exfalso. apply H. left. reflexivity.
  - f_equal. apply IH. intros Hin. apply H. right. exact Hin.
Qed.

Lemma fold_set_fresh {V A : Type} (key : A -> string) (val : A -> V)
  (items : list A) (d : Py.dict V) :
  NoDup (map key items) ->
  (forall x, In x items -> ~ In (key x) (Py.keys d)) ->
  fold_left (fun acc x => Py.set acc (key x) (val x)) items d
  = d ++ map (fun x => (key x, val x)) items.
Proof.
  revert d. induction items as [| x items IH]; intros d Hnd Hfresh; simpl.
  - symmetry. apply app_nil_r.
  - inversion Hnd as [| ? ? Hx Hnd']; subst.
    rewrite set_fresh by (apply Hfresh; left; reflexivity).
    rewrite IH.
    + rewrite <- app_assoc. reflexivity.
    + exact Hnd'.
    + intros y Hy Hin. unfold Py.keys in Hin. rewrite map_app in Hin.
      apply in_app_or in Hin. destruct Hin as [Hin | [Hin | []]].
      * apply (Hfresh y); [right; exact Hy | exact Hin].
      * simpl in Hin. apply Hx. rewrite Hin. apply in_map. exact Hy.
Qed.

Lemma enumerate_from_snd {A : Type} (l : list A) i :
  map snd (Py.enumerate_from i l) = l.
Proof.
  revert i. induction l as [| x l IH]; intros i; simpl;
    [reflexivity | rewrite IH; reflexivity].
Qed.

Lemma enumerate_from_nth {A : Type} (l : list A) i j x :
  nth_error l j = Some x -> In (i + j, x) (Py.enumerate_from i l).
Proof.
  revert i j. induction l as [| y l IH]; intros i j H.
  - destruct j; discriminate H.
  - destruct j as [| j]; simpl in *.
    + injection H as ->. left. f_equal. lia.
    + right. replace (i + S j) with (S i + j) by lia. apply IH. exact H.
Qed.

(** With pairwise distinct names the block dictionary has one column per
    name, in header order. *)
Lemma columns_distinct dt bin nv names :
  NoDup names ->
  columns dt bin nv names
  = map (fun iv => (snd iv, column dt bin nv (fst iv) (snd iv)))
        (Py.enumerate names).
Proof.
  intros Hnd. unfold columns.
  rewrite (fold_set_fresh snd (fun iv => column dt bin nv (fst iv) (snd iv))).
  - reflexivity.
  - unfold Py.enumerate. rewrite enumerate_from_snd. exact Hnd.
  - intros x _ [].
Qed.

Lemma get_in_nodup {V : Type} (d : Py.dict V) k v :
  NoDup (Py.keys d) -> In (k, v) d -> Py.get d k = Some v.
Proof.
  induction d as [| [k' v'] d IH]; simpl; intros Hnd Hin; [destruct Hin |].
  inversion Hnd as [| ? ? Hk Hnd']; subst.
  destruct Hin as [Heq | Hin].
  - injection Heq as -> ->. rewrite String.eqb_refl. reflexivity.
  - destruct (String.eqb k' k) eqn:E.
    + apply String.eqb_eq in E. subst k'. exfalso. apply Hk.
      unfold Py.keys. apply (in_map fst) in Hin. exact Hin.
    + apply IH; assumption.
Qed.

Lemma columns_get dt bin nv names i name :
  NoDup names -> nth_error names i = Some name ->
  Py.keys (columns dt bin nv names) = names /\
  Py.get (columns dt bin nv names) name = Some (column dt bin nv i name).
Proof.
  intros Hnd Hi. rewrite (columns_distinct _ _ _ _ Hnd).
  assert (Hkeys : Py.keys (map (fun iv => (snd iv, column dt bin nv (fst iv) (snd iv)))
                               (Py.enumerate names)) = names).
  { unfold Py.keys. rewrite map_map. simpl.
    unfold Py.enumerate. apply enumerate_from_snd. }
  split; [exact Hkeys |].
  apply get_in_nodup.
  - rewrite Hkeys. exact Hnd.
  - apply in_map_iff. exists (i, name). split; [reflexivity |].
    apply (enumerate_from_nth names 0 i name Hi).
Qed.

(** ** Reading an encoded block *)

Lemma readline_binary rest :
  readline (Spec.header_line Spec.space false ["Binary:"] ++ rest)
  = (Spec.header_line Spec.space false ["Binary:"], rest).
Proof. reflexivity. Qed.

Lemma getitem_last_3 {A : Type} (a b c : A) : Py.getitem_last [a; b; c] = Ok c.
Proof. reflexivity. Qed.

Lemma fromfile_encode dt xs rest :
  Forall (fun x => Spec.sample_ok dt x = true) xs ->
  Np.fromfile dt (Z.of_nat (length xs)) (Spec.encode_payload xs ++ rest)
  = (xs, rest).
Proof.
  intros H. unfold Np.fromfile.
  destruct (Z.of_nat (length xs) <? 0)%Z eqn:E.
  - apply Z.ltb_lt in E. lia.
  - rewrite Nat2Z.id. apply read_samples_encode. exact H.
Qed.

(** The block reader on the encoding of a block: the columns of its payload,
    and the stream after the block. *)
Lemma parse_encoded_block (b : Spec.block) (rest : string) :
  Forall (fun t => Spec.is_token t = true) (Spec.b_names b) ->
  length (Spec.b_payload b) = length (Spec.b_names b) * Spec.b_points b ->
  Forall (fun x => Spec.sample_ok (Spec.b_dtype b) x = true) (Spec.b_payload b) ->
  parse_analysis (Spec.encode_block b ++ rest)
  = Ok (columns (Spec.b_dtype b) (Spec.b_payload b)
                (length (Spec.b_names b)) (Spec.b_names b), rest).
Proof.
  intros Hnames Hlen Hpayload.
  unfold parse_analysis, Spec.encode_block.
  rewrite !string_app_assoc.
  rewrite read_tokens_header_line; cycle 1.
  { left. reflexivity. }
  { repeat constructor. destruct (Spec.b_dtype b); reflexivity. }
  cbn [bind]. unfold Py.getitem at 1. cbn [nth_error bind].
  assert (Hflag : flag_dtype (Spec.flag_name (Spec.b_dtype b))
                  = Ok (Spec.b_dtype b))
    by (destruct (Spec.b_dtype b); reflexivity).
  rewrite Hflag. cbn [bind].
  rewrite read_tokens_header_line; cycle 1.
  { left. reflexivity. }
  { repeat constructor. apply str_of_nat_token. }
  cbn [bind]. rewrite getitem_last_3. cbn [bind].
  rewrite int_str_of_nat. cbn [bind].
  rewrite read_tokens_header_line; cycle 1.
  { left. reflexivity. }
  { repeat constructor. apply str_of_nat_token. }
  cbn [bind]. rewrite getitem_last_3. cbn [bind].
  rewrite int_str_of_nat. cbn [bind].
  rewrite Nat2Z.id.
  rewrite (read_var_names_encode _ 0 _ Hnames). cbn [bind].
  rewrite readline_binary.
  rewrite <- Nat2Z.inj_mul, <- Hlen.
  rewrite (fromfile_encode _ _ _ Hpayload). reflexivity.
Qed.

Lemma columns_keys dt bin nv names :
  NoDup names -> Py.keys (columns dt bin nv names) = names.
Proof.
  intros Hnd. rewrite (columns_distinct _ _ _ _ Hnd).
  unfold Py.keys. rewrite map_map. simpl.
  unfold Py.enumerate. apply enumerate_from_snd.
Qed.

Lemma real_size v : Np.size (Np.real v) = Np.size v.
Proof.
  unfold Np.real, Np.size. destruct (Np.vdtype v); simpl;
    [reflexivity | apply length_map].
Qed.

Lemma sample_ok_real dt x :
  Spec.sample_ok dt x = true -> dt = Np.float64 -> Np.real_part x = x.
Proof.
  intros H ->. destruct x; [reflexivity | discriminate H].
Qed.

(** C2, as the code has it.  For a well-formed block (header tokens without
    blanks, pairwise distinct variable names, [num_vars >= 1],
    [num_points >= 1], a payload of [num_vars * num_points] samples of the
    declared kind) the block reader, run on the encoding of the block,
    consumes exactly the block and returns exactly [num_vars] columns, named
    as in the header and of length [num_points] each.  Sample [j] of variable
    [i] is payload element [j * num_vars + i], except for the variable named
    "freq": its column holds the real parts of those elements, as doubles. *)
Theorem block_reader_deinterleaves (b : Spec.block) (rest : string) :
  let num_vars := length (Spec.b_names b) in
  let num_points := Spec.b_points b in
  1 <= num_vars ->
  1 <= num_points ->
  Forall (fun t => Spec.is_token t = true) (Spec.b_names b) ->
  NoDup (Spec.b_names b) ->
  length (Spec.b_payload b) = num_vars * num_points ->
  Forall (fun x => Spec.sample_ok (Spec.b_dtype b) x = true) (Spec.b_payload b) ->
  exists cols,
    parse_analysis (Spec.encode_block b ++ rest) = Ok (cols, rest) /\
    Py.keys cols = Spec.b_names b /\
    length cols = num_vars /\
    forall i name,
      nth_error (Spec.b_names b) i = Some name ->
      exists col,
        Py.get cols name = Some col /\
        Np.size col = num_points /\
        (String.eqb name "freq" = false ->
           Np.vdtype col = Spec.b_dtype b /\
           forall j, j < num_points ->
             nth_error (Np.vdata col) j
             = nth_error (Spec.b_payload b) (j * num_vars + i)) /\
        (String.eqb name "freq" = true ->
           Np.vdtype col = Np.float64 /\
           forall j, j < num_points ->
             nth_error (Np.vdata col) j
             = option_map Np.real_part
                 (nth_error (Spec.b_payload b) (j * num_vars + i))).
Proof.
  intros num_vars num_points Hnv Hnp Hnames Hnd Hlen Hpayload.
  exists (columns (Spec.b_dtype b) (Spec.b_payload b) num_vars (Spec.b_names b)).
  split; [apply parse_encoded_block; assumption |].
  split; [apply columns_keys; exact Hnd |].
  split.
  { transitivity (length (Py.keys (columns (Spec.b_dtype b) (Spec.b_payload b)
                                           num_vars (Spec.b_names b)))).
    - unfold Py.keys. symmetry. apply length_map.
    - rewrite columns_keys by exact Hnd. reflexivity. }
  intros i name Hi.
  destruct (columns_get (Spec.b_dtype b) (Spec.b_payload b) num_vars _ _ _ Hnd Hi)
    as [_ Hget].
  assert (Hidx : i < num_vars).
  { apply nth_error_Some. rewrite Hi. discriminate. }
  assert (Hslice : length (Np.slice_from i num_vars (Spec.b_payload b))
                   = num_points)
    by (apply slice_length; assumption).
  exists (column (Spec.b_dtype b) (Spec.b_payload b) num_vars i name).
  split; [exact Hget |]. unfold column.
  destruct (String.eqb name "freq") eqn:Efreq.
  - split; [rewrite real_size; exact Hslice |].
    split; [discriminate |]. intros _.
    unfold Np.real. cbn [Np.vdtype Np.vdata].
    destruct (Spec.b_dtype b) eqn:Edt; cbn [Np.vdtype Np.vdata].
    + split; [reflexivity |]. intros j Hj.
      rewrite slice_nth by lia.
      destruct (nth_error (Spec.b_payload b) (j * num_vars + i)) as [x |] eqn:Ex;
        [| reflexivity].
      simpl. f_equal. symmetry.
      apply (sample_ok_real Np.float64); [| reflexivity].
      rewrite Forall_forall in Hpayload. apply Hpayload.
      eapply nth_error_In. exact Ex.
    + split; [reflexivity |]. intros j Hj.
      rewrite nth_error_map, slice_nth by lia. reflexivity.
  - split; [exact Hslice |].
    split; [| discriminate]. intros _.
    split; [reflexivity |]. intros j Hj.
    cbn [Np.vdata]. apply slice_nth. lia.
Qed.

(** The theorem at [ex_real_block], followed in the stream by the next plot
    name. *)
Lemma block_reader_witness :
  parse_analysis (Spec.encode_block ex_real_block ++ "Plotname")
  = Ok ([("time", Np.mkvec Np.float64 [Np.Fl 0; Np.Fl 1; Np.Fl 2]);
         ("v(out)", Np.mkvec Np.float64 [Np.Fl 10; Np.Fl 11; Np.Fl 12])],
        "Plotname").
Proof.
  destruct (block_reader_deinterleaves ex_real_block "Plotname")
    as (cols & Hparse & _).
  - simpl. lia.
  - simpl. lia.
  - repeat constructor.
  - repeat constructor; simpl; intuition discriminate.
  - reflexivity.
  - repeat constructor.
  - rewrite Hparse. vm_compute in Hparse. injection Hparse as <-. reflexivity.
Defined.

(** C2 fails as stated for the variable "freq" of a complex block: the
    block holds 1.0 + 2.0j for it, the column holds the double 1.0, so
    sample 0 of variable 0 is not payload element 0 and the column is not
    reproduced. *)
Lemma complex_freq_column_is_real_part :
  exists cols col,
    parse_analysis (Spec.encode_block ex_complex_block) = Ok (cols, "") /\
    Py.get cols "freq" = Some col /\
    col = Np.mkvec Np.float64 [Np.Fl 4607182418800017408] /\
    nth_error (Spec.b_payload ex_complex_block) (0 * 2 + 0)
    = Some (Np.Cx 4607182418800017408 4611686018427387904) /\
    nth_error (Np.vdata col) 0
    <> nth_error (Spec.b_payload ex_complex_block) (0 * 2 + 0).
Proof.
  eexists. eexists. split; [vm_compute; reflexivity |].
  split; [reflexivity |]. split; [reflexivity |]. split; [reflexivity |].
  simpl. discriminate.
Qed.

(** ** The read loop terminates *)

Lemma readline_length f l r :
  readline f = (l, r) -> String.length f = String.length l + String.length r.
Proof.
  revert l r. induction f as [| c f IH]; simpl; intros l r H.
  - injection H as <- <-. reflexivity.
  - destruct (Py.is_newline c).
    + injection H as <- <-. reflexivity.
    + destruct (readline f) as [l' r'] eqn:E. injection H as <- <-.
      simpl. rewrite (IH _ _ eq_refl). reflexivity.
Qed.

Lemma read_tokens_length f toks r :
  read_tokens f = Ok (toks, r) -> String.length r <= String.length f.
Proof.
  unfold read_tokens. destruct (readline f) as [l f'] eqn:E. intros H.
  bind_inv H. injection H as _ <-.
  rewrite (readline_length _ _ _ E). lia.
Qed.

Lemma read_var_names_length n idx f names r :
  read_var_names n idx f = Ok (names, r) -> String.length r <= String.length f.
Proof.
  revert idx f names r. induction n as [| n IH]; intros idx f names r H.
  - injection H as _ <-. lia.
  - cbn [read_var_names] in H. bind_as H tf Htf. destruct tf as [toks f'].
    bind_as H name Hname. bind_as H nf Hnf. destruct nf as [names' f''].
    injection H as _ <-.
    apply read_tokens_length in Htf. apply IH in Hnf. lia.
Qed.

Lemma read_be_length n acc f z r :
  Np.read_be n acc f = Some (z, r) -> String.length r <= String.length f.
Proof.
  revert acc f. induction n as [| n IH]; intros acc f H.
  - injection H as _ <-. lia.
  - destruct f as [| c f]; [discriminate H |].
    cbn [Np.read_be] in H. apply IH in H. simpl. lia.
Qed.

Lemma read_sample_length dt f x r :
  Np.read_sample dt f = Some (x, r) -> String.length r <= String.length f.
Proof.
  unfold Np.read_sample. destruct dt.
  - destruct (Np.read_be 8 0 f) as [[b f'] |] eqn:E; [| discriminate].
    intros H. injection H as _ <-. eapply read_be_length. exact E.
  - destruct (Np.read_be 8 0 f) as [[re f'] |] eqn:E; [| discriminate].
    destruct (Np.read_be 8 0 f') as [[im f''] |] eqn:E'; [| discriminate].
    intros H. injection H as _ <-.
    apply read_be_length in E. apply read_be_length in E'. lia.
Qed.

Lemma read_samples_length dt count f xs r :
  Np.read_samples dt count f = (xs, r) -> String.length r <= String.length f.
Proof.
  revert f xs r. induction count as [| k IH]; intros f xs r H.
  - injection H as _ <-. lia.
  - cbn [Np.read_samples] in H.
    destruct (Np.read_sample dt f) as [[x f'] |] eqn:E.
    + destruct (Np.read_samples dt k f') as [xs' r'] eqn:E'.
      injection H as _ <-.
      apply read_sample_length in E. apply IH in E'. lia.
    + injection H as _ <-. simpl. lia.
Qed.

Lemma parse_analysis_length f blk r :
  parse_analysis f = Ok (blk, r) -> String.length r <= String.length f.
Proof.
  unfold parse_analysis. intros H.
  bind_as H r1 H1. destruct r1 as [flags f1].
  bind_as H tok Htok. bind_as H nptype Hty.
  bind_as H r2 H2. destruct r2 as [l2 f2].
  bind_as H t2 Ht2. bind_as H num_vars Hnv.
  bind_as H r3 H3. destruct r3 as [l3 f3].
  bind_as H t3 Ht3. bind_as H num_points Hnp.
  bind_as H r4 H4. destruct r4 as [names f4].
  destruct (readline f4) as [l5 f5] eqn:E5.
  destruct (Np.fromfile nptype (num_vars * num_points) f5) as [bin f6] eqn:E6.
  injection H as _ <-.
  apply read_tokens_length in H1, H2, H3.
  apply read_var_names_length in H4.
  apply readline_length in E5.
  unfold Np.fromfile in E6.
  destruct (num_vars * num_points <? 0)%Z; apply read_samples_length in E6; lia.
Qed.

(** The bound on the number of iterations is never exhausted. *)
Lemma read_blocks_total fuel mc d f :
  String.length f < fuel -> read_blocks fuel mc d f <> None.
Proof.
  revert d f. induction fuel as [| fuel IH]; intros d f Hlt; [lia |].
  cbn [read_blocks]. destruct (readline f) as [l f1] eqn:E.
  unfold Py.decode_ascii. destruct (Py.all_ascii l); [| discriminate].
  destruct (String.length l =? 0) eqn:El; [discriminate |].
  apply Nat.eqb_neq in El.
  destruct (parse_analysis f1) as [[blk f2] | e] eqn:Ep; [| discriminate].
  destruct (populate_dict mc d l blk) as [d' | e]; [| discriminate].
  apply IH. apply readline_length in E. apply parse_analysis_length in Ep. lia.
Qed.

Lemma parse_raw_file_total mc contents : parse_raw_file mc contents <> None.
Proof.
  unfold parse_raw_file.
  destruct (readline contents) as [l1 f1]. destruct (readline f1) as [l2 f2].
  apply read_blocks_total. lia.
Qed.

(** ** The whole pipeline on a small file *)

(** The Monte-Carlo file with its nominal run in front: read in Monte-Carlo
    mode it yields one group of exactly the five randomized runs; read in
    plain mode it yields all six. *)
Lemma monte_carlo_file_example :
  parse_raw_file true ex_mc_file
  = Some (Ok [("tran",
               [("tb_env",
                 mkgroup [ex_block 10; ex_block 20; ex_block 30; ex_block 40;
                          ex_block 50] [] "time")])]) /\
  parse_raw_file false ex_mc_file
  = Some (Ok [("tran",
               [("tb_env",
                 mkgroup [ex_block 0; ex_block 10; ex_block 20; ex_block 30;
                          ex_block 40; ex_block 50] [] "time")])]).
Proof.
  split; vm_compute; reflexivity.
Qed.

(** The plot names of section 8 of the specification. *)
Lemma plotname_examples :
  get_info_from_plotname
    ("Plotname: `tran__tb_env: time = (1 0)'" ++ Spec.nl)%string
  = Ok (mkinfo "tran__tb_env: time = (1 0)" "tb_env" "tran" [] [] "time") /\
  get_info_from_plotname
    ("Plotname: `swp00-003_swp01-012_ac__tb_env' AC: freq = (1 Hz -> 1 GHz)"
     ++ Spec.nl)%string
  = Ok (mkinfo "swp00-003_swp01-012_ac__tb_env" "tb_env" "ac"
          ["swp00"; "swp01"] [3; 12]%Z "freq").
Proof.
  split; vm_compute; reflexivity.
Qed.

(** ** What the fallback branch stores for the sweep variables *)

Lemma set_entries {V : Type} (d : Py.dict V) k v kv :
  In kv (Py.set d k v) -> kv = (k, v) \/ In kv d.
Proof.
  induction d as [| [k' v'] d IH]; simpl.
  - intros [<- | []]. left. reflexivity.
  - destruct (String.eqb k' k) eqn:E; simpl.
    + apply String.eqb_eq in E. subst k'. intros [<- | H]; auto.
    + intros [<- | H]; auto. destruct (IH H); auto.
Qed.

Lemma fold_set_const_get {V A : Type} (key : A -> string) (val : A -> V)
  (c : V) (xs : list A) (d : Py.dict V) k :
  (forall x, In x xs -> val x = c) ->
  In k (map key xs) \/ Py.get d k = Some c ->
  Py.get (fold_left (fun acc x => Py.set acc (key x) (val x)) xs d) k = Some c.
Proof.
  revert d. induction xs as [| x xs IH]; intros d Hval H; simpl.
  - destruct H as [[] | H]. exact H.
  - apply IH; [intros y Hy; apply Hval; right; exact Hy |].
    destruct (string_dec (key x) k) as [E | E].
    + right. rewrite E, (Hval x (or_introl eq_refl)). apply get_set_same.
    + destruct H as [[H | H] | H].
      * contradiction.
      * left. exact H.
      * right. rewrite get_set_other by exact E. exact H.
Qed.

Lemma fold_set_const_entries {V : Type} (c : V) (vars : list string) kv :
  In kv (fold_left (fun d var => Py.set d var c) vars []) -> snd kv = c.
Proof.
  assert (G : forall d, (forall e, In e d -> snd e = c) ->
                In kv (fold_left (fun d var => Py.set d var c) vars d) ->
                snd kv = c).
  { induction vars as [| v vars IH]; simpl; intros d Hd H.
    - apply Hd. exact H.
    - apply (IH (Py.set d v c)); [| exact H].
      intros e He. destruct (set_entries _ _ _ _ He) as [-> | He'];
        [reflexivity | apply Hd; exact He']. }
  apply G. intros e [].
Qed.

(** When the detector finds no grid, every sweep variable that no signal
    overwrites holds the complete list of coordinate vectors
    [swp_combo_list], the same for each of them (line 258). *)
Lemma failed_detection_stores_combo_list
  det mc nb rtol atol ty r vars n cl run0 var :
  convert_to_analysis_data det mc nb rtol atol ty = Ok r ->
  sweep_info mc nb ty = Ok (vars, n, cl) ->
  det cl rtol atol = None ->
  nth_error (data nb) 0 = Some run0 ->
  In var vars ->
  (forall sig_name, In sig_name (Py.keys run0) ->
                    Py.replace slash dot sig_name <> var) ->
  Py.get (ana_data r) var = Some (VCoordList cl).
Proof.
  intros Hconv Hinfo Hdet Hrun0 Hvar Hfree.
  apply convert_inv in Hconv.
  destruct Hconv as (vars' & n' & cl' & combo & sh & run0' & Hinfo' & Hshape
                     & Hrun & Hloop & _).
  rewrite Hinfo in Hinfo'. injection Hinfo' as <- <- <-.
  unfold Py.getitem in Hrun. rewrite Hrun0 in Hrun. injection Hrun as <-.
  destruct (sweep_shape_not_md _ _ _ _ _ _ _ _ _ Hshape Hdet) as (_ & _ & Hcombo).
  assert (Hout : Py.get (Py.update [] combo) var = Some (VCoordList cl)).
  { unfold Py.update. apply fold_set_const_get.
    - intros kv Hkv. rewrite Hcombo in Hkv.
      apply fold_set_const_entries in Hkv. exact Hkv.
    - left. rewrite Hcombo.
      assert (Hk : Py.get (fold_left (fun d v => Py.set d v (VCoordList cl)) vars [])
                          var = Some (VCoordList cl)).
      { apply (fold_set_const_get (fun v => v) (fun _ => VCoordList cl)).
        - reflexivity.
        - left. rewrite map_id. exact Hvar. }
      apply get_in_keys in Hk. exact Hk. }
  rewrite <- Hout. destruct (n =? 0).
  - apply (store_all_frame _ (fun x => Py.replace slash dot (fst x))
             (single_signal_key _ _) _ _ _ _ Hloop).
    intros [s y] Hin. apply Hfree. unfold Py.keys.
    apply (in_map fst) in Hin. exact Hin.
  - apply (store_all_frame _ (Py.replace slash dot)
             (combined_signal_key _ _ _ _) _ _ _ _ Hloop).
    exact Hfree.
Qed.

(** ** The example groups are what the accumulator builds *)

(** Each group used in an example above is accumulated from blocks whose
    plot names the classifier accepts. *)
Lemma example_groups_are_accumulated :
  accumulate false
    [(ex_swp_plotname "000" "000", ex_run 10);
     (ex_swp_plotname "000" "001", ex_run 20);
     (ex_swp_plotname "001" "000", ex_run 30);
     (ex_swp_plotname "001" "001", ex_run 40)] []
  = Ok [("tran", [("tb_env", ex_grid)])] /\
  accumulate false
    [(ex_swp_plotname "001" "001", ex_run 10);
     (ex_swp_plotname "000" "000", ex_run 20);
     (ex_swp_plotname "000" "001", ex_run 30);
     (ex_swp_plotname "001" "000", ex_run 40)] []
  = Ok [("tran", [("tb_env", ex_permuted_grid)])] /\
  accumulate false
    [(ex_swp_plotname "000" "000", ex_run 10);
     (ex_swp_plotname "001" "001", ex_run 20);
     (ex_plain_plotname "tran", ex_run 30)] []
  = Ok [("tran", [("tb_env", ex_irregular)])] /\
  accumulate false
    [(ex_plain_plotname "pac", ex_run 1); (ex_plain_plotname "pac", ex_run 2)] []
  = Ok [("pac", [("tb_env", ex_pac2)])] /\
  accumulate false
    [(ex_plain_plotname "tran",
      [("v", Np.mkvec Np.float64 [Np.Fl 10; Np.Fl 11; Np.Fl 12])]);
     (ex_plain_plotname "tran",
      [("v", Np.mkvec Np.float64 [Np.Fl 20; Np.Fl 21])])] []
  = Ok [("tran", [("tb_env", ex_unequal_plain)])].
Proof.
  repeat split; vm_compute; reflexivity.
Qed.

(** ** Unequal runs without an outer sweep *)

(** C3 fails as stated for a group without sweep levels: the two runs of
    [ex_unequal_plain] have three and two samples of "v".  With a detector
    that answers the shape (1,) the stored array is run 0 alone, of shape
    (1, 3); and under no detector does the stored array hold a NaN. *)
Lemma zero_sweep_unequal_runs_not_padded :
  (exists r a,
     convert_to_analysis_data ex_corner_detector false ex_unequal_plain
       ex_tol ex_tol "tran" = Ok r /\
     Py.get (ana_data r) "v" = Some (VArray a) /\
     Np.shape a = [1; 3] /\
     Np.flat a = [Np.Fl 10; Np.Fl 11; Np.Fl 12]) /\
  ~ (exists det r a,
       convert_to_analysis_data det false ex_unequal_plain ex_tol ex_tol "tran"
       = Ok r /\
       Py.get (ana_data r) "v" = Some (VArray a) /\
       In (Np.nan Np.float64) (Np.flat a)).
Proof.
  split.
  - eexists. eexists. split; [vm_compute; reflexivity |].
    split; [reflexivity |]. split; reflexivity.
  - intros (det & r & a & Hconv & Hget & Hnan).
    apply convert_inv in Hconv.
    destruct Hconv as (vars & n & cl & combo & sh & run0 & Hinfo & Hshape
                       & Hrun & Hloop & _).
    injection Hinfo as <- <- <-. injection Hrun as <-.
    cbn [Nat.eqb data g_inner_sweep ex_unequal_plain] in Hloop.
    destruct (single_lookup "" sh _ _ _ "v"
                (Np.mkvec Np.float64 [Np.Fl 10; Np.Fl 11; Np.Fl 12]) Hloop)
      as [a' [He Hget']].
    + simpl. constructor; [intros [] | constructor].
    + left. reflexivity.
    + change (Py.replace slash dot "v") with "v" in Hget', He.
      rewrite Hget in Hget'. injection Hget' as <-.
      assert (Hflat : Np.flat a = [Np.Fl 10; Np.Fl 11; Np.Fl 12]).
      { destruct (single_signal_shape _ _ _ _ _ _ He) as [[_ ->] | (_ & _ & Hf)];
          [reflexivity | exact Hf]. }
      rewrite Hflat in Hnan. simpl in Hnan.
      destruct Hnan as [H | [H | [H | []]]]; discriminate H.
Qed.

(** * Further properties of the code *)

(** ** More on dictionaries *)

Lemma get_none_not_in {V : Type} (d : Py.dict V) k :
  Py.get d k = None -> ~ In k (Py.keys d).
Proof.
  intros H Hin. apply in_keys_get in Hin. destruct Hin as [v Hv]. congruence.
Qed.

Lemma keys_set {V : Type} (d : Py.dict V) k v :
  Py.keys (Py.set d k v)
  = if Py.contains d k then Py.keys d else Py.keys d ++ [k].
Proof.
  unfold Py.contains. induction d as [| [k0 v0] d IH]; simpl; [reflexivity |].
  destruct (String.eqb k0 k) eqn:E; simpl; [reflexivity |].
  rewrite IH. destruct (Py.get d k); reflexivity.
Qed.

Lemma set_nodup {V : Type} (d : Py.dict V) k v :
  NoDup (Py.keys d) -> NoDup (Py.keys (Py.set d k v)).
Proof.
  intros H. rewrite keys_set. unfold Py.contains.
  destruct (Py.get d k) eqn:E; [exact H |].
  apply get_none_not_in in E.
  apply NoDup_rev in H. rewrite <- (rev_involutive (Py.keys d ++ [k])).
  apply NoDup_rev. rewrite rev_app_distr. simpl. constructor; [| exact H].
  rewrite <- in_rev. exact E.
Qed.

Section FoldSet.

Context {V A : Type}.
Variable key : A -> string.
Variable val : A -> V.

Local Abbreviation put := (fun (acc : Py.dict V) (x : A) => Py.set acc (key x) (val x)).

Lemma fold_set_nodup xs d :
  NoDup (Py.keys d) -> NoDup (Py.keys (fold_left put xs d)).
Proof.
  revert d. induction xs as [| x xs IH]; intros d H; simpl; [exact H |].
  apply IH. apply set_nodup. exact H.
Qed.

Lemma fold_set_frame xs d k :
  (forall x, In x xs -> key x <> k) ->
  Py.get (fold_left put xs d) k = Py.get d k.
Proof.
  revert d. induction xs as [| x xs IH]; intros d H; simpl; [reflexivity |].
  rewrite IH by (intros y Hy; apply H; right; exact Hy).
  apply get_set_other. apply H. left. reflexivity.
Qed.

(** The value under a key is the one written last. *)
Lemma fold_set_last pre x post d :
  (forall y, In y post -> key y <> key x) ->
  Py.get (fold_left put (pre ++ x :: post) d) (key x) = Some (val x).
Proof.
  intros H. rewrite fold_left_app. simpl.
  rewrite fold_set_frame by exact H. apply get_set_same.
Qed.

Lemma fold_set_keys_in xs d k :
  In k (Py.keys d) \/ In k (map key xs) ->
  In k (Py.keys (fold_left put xs d)).
Proof.
  revert d. induction xs as [| x xs IH]; intros d H; simpl.
  - destruct H as [H | []]. exact H.
  - apply IH. destruct H as [H | [H | H]].
    + left. apply keys_set_in. right. exact H.
    + left. apply keys_set_in. left. symmetry. exact H.
    + right. exact H.
Qed.

End FoldSet.

Lemma enumerate_from_app {A : Type} (a b : list A) i :
  Py.enumerate_from i (a ++ b)
  = Py.enumerate_from i a ++ Py.enumerate_from (i + length a) b.
Proof.
  revert i. induction a as [| x a IH]; intros i; simpl.
  - rewrite Nat.add_0_r. reflexivity.
  - rewrite IH. rewrite <- plus_n_Sm. reflexivity.
Qed.

(** ** The block reader on irregular blocks *)

(** X1.  A block reader that finds fewer than two tokens on the line where
    the type flag should be, for one because the stream has ended, raises
    [IndexError]: the flag is taken with [split()[1]] and nothing guards
    it. *)
Theorem header_without_type_flag_raises (f f1 : string) (flags : list string) :
  read_tokens f = Ok (flags, f1) ->
  length flags < 2 ->
  parse_analysis f = Raise IndexError.
Proof.
  intros Hread Hlen. unfold parse_analysis. rewrite Hread. cbn [bind].
  unfold Py.getitem.
  destruct (nth_error flags 1) as [tok |] eqn:E.
  - assert (Hsome : nth_error flags 1 <> None) by congruence.
    apply nth_error_Some in Hsome. lia.
  - reflexivity.
Qed.

(** The theorem at the end of the stream and at a flag line of one token. *)
Lemma header_without_type_flag_witness :
  parse_analysis "" = Raise IndexError /\
  parse_analysis ("Flags:" ++ Spec.nl ++ "No. Variables: 1" ++ Spec.nl)
  = Raise IndexError.
Proof.
  split.
  - apply (header_without_type_flag_raises "" "" []); [reflexivity | simpl; lia].
  - apply (header_without_type_flag_raises _ ("No. Variables: 1" ++ Spec.nl)
             ["Flags:"]); [reflexivity | simpl; lia].
Defined.

(** X2.  When a name occurs several times in the variable list, the block
    dictionary keeps one entry for it: the column of the last variable that
    bears the name.  The keys of the dictionary are pairwise distinct, they
    are the names that occur, and so there are at most as many entries as
    variables. *)
Theorem repeated_variable_name_keeps_last_column
  (nptype : Np.dtype) (bin_data : list Np.sample) (num_vars : nat)
  (before : list string) (var_name : string) (after : list string) :
  ~ In var_name after ->
  let var_names := before ++ var_name :: after in
  let data := columns nptype bin_data num_vars var_names in
  Py.get data var_name
  = Some (column nptype bin_data num_vars (length before) var_name) /\
  NoDup (Py.keys data) /\
  (forall k, In k (Py.keys data) <-> In k var_names) /\
  length data <= length var_names.
Proof.
  intros Hlast var_names data.
  assert (Hkeys : forall k, In k (Py.keys data) <-> In k var_names).
  { intros k. unfold data, columns. split; intros H.
    - apply fold_set_keys in H. destruct H as [[] | H].
      unfold Py.enumerate in H.
      change (In k (map snd (Py.enumerate_from 0 var_names))) in H.
      rewrite enumerate_from_snd in H. exact H.
    - apply (fold_set_keys_in (fun iv : nat * string => snd iv)). right.
      unfold Py.enumerate. rewrite enumerate_from_snd. exact H. }
  assert (Hnd : NoDup (Py.keys data)).
  { unfold data, columns.
    apply (fold_set_nodup (fun iv : nat * string => snd iv)). constructor. }
  repeat split.
  - unfold data, columns, var_names, Py.enumerate.
    rewrite enumerate_from_app. cbn [Py.enumerate_from plus].
    apply (fold_set_last (fun iv : nat * string => snd iv)
             (fun iv => column nptype bin_data num_vars (fst iv) (snd iv))
             _ (length before, var_name)).
    intros [i y] Hy E. cbn [snd] in E. subst y. apply Hlast.
    rewrite <- (enumerate_from_snd after (S (length before))).
    apply (in_map snd) in Hy. exact Hy.
  - exact Hnd.
  - apply Hkeys.
  - apply Hkeys.
  - rewrite <- (length_map fst data). fold (Py.keys data).
    apply NoDup_incl_length; [exact Hnd |].
    intros k Hk. apply Hkeys. exact Hk.
Qed.

(** The theorem at two variables both named "v". *)
Lemma repeated_variable_name_witness :
  Py.get (columns Np.float64 [Np.Fl 1; Np.Fl 2; Np.Fl 3; Np.Fl 4] 2 ["v"; "v"]) "v"
  = Some (Np.mkvec Np.float64 [Np.Fl 2; Np.Fl 4]) /\
  length (columns Np.float64 [Np.Fl 1; Np.Fl 2; Np.Fl 3; Np.Fl 4] 2 ["v"; "v"]) = 1.
Proof.
  destruct (repeated_variable_name_keeps_last_column Np.float64
              [Np.Fl 1; Np.Fl 2; Np.Fl 3; Np.Fl 4] 2 ["v"] "v" [])
    as [Hget _].
  - simpl. tauto.
  - split; [exact Hget | reflexivity].
Defined.

(** ** A payload that stops early *)

Lemma read_be_short n acc f : String.length f < n -> Np.read_be n acc f = None.
Proof.
  revert acc f. induction n as [| n IH]; intros acc f H; [lia |].
  destruct f as [| c f]; [reflexivity |]. simpl in *. apply IH. lia.
Qed.

Lemma read_sample_short dt f : String.length f < 8 -> Np.read_sample dt f = None.
Proof.
  intros H. unfold Np.read_sample.
  rewrite (read_be_short 8 0 f H). destruct dt; reflexivity.
Qed.

Lemma read_samples_short dt xs count tail :
  Forall (fun x => Spec.sample_ok dt x = true) xs ->
  length xs < count ->
  String.length tail < 8 ->
  Np.read_samples dt count (Spec.encode_payload xs ++ tail) = (xs, "").
Proof.
  intros Hxs. revert count. induction Hxs as [| x xs Hx Hxs IH]; intros count Hc Ht.
  - destruct count as [| k]; [simpl in Hc; lia |].
    cbn [Spec.encode_payload append Np.read_samples].
    rewrite (read_sample_short _ _ Ht). reflexivity.
  - destruct count as [| k]; [simpl in Hc; lia |].
    cbn [Spec.encode_payload Np.read_samples].
    rewrite string_app_assoc, (read_sample_encode _ _ _ Hx).
    rewrite IH by (simpl in Hc; lia || exact Ht). reflexivity.
Qed.

Lemma encode_block_header b :
  Spec.encode_block b
  = (Layout.encode_header b ++ Spec.encode_payload (Spec.b_payload b))%string.
Proof.
  unfold Spec.encode_block, Layout.encode_header.
  rewrite !string_app_assoc. reflexivity.
Qed.

(** The header of an encoded block is read back whatever follows it. *)
Lemma parse_encoded_header (b : Spec.block) (body : string) :
  Forall (fun t => Spec.is_token t = true) (Spec.b_names b) ->
  parse_analysis (Layout.encode_header b ++ body)
  = let (bin_data, f6) :=
      Np.fromfile (Spec.b_dtype b)
        (Z.of_nat (length (Spec.b_names b)) * Z.of_nat (Spec.b_points b))%Z body in
    Ok (columns (Spec.b_dtype b) bin_data (length (Spec.b_names b))
                (Spec.b_names b), f6).
Proof.
  intros Hnames.
  unfold parse_analysis, Layout.encode_header.
  rewrite !string_app_assoc.
  rewrite read_tokens_header_line; cycle 1.
  { left. reflexivity. }
  { repeat constructor. destruct (Spec.b_dtype b); reflexivity. }
  cbn [bind]. unfold Py.getitem at 1. cbn [nth_error bind].
  assert (Hflag : flag_dtype (Spec.flag_name (Spec.b_dtype b))
                  = Ok (Spec.b_dtype b))
    by (destruct (Spec.b_dtype b); reflexivity).
  rewrite Hflag. cbn [bind].
  rewrite read_tokens_header_line; cycle 1.
  { left. reflexivity. }
  { repeat constructor. apply str_of_nat_token. }
  cbn [bind]. rewrite getitem_last_3. cbn [bind].
  rewrite int_str_of_nat. cbn [bind].
  rewrite read_tokens_header_line; cycle 1.
  { left. reflexivity. }
  { repeat constructor. apply str_of_nat_token. }
  cbn [bind]. rewrite getitem_last_3. cbn [bind].
  rewrite int_str_of_nat. cbn [bind].
  rewrite Nat2Z.id.
  rewrite (read_var_names_encode _ 0 _ Hnames). cbn [bind].
  rewrite readline_binary. reflexivity.
Qed.

(** X3.  A file that ends inside the payload of a block is not an error.
    [np.fromfile] returns the complete samples it found (fewer than eight
    trailing bytes are dropped), the stream is left at its end, and the
    columns are cut from what was read: the one of the last variable is
    shorter than the number of points the header announces. *)
Theorem truncated_payload_gives_short_columns (b : Spec.block) (tail : string) :
  let num_vars := length (Spec.b_names b) in
  let num_points := Spec.b_points b in
  Forall (fun t => Spec.is_token t = true) (Spec.b_names b) ->
  NoDup (Spec.b_names b) ->
  Forall (fun x => Spec.sample_ok (Spec.b_dtype b) x = true) (Spec.b_payload b) ->
  length (Spec.b_payload b) < num_vars * num_points ->
  String.length tail < 8 ->
  exists cols,
    parse_analysis (Spec.encode_block b ++ tail) = Ok (cols, "") /\
    cols = columns (Spec.b_dtype b) (Spec.b_payload b) num_vars (Spec.b_names b) /\
    Py.keys cols = Spec.b_names b /\
    forall name col,
      nth_error (Spec.b_names b) (num_vars - 1) = Some name ->
      Py.get cols name = Some col ->
      Np.size col < num_points.
Proof.
  intros num_vars num_points Hnames Hnd Hpayload Hshort Htail.
  exists (columns (Spec.b_dtype b) (Spec.b_payload b) num_vars (Spec.b_names b)).
  split; [| split; [reflexivity | split]].
  - rewrite encode_block_header, string_app_assoc.
    rewrite (parse_encoded_header _ _ Hnames).
    unfold Np.fromfile. rewrite <- Nat2Z.inj_mul.
    destruct (Z.of_nat (length (Spec.b_names b) * Spec.b_points b) <? 0)%Z eqn:E.
    { apply Z.ltb_lt in E. lia. }
    rewrite Nat2Z.id. fold num_vars num_points.
    rewrite (read_samples_short _ _ _ _ Hpayload Hshort Htail). reflexivity.
  - apply columns_keys. exact Hnd.
  - intros name col Hname Hget.
    destruct (columns_get (Spec.b_dtype b) (Spec.b_payload b) num_vars _ _ _
                Hnd Hname) as [_ Hcol].
    rewrite Hcol in Hget. injection Hget as Hget. subst col.
    assert (Hpos : 0 < num_vars).
    { destruct num_vars; [simpl in Hshort; lia | lia]. }
    assert (Hnone : nth_error
                      (Np.slice_from (num_vars - 1) num_vars (Spec.b_payload b))
                      (num_points - 1) = None).
    { rewrite slice_nth by exact Hpos. apply nth_error_None. nia. }
    apply nth_error_None in Hnone.
    assert (Hpts : 0 < num_points) by nia.
    unfold column.
    destruct (String.eqb name "freq"); [rewrite real_size |];
      unfold Np.size; cbn [Np.vdata]; lia.
Qed.

(** The theorem at a block of two variables and two points whose payload
    stops after three samples and three stray bytes. *)
Lemma truncated_payload_witness :
  parse_analysis
    (Spec.encode_block
       (Spec.mkblock Np.float64 ["time"; "v"] 2 [Np.Fl 0; Np.Fl 10; Np.Fl 1])
     ++ "abc")
  = Ok ([("time", Np.mkvec Np.float64 [Np.Fl 0; Np.Fl 1]);
         ("v", Np.mkvec Np.float64 [Np.Fl 10])], "").
Proof.
  destruct (truncated_payload_gives_short_columns
              (Spec.mkblock Np.float64 ["time"; "v"] 2
                 [Np.Fl 0; Np.Fl 10; Np.Fl 1]) "abc")
    as [cols [Hparse [Hcols _]]].
  - repeat constructor.
  - repeat constructor; simpl; intuition discriminate.
  - repeat constructor.
  - simpl. lia.
  - simpl. lia.
  - rewrite Hparse, Hcols. reflexivity.
Defined.

(** ** The read loop on a whole file *)

Lemma string_length_app a b :
  String.length (a ++ b)%string = String.length a + String.length b.
Proof. induction a as [| c a IH]; simpl; [reflexivity | rewrite IH; reflexivity]. Qed.

Lemma is_line_plain s :
  Layout.is_line s = true ->
  Layout.no_newline s = true /\ Py.all_ascii (s ++ Spec.nl) = true.
Proof.
  intros H. split.
  - apply (forall_chars_impl _ _ _ (fun c Hc => proj1 (proj1 (andb_true_iff _ _) Hc)) H).
  - unfold Py.all_ascii. rewrite forall_chars_app. apply andb_true_iff. split.
    + apply (forall_chars_impl _ _ _ (fun c Hc => proj2 (proj1 (andb_true_iff _ _) Hc)) H).
    + reflexivity.
Qed.

Lemma block_ok_parts b :
  Layout.block_ok b = true ->
  Forall (fun t => Spec.is_token t = true) (Spec.b_names b) /\
  length (Spec.b_payload b) = length (Spec.b_names b) * Spec.b_points b /\
  Forall (fun x => Spec.sample_ok (Spec.b_dtype b) x = true) (Spec.b_payload b).
Proof.
  unfold Layout.block_ok. intros H.
  apply andb_true_iff in H. destruct H as [H H3].
  apply andb_true_iff in H. destruct H as [H1 H2].
  repeat split.
  - apply Forall_forall. apply forallb_forall. exact H1.
  - apply Nat.eqb_eq. exact H2.
  - apply Forall_forall. apply forallb_forall. exact H3.
Qed.

(** The loop over the blocks of a well-formed file is the accumulator run
    over what the blocks hold. *)
Lemma read_blocks_encoded mc blocks :
  Forall (fun pb => Layout.is_line (fst pb) = true /\
                    Layout.block_ok (snd pb) = true) blocks ->
  forall fuel d,
    String.length (Layout.encode_blocks blocks) < fuel ->
    read_blocks fuel mc d (Layout.encode_blocks blocks)
    = Some (accumulate mc (map Layout.as_read blocks) d).
Proof.
  induction 1 as [| [p b] blocks [Hp Hb] _ IH]; intros fuel d Hfuel.
  - destruct fuel as [| fuel]; [simpl in Hfuel; lia |]. reflexivity.
  - destruct fuel as [| fuel]; [simpl in Hfuel; lia |].
    cbn [fst snd] in Hp, Hb.
    destruct (is_line_plain _ Hp) as [Hnl Hascii].
    destruct (block_ok_parts _ Hb) as (Hnames & Hlen & Hpayload).
    cbn [Layout.encode_blocks read_blocks] in *.
    unfold Spec.nl at 1. cbn [append].
    rewrite (readline_line p _ Hnl).
    unfold Py.decode_ascii. rewrite Hascii.
    assert (Hne : (String.length (p ++ Spec.nl)%string =? 0) = false).
    { apply Nat.eqb_neq. rewrite string_length_app. simpl. lia. }
    rewrite Hne.
    rewrite (parse_encoded_block b _ Hnames Hlen Hpayload).
    unfold accumulate. cbn [map foldM Layout.as_read fst snd].
    destruct (populate_dict mc d (p ++ Spec.nl)
                (columns (Spec.b_dtype b) (Spec.b_payload b)
                   (length (Spec.b_names b)) (Spec.b_names b))) as [d' | e];
      cbn [bind]; [| reflexivity].
    apply IH. rewrite !string_length_app in Hfuel. simpl in Hfuel. lia.
Qed.

(** X4.  Parsing a file laid out as the format prescribes (a title line, a
    date line, then for every block its plot-name line, header and payload)
    is the accumulator run over the blocks in file order, each handed over as
    its plot-name line and the columns of its payload.  Title and date are
    skipped without being decoded or inspected. *)
Theorem well_formed_file_is_accumulated_in_order
  (monte_carlo : bool) (title date : string)
  (blocks : list (string * Spec.block)) :
  Layout.no_newline title = true ->
  Layout.no_newline date = true ->
  Forall (fun pb => Layout.is_line (fst pb) = true /\
                    Layout.block_ok (snd pb) = true) blocks ->
  parse_raw_file monte_carlo (Layout.encode_file title date blocks)
  = Some (accumulate monte_carlo (map Layout.as_read blocks) []).
Proof.
  intros Ht Hd Hblocks. unfold parse_raw_file, Layout.encode_file.
  unfold Spec.nl at 1. cbn [append].
  rewrite (readline_line title _ Ht).
  unfold Spec.nl at 1. cbn [append].
  rewrite (readline_line date _ Hd).
  apply read_blocks_encoded; [exact Hblocks | lia].
Qed.

(** The theorem at a file of one block. *)
Lemma well_formed_file_witness :
  parse_raw_file false
    (Layout.encode_file "Title: t" "Date: d"
       [("Plotname: `tran__tb_env' Transient: time = (0 s -> 1 ns)",
         ex_file_block 10)])
  = Some (Ok [("tran", [("tb_env", mkgroup [ex_block 10] [] "time")])]).
Proof.
  rewrite (well_formed_file_is_accumulated_in_order false "Title: t" "Date: d"
             [("Plotname: `tran__tb_env' Transient: time = (0 s -> 1 ns)",
               ex_file_block 10)]).
  - vm_compute. reflexivity.
  - reflexivity.
  - reflexivity.
  - repeat constructor.
Defined.



(** X6.  The read loop [while True] comes to an end on every file: each
    round consumes the plot-name line, which is not empty, and the block
    reader never hands back more of the stream than it was given.  So the
    constructor always either returns or raises. *)
Theorem read_loop_terminates
  {T : Type} (check_is_md : detector) (combine_ana_sim_envs : combiner T)
  (contents : string) (rtol atol : Q) (monte_carlo : bool) :
  (exists nb, parse_raw_file monte_carlo contents = Some nb) /\
  (exists sd, __init__ check_is_md combine_ana_sim_envs contents rtol atol
                monte_carlo = Some sd).
Proof.
  pose proof (parse_raw_file_total monte_carlo contents) as Htotal.
  unfold __init__.
  destruct (parse_raw_file monte_carlo contents) as [[nb | e] |].
  - split; eexists; reflexivity.
  - split; eexists; reflexivity.
  - contradiction.
Qed.

(** ** The accumulator *)

Lemma get_in {V : Type} (d : Py.dict V) k v : Py.get d k = Some v -> In (k, v) d.
Proof.
  induction d as [| [k0 v0] d IH]; simpl; [discriminate |].
  destruct (String.eqb k0 k) eqn:E; intros H.
  - apply String.eqb_eq in E. left. congruence.
  - right. auto.
Qed.

Lemma set_not_nil {V : Type} (d : Py.dict V) k v : Py.set d k v <> [].
Proof.
  destruct d as [| [k0 v0] d]; simpl; [discriminate |].
  destruct (String.eqb k0 k); discriminate.
Qed.

(** What [populate_dict] computes once the block is classified and kept. *)
Lemma populate_dict_filed mc d plotname blk info :
  get_info_from_plotname plotname = Ok info ->
  mc = false \/ Py.startswith (ana_name info) "__mc_" = true ->
  populate_dict mc d plotname blk
  = Ok (Py.set d (ana_type info)
          (Py.set (match Py.get d (ana_type info) with
                   | Some e => e
                   | None => []
                   end)
                  (sim_env info)
                  (appended (find_group d (ana_type info) (sim_env info))
                            info blk))).
Proof.
  intros Hinfo Hkept. unfold populate_dict. rewrite Hinfo. cbn [bind].
  assert (Hcond : mc && negb (Py.startswith (ana_name info) "__mc_") = false).
  { destruct Hkept as [-> | ->]; [reflexivity | apply andb_false_r]. }
  rewrite Hcond. unfold appended, find_group.
  destruct (Py.get d (ana_type info)) as [e |]; reflexivity.
Qed.

(** X7.  A block that is classified and kept is appended to exactly one
    group, the one of its analysis type and environment: the run goes to the
    end of [data], its outer combo (when it has one) to the end of
    [swp_combos], and [inner_sweep] stays what the first block of the group
    set.  Every other group of the dictionary is left as it was. *)
Theorem populate_dict_appends_to_one_group
  (monte_carlo : bool) (ana_dict : Py.dict (Py.dict group))
  (plotname : string) (blk : Py.dict Np.vec) (info : PlotnameInfo) :
  get_info_from_plotname plotname = Ok info ->
  monte_carlo = false \/ Py.startswith (ana_name info) "__mc_" = true ->
  exists ana_dict',
    populate_dict monte_carlo ana_dict plotname blk = Ok ana_dict' /\
    find_group ana_dict' (ana_type info) (sim_env info)
    = Some (appended (find_group ana_dict (ana_type info) (sim_env info))
                     info blk) /\
    forall ty env,
      (ty, env) <> (ana_type info, sim_env info) ->
      find_group ana_dict' ty env = find_group ana_dict ty env.
Proof.
  intros Hinfo Hkept. eexists. split; [| split].
  - apply populate_dict_filed; eassumption.
  - unfold find_group at 1. rewrite get_set_same, get_set_same. reflexivity.
  - intros ty env Hne. unfold find_group.
    destruct (String.eqb (ana_type info) ty) eqn:Ety.
    + apply String.eqb_eq in Ety. subst ty. rewrite get_set_same.
      rewrite get_set_other by congruence.
      destruct (Py.get ana_dict (ana_type info)); reflexivity.
    + apply String.eqb_neq in Ety. rewrite get_set_other by exact Ety.
      reflexivity.
Qed.

(** The theorem at a second run, tagged (0, 1), of a group of one run. *)
Lemma populate_dict_one_group_witness :
  exists d,
    populate_dict false [("tran", [("tb_env", mkgroup [ex_run 1] [] "time")])]
      (ex_swp_plotname "000" "001") (ex_run 2) = Ok d /\
    find_group d "tran" "tb_env"
    = Some (mkgroup [ex_run 1; ex_run 2] [[0; 1]%Z] "time").
Proof.
  destruct (populate_dict_appends_to_one_group false
              [("tran", [("tb_env", mkgroup [ex_run 1] [] "time")])]
              (ex_swp_plotname "000" "001") (ex_run 2)
              (mkinfo "swp00-000_swp01-001_tran__tb_env" "tb_env" "tran"
                      ["swp00"; "swp01"] [0; 1]%Z ""))
    as [d [Hd [Hfind _]]].
  - vm_compute. reflexivity.
  - left. reflexivity.
  - exists d. split; [exact Hd | exact Hfind].
Defined.

(** The invariant is kept by every call. *)
Lemma appended_ok old info blk :
  (forall g, old = Some g -> group_ok g) ->
  group_ok (appended old info blk).
Proof.
  intros Hold. unfold appended.
  assert (Hg : length (swp_combos
                         match old with
                         | Some g => g
                         | None => mkgroup [] [] (inner_sweep info)
                         end)
               <= length (data match old with
                               | Some g => g
                               | None => mkgroup [] [] (inner_sweep info)
                               end) /\
               Forall (fun c => c <> [])
                      (swp_combos match old with
                                  | Some g => g
                                  | None => mkgroup [] [] (inner_sweep info)
                                  end)).
  { destruct old as [g |].
    - destruct (Hold g eq_refl) as (_ & Hlen & Hne). split; assumption.
    - split; [cbn [swp_combos data length]; lia | constructor]. }
  destruct Hg as [Hlen Hne].
  unfold group_ok. cbn [data swp_combos]. split; [| split].
  - intros Hnil. apply app_eq_nil in Hnil. destruct Hnil as [_ Hnil]. discriminate.
  - rewrite length_app. cbn [length].
    destruct (swp_combo info); [| rewrite length_app; cbn [length]]; lia.
  - destruct (swp_combo info) as [| c0 c] eqn:Ec; [exact Hne |].
    apply Forall_app. split; [exact Hne |]. constructor; [discriminate | constructor].
Qed.

Lemma populate_dict_well_formed mc d plotname blk d' :
  well_formed d ->
  populate_dict mc d plotname blk = Ok d' ->
  well_formed d'.
Proof.
  intros [Hnd Hwf] H.
  destruct (get_info_from_plotname plotname) as [info | e] eqn:Hinfo;
    [| unfold populate_dict in H; rewrite Hinfo in H; discriminate H].
  destruct (mc && negb (Py.startswith (ana_name info) "__mc_")) eqn:Hcond.
  { unfold populate_dict in H. rewrite Hinfo in H. cbn [bind] in H.
    rewrite Hcond in H. injection H as <-. split; assumption. }
  rewrite (populate_dict_filed mc d plotname blk info Hinfo) in H.
  2:{ destruct mc; [right | left; reflexivity].
      simpl in Hcond. apply negb_false_iff in Hcond. exact Hcond. }
  injection H as <-.
  set (envs := match Py.get d (ana_type info) with Some e => e | None => [] end).
  assert (Henvs : NoDup (Py.keys envs) /\
                  forall env g, In (env, g) envs -> group_ok g).
  { unfold envs. destruct (Py.get d (ana_type info)) as [e |] eqn:E.
    - apply get_in in E. destruct (Hwf _ _ E) as (_ & He1 & He2). split; assumption.
    - split; [constructor | intros ? ? []]. }
  destruct Henvs as [Hend Hegroups].
  split; [apply set_nodup; exact Hnd |].
  intros ty envs' Hin. apply set_entries in Hin.
  destruct Hin as [Heq | Hin]; [| apply Hwf with ty; exact Hin].
  injection Heq as -> ->.
  split; [apply set_not_nil |].
  split; [apply set_nodup; exact Hend |].
  intros env g Hg. apply set_entries in Hg.
  destruct Hg as [Heq | Hg]; [| apply Hegroups with env; exact Hg].
  injection Heq as -> ->.
  apply appended_ok. intros g0 Hg0. unfold find_group in Hg0.
  destruct (Py.get d (ana_type info)) as [e |] eqn:E; [| discriminate].
  apply get_in in Hg0. unfold envs in Hegroups. apply (Hegroups _ _ Hg0).
Qed.

Lemma read_blocks_well_formed fuel mc d f d' :
  well_formed d ->
  read_blocks fuel mc d f = Some (Ok d') ->
  well_formed d'.
Proof.
  revert d f. induction fuel as [| fuel IH]; intros d f Hwf H; [discriminate |].
  cbn [read_blocks] in H. destruct (readline f) as [l f1].
  destruct (Py.decode_ascii l) as [plotname | e]; [| discriminate].
  destruct (String.length plotname =? 0).
  - injection H as <-. exact Hwf.
  - destruct (parse_analysis f1) as [[blk f2] | e]; [| discriminate].
    destruct (populate_dict mc d plotname blk) as [d1 | e] eqn:Hp; [| discriminate].
    apply (IH d1 f2); [| exact H].
    apply (populate_dict_well_formed _ _ _ _ _ Hwf Hp).
Qed.

Lemma well_formed_empty : well_formed [].
Proof. split; [constructor | intros ? ? []]. Qed.

(** X8.  Whatever the file, the dictionary [parse_raw_file] returns is well
    formed: no analysis type and no environment occurs twice, every analysis
    type has an environment, every group has at least one run, never more
    outer combos than runs, and no empty outer combo.  So the
    reconstructor's [data[0]] never raises on such a group, and the
    [swp_len] runs it reads are all there. *)
Theorem parsed_groups_are_never_empty
  (monte_carlo : bool) (contents : string) (nb_data : Py.dict (Py.dict group)) :
  parse_raw_file monte_carlo contents = Some (Ok nb_data) ->
  well_formed nb_data /\
  forall ana_type sim_env_dict sim_env nb_dict,
    In (ana_type, sim_env_dict) nb_data ->
    In (sim_env, nb_dict) sim_env_dict ->
    (exists run0, Py.getitem (data nb_dict) 0 = Ok run0) /\
    forall mc ty swp_vars swp_len swp_combo_list,
      sweep_info mc nb_dict ty = Ok (swp_vars, swp_len, swp_combo_list) ->
      swp_len <= length (data nb_dict).
Proof.
  intros H.
  assert (Hwf : well_formed nb_data).
  { unfold parse_raw_file in H.
    destruct (readline contents) as [l1 f1]. destruct (readline f1) as [l2 f2].
    apply (read_blocks_well_formed _ _ _ _ _ well_formed_empty H). }
  split; [exact Hwf |].
  intros ty envs env g Hty Henv.
  destruct Hwf as [_ Hwf]. destruct (Hwf _ _ Hty) as (_ & _ & Hg).
  destruct (Hg _ _ Henv) as (Hdata & Hcombos & _).
  split.
  - destruct (data g) as [| run0 rest]; [contradiction |].
    exists run0. reflexivity.
  - intros mc ty' vars n cl Hinfo. apply sweep_info_len in Hinfo.
    destruct (String.eqb ty' "pac"); [lia |]. destruct mc; lia.
Qed.

(** The theorem at the Monte-Carlo example file read in plain mode. *)
Lemma parsed_groups_witness :
  well_formed [("tran",
                [("tb_env",
                  mkgroup [ex_block 0; ex_block 10; ex_block 20; ex_block 30;
                           ex_block 40; ex_block 50] [] "time")])].
Proof.
  destruct (parsed_groups_are_never_empty false ex_mc_file
              [("tran",
                [("tb_env",
                  mkgroup [ex_block 0; ex_block 10; ex_block 20; ex_block 30;
                           ex_block 40; ex_block 50] [] "time")])])
    as [Hwf _].
  - vm_compute. reflexivity.
  - exact Hwf.
Defined.

(** *** The order of the analysis types *)

Lemma populate_dict_ok_classified mc d plotname blk d' :
  populate_dict mc d plotname blk = Ok d' ->
  exists info, get_info_from_plotname plotname = Ok info.
Proof.
  unfold populate_dict. intros H.
  destruct (get_info_from_plotname plotname) as [info | e]; [| discriminate H].
  exists info. reflexivity.
Qed.

Lemma accumulate_ok_classified mc blocks d d' :
  accumulate mc blocks d = Ok d' ->
  Forall (fun pb => exists info, get_info_from_plotname (fst pb) = Ok info) blocks.
Proof.
  unfold accumulate. revert d.
  induction blocks as [| pb blocks IH]; intros d H; [constructor |].
  cbn [foldM] in H. bind_as H d1 Hd1.
  constructor; [eapply populate_dict_ok_classified; exact Hd1 | eapply IH; exact H].
Qed.

Lemma first_occurrences_snoc l k :
  first_occurrences (l ++ [k])
  = if in_dec string_dec k l then first_occurrences l
    else first_occurrences l ++ [k].
Proof.
  unfold first_occurrences. rewrite rev_app_distr. cbn [rev app nodup].
  destruct (in_dec string_dec k (rev l)) as [Hin | Hout];
    destruct (in_dec string_dec k l) as [Hin' | Hout']; try reflexivity.
  - exfalso. apply Hout'. apply in_rev. exact Hin.
  - exfalso. apply Hout. apply in_rev in Hin'. exact Hin'.
Qed.

Lemma first_occurrences_in l k : In k (first_occurrences l) <-> In k l.
Proof.
  unfold first_occurrences. rewrite <- in_rev, nodup_In, <- in_rev. tauto.
Qed.

(** X9.  The analysis types of the accumulated dictionary are listed in the
    order in which their first kept block appears in the file; a later block
    of a type that is already there does not move it. *)
Theorem analysis_types_in_order_of_first_block
  (monte_carlo : bool) (blocks : list (string * Py.dict Np.vec))
  (nb_data : Py.dict (Py.dict group)) :
  accumulate monte_carlo blocks [] = Ok nb_data ->
  Py.keys nb_data
  = first_occurrences
      (map (fun pb => type_of_plotname (fst pb)) (kept monte_carlo blocks)).
Proof.
  intros H.
  assert (Hplain : accumulate false (kept monte_carlo blocks) [] = Ok nb_data).
  { unfold kept. destruct monte_carlo; [| exact H].
    rewrite <- accumulate_filters; [exact H |].
    eapply accumulate_ok_classified. exact H. }
  clear H. revert nb_data Hplain.
  induction (kept monte_carlo blocks) as [| [p blk] l IH] using rev_ind;
    intros nb_data H.
  - injection H as <-. reflexivity.
  - unfold accumulate in H. rewrite foldM_app in H. bind_as H d1 Hd1.
    cbn [foldM fst snd] in H. bind_as H d2 Hd2. injection H as <-.
    specialize (IH d1 Hd1).
    destruct (populate_dict_ok_classified _ _ _ _ _ Hd2) as [info Hinfo].
    rewrite (populate_dict_filed false d1 p blk info Hinfo) in Hd2
      by (left; reflexivity).
    injection Hd2 as <-.
    rewrite map_app. cbn [map fst]. rewrite first_occurrences_snoc.
    assert (Hty : type_of_plotname p = ana_type info)
      by (unfold type_of_plotname; rewrite Hinfo; reflexivity).
    rewrite Hty, keys_set, IH. unfold Py.contains.
    destruct (in_dec string_dec (ana_type info)
                (map (fun pb => type_of_plotname (fst pb)) l)) as [Hin | Hout].
    + apply first_occurrences_in in Hin. rewrite <- IH in Hin.
      apply in_keys_get in Hin. destruct Hin as [v ->]. reflexivity.
    + destruct (Py.get d1 (ana_type info)) as [v |] eqn:E; [| reflexivity].
      exfalso. apply Hout. apply first_occurrences_in. rewrite <- IH.
      eapply get_in_keys. exact E.
Qed.

(** The theorem at the blocks "tran", "ac", "tran". *)
Lemma analysis_types_order_witness :
  Py.keys
    [("tran", [("tb_env", mkgroup [ex_run 1; ex_run 3] [] "")]);
     ("ac", [("tb_env", mkgroup [ex_run 2] [] "")])]
  = ["tran"; "ac"].
Proof.
  rewrite (analysis_types_in_order_of_first_block false
             [(ex_plain_plotname "tran", ex_run 1);
              (ex_plain_plotname "ac", ex_run 2);
              (ex_plain_plotname "tran", ex_run 3)]).
  - vm_compute. reflexivity.
  - vm_compute. reflexivity.
Defined.

(** ** The plot-name classifier *)

Lemma code_other c a n :
  Ascii.eqb c a = false -> Py.code a = n -> (Py.code c =? n) = false.
Proof.
  intros Hne Ha. apply Nat.eqb_neq. intros E. rewrite <- Ha in E.
  unfold Py.code in E. apply (f_equal ascii_of_nat) in E.
  rewrite !ascii_nat_embedding in E. subst c.
  rewrite Ascii.eqb_refl in Hne. discriminate Hne.
Qed.

Lemma free_of_cons a c s :
  free_of a (String c s) = true -> Ascii.eqb c a = false /\ free_of a s = true.
Proof.
  unfold free_of. cbn [Py.forall_chars]. intros H.
  apply andb_true_iff in H. destruct H as [Hc Hs].
  apply negb_true_iff in Hc. split; assumption.
Qed.

Lemma upto_last_quote_none s tail :
  free_of apostrophe s = true ->
  upto_last_quote tail = None ->
  upto_last_quote (s ++ tail) = None.
Proof.
  intros Hs Htail. induction s as [| c s IH]; [exact Htail |].
  apply free_of_cons in Hs. destruct Hs as [Hc Hs].
  cbn [append upto_last_quote].
  destruct (Py.is_newline c); [reflexivity |].
  rewrite (IH Hs). rewrite (code_other c apostrophe 39 Hc eq_refl). reflexivity.
Qed.

Lemma upto_last_quote_found name tail :
  Layout.no_newline name = true ->
  upto_last_quote tail = None ->
  upto_last_quote (name ++ String apostrophe tail)
  = Some (name ++ String apostrophe "")%string.
Proof.
  intros Hname Htail. induction name as [| c name IH].
  - cbn [append upto_last_quote]. rewrite Htail. reflexivity.
  - unfold Layout.no_newline in Hname. cbn [Py.forall_chars] in Hname.
    apply andb_true_iff in Hname. destruct Hname as [Hc Hname].
    apply negb_true_iff in Hc.
    cbn [append upto_last_quote]. rewrite Hc, (IH Hname). reflexivity.
Qed.

Lemma search_quoted_none s :
  free_of backtick s = true -> search_quoted s = None.
Proof.
  induction s as [| c s IH]; intros H; [reflexivity |].
  apply free_of_cons in H. destruct H as [Hc Hs].
  cbn [search_quoted]. rewrite (code_other c backtick 96 Hc eq_refl).
  apply IH. exact Hs.
Qed.

Lemma search_quoted_unclosed s :
  free_of apostrophe s = true -> search_quoted s = None.
Proof.
  induction s as [| c s IH]; intros H; [reflexivity |].
  apply free_of_cons in H. destruct H as [Hc Hs].
  cbn [search_quoted].
  assert (Hq : upto_last_quote s = None).
  { rewrite <- (string_app_nil_r s). apply upto_last_quote_none; [exact Hs | reflexivity]. }
  rewrite Hq, (IH Hs). destruct (Py.code c =? 96); reflexivity.
Qed.

Lemma search_quoted_found pre name tail :
  free_of backtick pre = true ->
  Layout.no_newline name = true ->
  upto_last_quote tail = None ->
  search_quoted (pre ++ String backtick (name ++ String apostrophe tail))
  = Some (String backtick (name ++ String apostrophe "")).
Proof.
  intros Hpre Hname Htail. induction pre as [| c pre IH].
  - cbn [append search_quoted].
    change (Py.code backtick =? 96) with true. cbn iota.
    rewrite (upto_last_quote_found _ _ Hname Htail). reflexivity.
  - apply free_of_cons in Hpre. destruct Hpre as [Hc Hpre].
    cbn [append search_quoted]. rewrite (code_other c backtick 96 Hc eq_refl).
    apply IH. exact Hpre.
Qed.

Lemma substring_prefix a b : String.substring 0 (String.length a) (a ++ b) = a.
Proof. induction a as [| c a IH]; simpl; [destruct b; reflexivity | rewrite IH; reflexivity]. Qed.

Lemma strip_ends_quoted name :
  Py.strip_ends (String backtick (name ++ String apostrophe "")) = name.
Proof.
  unfold Py.strip_ends. cbn [String.length]. rewrite string_length_app.
  cbn [String.length]. replace (S (String.length name + 1) - 2) with (String.length name) by lia.
  cbn [String.substring]. apply substring_prefix.
Qed.

(** The plot name of a block as the simulator writes it: some text, the
    analysis name between a back-tick and an apostrophe, some more text, the
    line terminator. *)
Lemma search_quoted_line pre name post rest :
  free_of backtick pre = true ->
  Layout.no_newline name = true ->
  free_of apostrophe post = true ->
  search_quoted (pre ++ String backtick (name ++ String apostrophe
                   (post ++ String Spec.newline rest)))
  = Some (String backtick (name ++ String apostrophe "")).
Proof.
  intros Hpre Hname Hpost. apply search_quoted_found; try assumption.
  apply upto_last_quote_none; [exact Hpost | reflexivity].
Qed.

(** What a successful classification went through. *)
Lemma get_info_inv plotname info :
  get_info_from_plotname plotname = Ok info ->
  exists quoted ty,
    search_quoted plotname = Some quoted /\
    ana_name info = Py.strip_ends quoted /\
    search_type_env (ana_name info) = Some (ty, sim_env info) /\
    inner_sweep info = match search_inner plotname with
                       | Some w => w
                       | None => EmptyString
                       end /\
    (if String.eqb ty "pss" then
       if String.eqb (inner_sweep info) "freq" then Ok "pss_fd"
       else if String.eqb (inner_sweep info) "time" then Ok "pss_td"
       else Raise NotImplementedError
     else Ok ty) = Ok (ana_type info) /\
    swp_info info = findall match_swp 0 (ana_name info) /\
    mapM (fun val => Py.int (Py.last3 val))
         (findall match_swp_idx 0 (ana_name info)) = Ok (swp_combo info).
Proof.
  unfold get_info_from_plotname. intros H.
  destruct (search_quoted plotname) as [quoted |]; [| discriminate H].
  cbn [bind] in H.
  destruct (search_type_env (Py.strip_ends quoted)) as [[ty env] |] eqn:Em;
    [| discriminate H].
  cbn [bind] in H. bind_as H ty' Hty. bind_as H combo Hcombo.
  injection H as <-. cbn [ana_name sim_env inner_sweep ana_type swp_info swp_combo].
  exists quoted, ty. repeat split; try reflexivity; assumption.
Qed.

(** X10.  In a plot-name line made of some text without a back-tick, a
    back-tick, the analysis name, an apostrophe, and text without an
    apostrophe up to the end of the line, the classifier takes the analysis
    name whole, apostrophes and back-ticks inside it included: the quoted
    part runs to the last apostrophe of the line.  The sweep tags and the
    type and environment are then read from that name. *)
Theorem analysis_name_runs_to_last_apostrophe
  (pre name post rest : string) (info : PlotnameInfo) :
  free_of backtick pre = true ->
  Layout.no_newline name = true ->
  free_of apostrophe post = true ->
  get_info_from_plotname
    (pre ++ String backtick (name ++ String apostrophe
       (post ++ String Spec.newline rest)))
  = Ok info ->
  ana_name info = name /\
  swp_info info = findall match_swp 0 name /\
  exists ty, search_type_env name = Some (ty, sim_env info).
Proof.
  intros Hpre Hname Hpost H.
  apply get_info_inv in H.
  destruct H as (quoted & ty & Hq & Hn & Hty & _ & _ & Hswp & _).
  rewrite (search_quoted_line _ _ _ _ Hpre Hname Hpost) in Hq.
  injection Hq as <-. rewrite strip_ends_quoted in Hn.
  rewrite Hn in Hty, Hswp. repeat split; [exact Hn | exact Hswp |].
  exists ty. exact Hty.
Qed.

(** The theorem at an analysis name that holds an apostrophe. *)
Lemma analysis_name_witness :
  exists info,
    get_info_from_plotname
      ("Plotname: `it's tran__tb_env' Transient" ++ Spec.nl)%string = Ok info /\
    ana_name info = "it's tran__tb_env".
Proof.
  exists (mkinfo "it's tran__tb_env" "tb_env" "tran" [] [] "").
  split; [vm_compute; reflexivity |].
  destruct (analysis_name_runs_to_last_apostrophe "Plotname: "
              "it's tran__tb_env" " Transient" ""
              (mkinfo "it's tran__tb_env" "tb_env" "tran" [] [] "")) as [H _].
  - reflexivity.
  - reflexivity.
  - reflexivity.
  - vm_compute. reflexivity.
  - exact H.
Defined.

(** *** The type and environment fields *)

Lemma span_spec p s w r :
  Py.span p s = (w, r) -> s = (w ++ r)%string /\ Py.forall_chars p w = true.
Proof.
  revert w r. induction s as [| c s IH]; intros w r H; simpl in H.
  - injection H as <- <-. split; reflexivity.
  - destruct (p c) eqn:Hc.
    + destruct (Py.span p s) as [w' r'] eqn:E. injection H as <- <-.
      destruct (IH _ _ eq_refl) as [Hs Hw]. subst s.
      split; [reflexivity |]. cbn [Py.forall_chars]. rewrite Hc, Hw. reflexivity.
    + injection H as <- <-. split; reflexivity.
Qed.

Lemma free_of_app a x y :
  free_of a (x ++ y) = free_of a x && free_of a y.
Proof. unfold free_of. apply forall_chars_app. Qed.

Lemma code_underscore c : (Py.code c =? 95) = true -> c = underscore.
Proof.
  intros H. apply Nat.eqb_eq in H. unfold Py.code in H.
  rewrite <- (ascii_nat_embedding c), H. reflexivity.
Qed.

Lemma match_type_env_none s :
  free_of underscore s = true -> match_type_env s = None.
Proof.
  intros H. unfold match_type_env.
  destruct (Py.span Py.isalpha s) as [ty r1] eqn:E.
  apply span_spec in E. destruct E as [-> _].
  rewrite free_of_app in H. apply andb_true_iff in H. destruct H as [_ H].
  destruct ty as [| t ty]; [reflexivity |].
  destruct r1 as [| u1 [| u2 r2]]; try reflexivity.
  apply free_of_cons in H. destruct H as [Hu1 _].
  rewrite (code_other u1 underscore 95 Hu1 eq_refl). reflexivity.
Qed.

Lemma search_type_env_none s :
  free_of underscore s = true -> search_type_env s = None.
Proof.
  induction s as [| c s IH]; intros H.
  - reflexivity.
  - cbn [search_type_env]. rewrite (match_type_env_none _ H).
    apply free_of_cons in H. destruct H as [_ H]. apply IH. exact H.
Qed.

Lemma match_type_env_spec s ty env :
  match_type_env s = Some (ty, env) ->
  exists e1 e2 post,
    s = (ty ++ "__" ++ e1 ++ "_" ++ e2 ++ post)%string /\
    env = (e1 ++ "_" ++ e2)%string /\
    ty <> "" /\ e1 <> "" /\ e2 <> "" /\
    Py.forall_chars Py.isalpha ty = true /\
    Py.forall_chars Py.isalnum e1 = true /\
    Py.forall_chars Py.isalnum e2 = true.
Proof.
  unfold match_type_env. intros H.
  destruct (Py.span Py.isalpha s) as [ty0 r1] eqn:E1.
  apply span_spec in E1. destruct E1 as [-> Hty].
  destruct ty0 as [| t ty0]; [discriminate H |].
  destruct r1 as [| u1 [| u2 r2]]; try discriminate H.
  destruct ((Py.code u1 =? 95) && (Py.code u2 =? 95)) eqn:Hu; [| discriminate H].
  apply andb_true_iff in Hu. destruct Hu as [Hu1 Hu2].
  apply code_underscore in Hu1, Hu2. subst u1 u2.
  destruct (Py.span Py.isalnum r2) as [e1 r3] eqn:E2.
  apply span_spec in E2. destruct E2 as [-> He1].
  destruct e1 as [| a e1]; [discriminate H |].
  destruct r3 as [| u3 r4]; [discriminate H |].
  destruct (Py.code u3 =? 95) eqn:Hu3; [| discriminate H].
  apply code_underscore in Hu3. subst u3.
  destruct (Py.span Py.isalnum r4) as [e2 r5] eqn:E3.
  apply span_spec in E3. destruct E3 as [-> He2].
  destruct e2 as [| b e2]; [discriminate H |].
  injection H as <- <-.
  exists (String a e1), (String b e2), r5.
  repeat split; try assumption; discriminate.
Qed.

Lemma search_type_env_spec s r :
  search_type_env s = Some r ->
  exists pre s', s = (pre ++ s')%string /\ match_type_env s' = Some r.
Proof.
  induction s as [| c s IH]; intros H.
  - cbn [search_type_env] in H.
    destruct (match_type_env "") eqn:E; [| discriminate H].
    injection H as <-. exists "", "". split; [reflexivity | exact E].
  - cbn [search_type_env] in H.
    destruct (match_type_env (String c s)) eqn:E.
    + injection H as <-. exists "", (String c s). split; [reflexivity | exact E].
    + destruct (IH H) as (pre & s' & -> & Hm).
      exists (String c pre), s'. split; [reflexivity | exact Hm].
Qed.

Lemma match_inner_spec s w :
  match_inner s = Some w ->
  w <> "" /\ Py.forall_chars Py.isword w = true /\
  exists post, s = (": " ++ w ++ " =" ++ post)%string.
Proof.
  unfold match_inner. intros H.
  destruct s as [| c1 [| c2 r]]; try discriminate H.
  destruct ((Py.code c1 =? 58) && (Py.code c2 =? 32)) eqn:Hc; [| discriminate H].
  apply andb_true_iff in Hc. destruct Hc as [Hc1 Hc2].
  apply Nat.eqb_eq in Hc1, Hc2.
  destruct (Py.span Py.isword r) as [w0 r'] eqn:E.
  apply span_spec in E. destruct E as [-> Hw].
  destruct w0 as [| a w0]; [discriminate H |].
  destruct r' as [| c3 [| c4 post]]; try discriminate H.
  destruct ((Py.code c3 =? 32) && (Py.code c4 =? 61)) eqn:Hd; [| discriminate H].
  apply andb_true_iff in Hd. destruct Hd as [Hc3 Hc4].
  apply Nat.eqb_eq in Hc3, Hc4. injection H as <-.
  split; [discriminate |]. split; [exact Hw |]. exists post.
  unfold Py.code in *.
  rewrite <- (ascii_nat_embedding c1), <- (ascii_nat_embedding c2),
          <- (ascii_nat_embedding c3), <- (ascii_nat_embedding c4),
          Hc1, Hc2, Hc3, Hc4.
  reflexivity.
Qed.

Lemma search_inner_spec s w :
  search_inner s = Some w ->
  w <> "" /\ Py.forall_chars Py.isword w = true /\
  exists pre post, s = (pre ++ ": " ++ w ++ " =" ++ post)%string.
Proof.
  induction s as [| c s IH]; intros H.
  - cbn [search_inner] in H. discriminate H.
  - cbn [search_inner] in H.
    destruct (match_inner (String c s)) eqn:E.
    + injection H as <-. apply match_inner_spec in E.
      destruct E as (Hne & Hw & post & Hs).
      split; [exact Hne |]. split; [exact Hw |]. exists "", post. exact Hs.
    + destruct (IH H) as (Hne & Hw & pre & post & ->).
      split; [exact Hne |]. split; [exact Hw |].
      exists (String c pre), post. reflexivity.
Qed.

(** X11.  What a successful classification returns is well formed.  The
    analysis name contains [ty__e1_e2] where [ty] is a non-empty run of
    letters and [e1], [e2] are non-empty runs of letters and digits; the
    environment is [e1_e2]; the analysis type is [ty], except that "pss"
    becomes "pss_fd" with the inner sweep "freq" and "pss_td" with "time",
    and is never returned as such.  The inner sweep is empty or a word that
    stands in the plot name between ": " and " =". *)
Theorem classified_plotname_is_well_formed
  (plotname : string) (info : PlotnameInfo) :
  get_info_from_plotname plotname = Ok info ->
  (exists pre ty e1 e2 post,
     ana_name info = (pre ++ ty ++ "__" ++ e1 ++ "_" ++ e2 ++ post)%string /\
     sim_env info = (e1 ++ "_" ++ e2)%string /\
     ty <> "" /\ e1 <> "" /\ e2 <> "" /\
     Py.forall_chars Py.isalpha ty = true /\
     Py.forall_chars Py.isalnum e1 = true /\
     Py.forall_chars Py.isalnum e2 = true /\
     ((ty <> "pss" /\ ana_type info = ty) \/
      (ty = "pss" /\ inner_sweep info = "freq" /\ ana_type info = "pss_fd") \/
      (ty = "pss" /\ inner_sweep info = "time" /\ ana_type info = "pss_td"))) /\
  (inner_sweep info = "" \/
   (Py.forall_chars Py.isword (inner_sweep info) = true /\
    exists pre post,
      plotname = (pre ++ ": " ++ inner_sweep info ++ " =" ++ post)%string)) /\
  ana_type info <> "pss".
Proof.
  intros H. apply get_info_inv in H.
  destruct H as (quoted & ty & _ & _ & Hm & Hinner & Hty & _ & _).
  apply search_type_env_spec in Hm. destruct Hm as (pre & s' & Hname & Hm).
  apply match_type_env_spec in Hm.
  destruct Hm as (e1 & e2 & post & -> & Henv & Hne & Hne1 & Hne2 & Ha & Hb & Hc).
  assert (Hcases :
            (ty <> "pss" /\ ana_type info = ty) \/
            (ty = "pss" /\ inner_sweep info = "freq" /\ ana_type info = "pss_fd") \/
            (ty = "pss" /\ inner_sweep info = "time" /\ ana_type info = "pss_td")).
  { destruct (String.eqb ty "pss") eqn:Epss.
    - apply String.eqb_eq in Epss. right.
      destruct (String.eqb (inner_sweep info) "freq") eqn:Ef.
      + apply String.eqb_eq in Ef. injection Hty as <-. left. auto.
      + destruct (String.eqb (inner_sweep info) "time") eqn:Et; [| discriminate Hty].
        apply String.eqb_eq in Et. injection Hty as <-. right. auto.
    - apply String.eqb_neq in Epss. injection Hty as <-. left. auto. }
  split; [| split].
  - exists pre, ty, e1, e2, post. repeat split; assumption.
  - destruct (search_inner plotname) as [w |] eqn:Es; [| left; exact Hinner].
    right. rewrite Hinner. apply search_inner_spec in Es.
    destruct Es as (_ & Hw & Hwhere). split; assumption.
  - destruct Hcases as [[Hn ->] | [(_ & _ & ->) | (_ & _ & ->)]];
      [exact Hn | discriminate | discriminate].
Qed.

(** The theorem at a "pss" analysis swept over "freq". *)
Lemma classified_plotname_witness :
  exists pre post,
    ("Plotname: `pss__tb_env' PSS: freq = (0 -> 1)" ++ Spec.nl)%string
    = (pre ++ ": " ++ "freq" ++ " =" ++ post)%string.
Proof.
  destruct (classified_plotname_is_well_formed
              ("Plotname: `pss__tb_env' PSS: freq = (0 -> 1)" ++ Spec.nl)
              (mkinfo "pss__tb_env" "tb_env" "pss_fd" [] [] "freq"))
    as (_ & [Hempty | [_ Hwhere]] & _).
  - vm_compute. reflexivity.
  - discriminate Hempty.
  - exact Hwhere.
Defined.

(** X12.  The classifier raises [AttributeError] on a plot name without a
    back-tick or without an apostrophe, and on one whose analysis name has no
    underscore; it raises [NotImplementedError] on a "pss" analysis whose
    inner sweep is neither "freq" nor "time". *)
Theorem unclassifiable_plotname_raises :
  (forall plotname,
     free_of backtick plotname = true \/ free_of apostrophe plotname = true ->
     get_info_from_plotname plotname = Raise AttributeError) /\
  (forall pre name post rest,
     free_of backtick pre = true ->
     Layout.no_newline name = true ->
     free_of apostrophe post = true ->
     free_of underscore name = true ->
     get_info_from_plotname
       (pre ++ String backtick (name ++ String apostrophe
          (post ++ String Spec.newline rest)))
     = Raise AttributeError) /\
  (forall plotname quoted env,
     search_quoted plotname = Some quoted ->
     search_type_env (Py.strip_ends quoted) = Some ("pss", env) ->
     search_inner plotname <> Some "freq" ->
     search_inner plotname <> Some "time" ->
     get_info_from_plotname plotname = Raise NotImplementedError).
Proof.
  split; [| split].
  - intros plotname H. unfold get_info_from_plotname.
    assert (Hq : search_quoted plotname = None).
    { destruct H as [H | H];
        [apply search_quoted_none | apply search_quoted_unclosed]; exact H. }
    rewrite Hq. reflexivity.
  - intros pre name post rest Hpre Hname Hpost Hfree.
    unfold get_info_from_plotname.
    rewrite (search_quoted_line _ _ _ _ Hpre Hname Hpost). cbn [bind].
    rewrite strip_ends_quoted, (search_type_env_none _ Hfree). reflexivity.
  - intros plotname quoted env Hq Hm Hfreq Htime.
    unfold get_info_from_plotname. rewrite Hq. cbn [bind]. rewrite Hm. cbn [bind].
    change (String.eqb "pss" "pss") with true. cbn iota.
    destruct (search_inner plotname) as [w |].
    + destruct (String.eqb w "freq") eqn:Ef.
      { apply String.eqb_eq in Ef. subst w. contradiction. }
      destruct (String.eqb w "time") eqn:Et.
      { apply String.eqb_eq in Et. subst w. contradiction. }
      reflexivity.
    + reflexivity.
Qed.

(** The theorem at three plot names the classifier refuses. *)
Lemma unclassifiable_plotname_witness :
  get_info_from_plotname "Plotname: tran__tb_env" = Raise AttributeError /\
  get_info_from_plotname ("Plotname: `tran-tb-env' Transient" ++ Spec.nl)
  = Raise AttributeError /\
  get_info_from_plotname ("Plotname: `pss__tb_env' PSS: harm = (0 -> 1)" ++ Spec.nl)
  = Raise NotImplementedError.
Proof.
  destruct unclassifiable_plotname_raises as (Hquote & Hgrammar & Hpss).
  split; [| split].
  - apply Hquote. left. reflexivity.
  - apply (Hgrammar "Plotname: " "tran-tb-env" " Transient" ""); reflexivity.
  - apply (Hpss _ "`pss__tb_env'" "tb_env"); [reflexivity | reflexivity | |];
      vm_compute; discriminate.
Defined.

(** *** The outer sweep tags *)

Lemma digit_char_code d : d < 10 -> Py.code (Layout.digit_char d) = 48 + d.
Proof. intros H. unfold Layout.digit_char. apply code_ascii_of_nat. lia. Qed.

Lemma digit_char_isdigit d : d < 10 -> Py.isdigit (Layout.digit_char d) = true.
Proof.
  intros H. unfold Py.isdigit. rewrite (digit_char_code d H).
  apply andb_true_iff. split; apply Nat.leb_le; lia.
Qed.

Lemma digit_char_val d : d < 10 -> Py.digit_val (Layout.digit_char d) = Z.of_nat d.
Proof.
  intros H. unfold Py.digit_val. rewrite (digit_char_code d H).
  f_equal. lia.
Qed.

Lemma isdigit_not_s c : Py.isdigit c = true -> c <> "s"%char.
Proof. intros H ->. discriminate H. Qed.

Lemma zfill_2 n :
  Layout.zfill 2 n
  = String (Layout.digit_char (n / 10 mod 10))
      (String (Layout.digit_char (n mod 10)) "").
Proof. reflexivity. Qed.

Lemma zfill_3 n :
  Layout.zfill 3 n
  = String (Layout.digit_char (n / 10 / 10 mod 10))
      (String (Layout.digit_char (n / 10 mod 10))
         (String (Layout.digit_char (n mod 10)) "")).
Proof. reflexivity. Qed.

Lemma substring_all s : String.substring 0 (String.length s) s = s.
Proof. induction s as [| c s IH]; simpl; [reflexivity | rewrite IH; reflexivity]. Qed.

Lemma match_swp_at a b r :
  Py.isdigit a = true -> Py.isdigit b = true ->
  match_swp (String "s" (String "w" (String "p" (String a (String b r)))))
  = Some (String "s" (String "w" (String "p" (String a (String b ""))))).
Proof.
  intros Ha Hb. unfold match_swp. cbn [String.prefix].
  destruct (ascii_dec "s" "s") as [_ | N]; [| contradiction].
  destruct (ascii_dec "w" "w") as [_ | N]; [| contradiction].
  destruct (ascii_dec "p" "p") as [_ | N]; [| contradiction].
  cbn [String.length Nat.sub String.substring digits].
  rewrite Ha, Hb. reflexivity.
Qed.

Lemma match_swp_idx_at a b c1 c2 c3 r :
  Py.isdigit a = true -> Py.isdigit b = true ->
  Py.isdigit c1 = true -> Py.isdigit c2 = true -> Py.isdigit c3 = true ->
  match_swp_idx
    (String "s" (String "w" (String "p" (String a (String b
       (String "-" (String c1 (String c2 (String c3 r)))))))))
  = Some (String "s" (String "w" (String "p" (String a (String b
       (String "-" (String c1 (String c2 (String c3 ""))))))))).
Proof.
  intros Ha Hb H1 H2 H3. unfold match_swp_idx. cbn [String.prefix].
  destruct (ascii_dec "s" "s") as [_ | N]; [| contradiction].
  destruct (ascii_dec "w" "w") as [_ | N]; [| contradiction].
  destruct (ascii_dec "p" "p") as [_ | N]; [| contradiction].
  cbn [String.length Nat.sub String.substring digits].
  rewrite Ha, Hb. cbn [digits]. 
  change (Py.code "-" =? 45) with true. cbn iota.
  cbn [digits]. rewrite H1, H2, H3. reflexivity.
Qed.

Lemma prefix_swp_other c s : c <> "s"%char -> String.prefix "swp" (String c s) = false.
Proof.
  intros H. cbn [String.prefix].
  destruct (ascii_dec "s" c) as [E | _]; [| reflexivity].
  exfalso. apply H. symmetry. exact E.
Qed.

Lemma match_swp_other c s : c <> "s"%char -> match_swp (String c s) = None.
Proof. intros H. unfold match_swp. rewrite (prefix_swp_other c s H). reflexivity. Qed.

Lemma match_swp_idx_other c s : c <> "s"%char -> match_swp_idx (String c s) = None.
Proof. intros H. unfold match_swp_idx. rewrite (prefix_swp_other c s H). reflexivity. Qed.

Lemma match_swp_prefix s t : match_swp s = Some t -> String.prefix "swp" s = true.
Proof. unfold match_swp. destruct (String.prefix "swp" s); [reflexivity | discriminate]. Qed.

Lemma match_swp_idx_prefix s t :
  match_swp_idx s = Some t -> String.prefix "swp" s = true.
Proof. unfold match_swp_idx. destruct (String.prefix "swp" s); [reflexivity | discriminate]. Qed.

(** Where the tag does not occur, neither pattern finds anything. *)
Lemma findall_without_swp (m : string -> option string) s :
  (forall x t, m x = Some t -> String.prefix "swp" x = true) ->
  Layout.occurs "swp" s = false ->
  findall m 0 s = [].
Proof.
  intros Hm. induction s as [| c s IH]; intros H; [reflexivity |].
  cbn [Layout.occurs] in H. apply orb_false_iff in H. destruct H as [Hp Hs].
  cbn [findall]. destruct (m (String c s)) as [t |] eqn:E.
  - apply Hm in E. congruence.
  - apply IH. exact Hs.
Qed.

Lemma findall_skip (m : string -> option string) s1 s2 :
  findall m (String.length s1) (s1 ++ s2) = findall m 0 s2.
Proof. induction s1 as [| c s1 IH]; [reflexivity | exact IH]. Qed.

Lemma findall_tag_level level index rest :
  findall match_swp 0 (Layout.swp_tag level index ++ "_" ++ rest)
  = Layout.swp_level level :: findall match_swp 0 rest.
Proof.
  unfold Layout.swp_tag, Layout.swp_level. rewrite zfill_2, zfill_3.
  assert (D : forall n, Py.isdigit (Layout.digit_char (n mod 10)) = true).
  { intros n. apply digit_char_isdigit. apply Nat.mod_upper_bound. lia. }
  cbn [append]. cbn [findall].
  rewrite (match_swp_at _ _ _ (D _) (D _)).
  cbn [String.length Nat.sub findall].
  rewrite (match_swp_other "-") by discriminate.
  rewrite !match_swp_other by (apply isdigit_not_s; apply D).
  rewrite (match_swp_other "_") by discriminate.
  reflexivity.
Qed.

Lemma findall_tag_index level index rest :
  findall match_swp_idx 0 (Layout.swp_tag level index ++ "_" ++ rest)
  = Layout.swp_tag level index :: findall match_swp_idx 0 rest.
Proof.
  unfold Layout.swp_tag, Layout.swp_level. rewrite zfill_2, zfill_3.
  assert (D : forall n, Py.isdigit (Layout.digit_char (n mod 10)) = true).
  { intros n. apply digit_char_isdigit. apply Nat.mod_upper_bound. lia. }
  cbn [append]. cbn [findall].
  rewrite (match_swp_idx_at _ _ _ _ _ _ (D _) (D _) (D _) (D _) (D _)).
  cbn [String.length Nat.sub findall].
  rewrite (match_swp_idx_other "_") by discriminate.
  reflexivity.
Qed.

Lemma int_of_tag level index :
  index < 1000 ->
  Py.int (Py.last3 (Layout.swp_tag level index)) = Ok (Z.of_nat index).
Proof.
  intros H. unfold Layout.swp_tag, Layout.swp_level. rewrite zfill_2, zfill_3.
  assert (B : forall n, n mod 10 < 10) by (intros n; apply Nat.mod_upper_bound; lia).
  cbn [append]. unfold Py.last3. cbn [String.length Nat.sub String.substring].
  unfold Py.int.
  assert (Hc : forall n k, 57 < k \/ k < 48 ->
                           (Py.code (Layout.digit_char (n mod 10)) =? k) = false).
  { intros n k Hk. rewrite (digit_char_code _ (B n)). apply Nat.eqb_neq.
    specialize (B n). lia. }
  rewrite (Hc _ 45) by lia. rewrite (Hc _ 43) by lia.
  cbn [Py.int_digits].
  rewrite !digit_char_isdigit by apply B. rewrite !digit_char_val by apply B.
  f_equal.
  pose proof (Nat.div_mod_eq index 10) as E1.
  pose proof (Nat.div_mod_eq (index / 10) 10) as E2.
  assert (E3 : index / 10 / 10 < 10).
  { apply Nat.Div0.div_lt_upper_bound. apply Nat.Div0.div_lt_upper_bound. lia. }
  rewrite (Nat.mod_small _ _ E3). lia.
Qed.

Lemma findall_tagged_levels tags name :
  Layout.occurs "swp" name = false ->
  findall match_swp 0 (Layout.tagged tags name)
  = map (fun li => Layout.swp_level (fst li)) tags.
Proof.
  intros Hname. induction tags as [| [level index] tags IH].
  - apply findall_without_swp; [exact match_swp_prefix | exact Hname].
  - cbn [Layout.tagged map fst]. rewrite findall_tag_level, IH. reflexivity.
Qed.

Lemma findall_tagged_indices tags name :
  Layout.occurs "swp" name = false ->
  findall match_swp_idx 0 (Layout.tagged tags name)
  = map (fun li => Layout.swp_tag (fst li) (snd li)) tags.
Proof.
  intros Hname. induction tags as [| [level index] tags IH].
  - apply findall_without_swp; [exact match_swp_idx_prefix | exact Hname].
  - cbn [Layout.tagged map fst snd]. rewrite findall_tag_index, IH. reflexivity.
Qed.

Lemma int_of_tags tags :
  Forall (fun li => snd li < 1000) tags ->
  mapM (fun val => Py.int (Py.last3 val))
       (map (fun li => Layout.swp_tag (fst li) (snd li)) tags)
  = Ok (map (fun li => Z.of_nat (snd li)) tags).
Proof.
  induction 1 as [| [level index] tags Hi _ IH]; [reflexivity |].
  cbn [map mapM fst snd] in *. rewrite (int_of_tag level index Hi). cbn [bind].
  rewrite IH. reflexivity.
Qed.

(** X13.  The outer sweep tags are read back.  When the analysis name is a
    sequence of tags [swpLL-III_], level and point index written with two
    and three digits, in front of a name in which "swp" does not occur, the
    classifier returns the levels [swpLL] as [swp_info] and the point
    indices as [swp_combo], one per tag and in the order of the tags. *)
Theorem outer_sweep_tags_are_read_back
  (plotname : string) (info : PlotnameInfo)
  (tags : list (nat * nat)) (name : string) :
  get_info_from_plotname plotname = Ok info ->
  ana_name info = Layout.tagged tags name ->
  Forall (fun li => snd li < 1000) tags ->
  Layout.occurs "swp" name = false ->
  swp_info info = map (fun li => Layout.swp_level (fst li)) tags /\
  swp_combo info = map (fun li => Z.of_nat (snd li)) tags /\
  length (swp_combo info) = length (swp_info info).
Proof.
  intros H Hname Htags Hfree. apply get_info_inv in H.
  destruct H as (quoted & ty & _ & _ & _ & _ & _ & Hinfo & Hcombo).
  rewrite Hname in Hinfo, Hcombo.
  rewrite (findall_tagged_levels _ _ Hfree) in Hinfo.
  rewrite (findall_tagged_indices _ _ Hfree), (int_of_tags _ Htags) in Hcombo.
  injection Hcombo as Hcombo.
  split; [exact Hinfo |]. split; [symmetry; exact Hcombo |].
  rewrite Hinfo, <- Hcombo, !length_map. reflexivity.
Qed.

(** The theorem at the tags (0, 3) and (1, 12). *)
Lemma outer_sweep_tags_witness :
  exists info,
    get_info_from_plotname (ex_swp_plotname "003" "012") = Ok info /\
    swp_info info = ["swp00"; "swp01"] /\
    swp_combo info = [3; 12]%Z.
Proof.
  exists (mkinfo "swp00-003_swp01-012_tran__tb_env" "tb_env" "tran"
                 ["swp00"; "swp01"] [3; 12]%Z "").
  destruct (outer_sweep_tags_are_read_back (ex_swp_plotname "003" "012")
              (mkinfo "swp00-003_swp01-012_tran__tb_env" "tb_env" "tran"
                      ["swp00"; "swp01"] [3; 12]%Z "")
              [(0, 3); (1, 12)] "tran__tb_env")
    as (Hinfo & Hcombo & _).
  - vm_compute. reflexivity.
  - reflexivity.
  - repeat constructor; simpl; lia.
  - reflexivity.
  - split; [vm_compute; reflexivity |]. split; [exact Hinfo | exact Hcombo].
Defined.

(** ** Loops that fill a dictionary and may raise *)

Section FoldMSet.

Context {A V : Type}.
Variable key : A -> string.
Variable f : A -> result V.
Variable body : Py.dict V -> A -> result (Py.dict V).
Hypothesis body_spec :
  forall d x, body d x = (v <- f x;; Ok (Py.set d (key x) v)).

Lemma foldM_set_cons x xs d d' :
  foldM body (x :: xs) d = Ok d' ->
  exists v, f x = Ok v /\ foldM body xs (Py.set d (key x) v) = Ok d'.
Proof.
  cbn [foldM]. rewrite body_spec. intros H.
  bind_as H d1 Hd1. bind_as Hd1 v Hv. injection Hd1 as <-.
  exists v. split; assumption.
Qed.

Lemma foldM_set_frame xs d d' k :
  foldM body xs d = Ok d' ->
  (forall x, In x xs -> key x <> k) ->
  Py.get d' k = Py.get d k.
Proof.
  revert d. induction xs as [| x xs IH]; intros d H Hk.
  - injection H as <-. reflexivity.
  - apply foldM_set_cons in H. destruct H as (v & _ & H).
    rewrite (IH _ H) by (intros y Hy; apply Hk; right; exact Hy).
    apply get_set_other. apply Hk. left. reflexivity.
Qed.

Lemma foldM_set_entries xs d d' :
  foldM body xs d = Ok d' ->
  forall x, In x xs -> exists v, f x = Ok v.
Proof.
  revert d. induction xs as [| x0 xs IH]; intros d H x Hin; [destruct Hin |].
  apply foldM_set_cons in H. destruct H as (v & Hv & H).
  destruct Hin as [<- | Hin]; [exists v; exact Hv | eapply IH; eassumption].
Qed.

(** The value under a key is the one computed from the last item with that
    key. *)
Lemma foldM_set_last pre x post d d' :
  foldM body (pre ++ x :: post) d = Ok d' ->
  (forall y, In y post -> key y <> key x) ->
  exists v, f x = Ok v /\ Py.get d' (key x) = Some v.
Proof.
  intros H Hpost. rewrite foldM_app in H. bind_as H d1 Hd1.
  apply foldM_set_cons in H. destruct H as (v & Hv & H).
  exists v. split; [exact Hv |].
  rewrite (foldM_set_frame _ _ _ _ H Hpost). apply get_set_same.
Qed.

Lemma foldM_set_keys xs d d' :
  foldM body xs d = Ok d' ->
  NoDup (map key xs) ->
  (forall x, In x xs -> ~ In (key x) (Py.keys d)) ->
  Py.keys d' = Py.keys d ++ map key xs.
Proof.
  revert d. induction xs as [| x xs IH]; intros d H Hnd Hfresh.
  - injection H as <-. cbn [map]. rewrite app_nil_r. reflexivity.
  - apply foldM_set_cons in H. destruct H as (v & _ & H).
    inversion Hnd as [| ? ? Hx Hnd']; subst.
    rewrite (IH _ H Hnd').
    + rewrite set_fresh by (apply Hfresh; left; reflexivity).
      unfold Py.keys. rewrite map_app. cbn [map fst]. rewrite <- app_assoc.
      reflexivity.
    + intros y Hy Hin. apply keys_set_in in Hin. destruct Hin as [E | Hin].
      * apply Hx. rewrite <- E. apply in_map. exact Hy.
      * apply (Hfresh y); [right; exact Hy | exact Hin].
Qed.

Lemma foldM_set_keys_in xs d d' k :
  foldM body xs d = Ok d' ->
  In k (Py.keys d) \/ In k (map key xs) ->
  In k (Py.keys d').
Proof.
  revert d. induction xs as [| x xs IH]; intros d H Hk.
  - injection H as <-. destruct Hk as [Hk | []]. exact Hk.
  - apply foldM_set_cons in H. destruct H as (v & _ & H).
    apply (IH _ H). destruct Hk as [Hk | [Hk | Hk]].
    + left. apply keys_set_in. right. exact Hk.
    + left. apply keys_set_in. left. symmetry. exact Hk.
    + right. exact Hk.
Qed.

(** Whatever the dictionary holds at the end was there at the start or was
    computed from an item. *)
Lemma foldM_set_values xs d d' kv :
  foldM body xs d = Ok d' ->
  In kv d' ->
  In kv d \/ exists x, In x xs /\ key x = fst kv /\ f x = Ok (snd kv).
Proof.
  revert d. induction xs as [| x xs IH]; intros d H Hin.
  - injection H as <-. left. exact Hin.
  - apply foldM_set_cons in H. destruct H as (v & Hv & H).
    destruct (IH _ H Hin) as [Hd | (y & Hy & Hk & Hf)].
    + apply set_entries in Hd. destruct Hd as [-> | Hd]; [| left; exact Hd].
      right. exists x. repeat split; [left; reflexivity | exact Hv].
    + right. exists y. repeat split; [right; exact Hy | exact Hk | exact Hf].
Qed.

End FoldMSet.

(** ** More on the loop over the signals *)

Section StoreAllMore.

Context {A : Type}.
Variable entry : A -> result (string * Np.ndarray).
Variable key : A -> string.
Hypothesis entry_key : forall x k a, entry x = Ok (k, a) -> k = key x.

(** Of several signals with one key, the last one's entry is what the key
    holds. *)
Lemma store_all_last pre x post out out' :
  store_all entry (pre ++ x :: post) out = Ok out' ->
  (forall y, In y post -> key y <> key x) ->
  exists a, entry x = Ok (key x, a) /\ Py.get out' (key x) = Some (VArray a).
Proof.
  unfold store_all. intros H Hpost. rewrite foldM_app in H. bind_as H out1 Hout1.
  apply (store_all_cons entry) in H. destruct H as ([k a] & He & H).
  pose proof (entry_key _ _ _ He) as Hk. subst k.
  exists a. split; [exact He |].
  rewrite (store_all_frame entry key entry_key _ _ _ _ H Hpost).
  unfold store. cbn [fst snd]. apply get_set_same.
Qed.

(** A key that was there stays there. *)
Lemma store_all_keeps_keys xs out out' k :
  store_all entry xs out = Ok out' ->
  In k (Py.keys out) -> In k (Py.keys out').
Proof.
  revert out. induction xs as [| x xs IH]; intros out H Hk.
  - injection H as <-. exact Hk.
  - apply store_all_cons in H. destruct H as (e & _ & H).
    apply (IH _ H). unfold store. apply keys_set_in. right. exact Hk.
Qed.

(** What holds of every entry and of every array that was there holds of
    every array at the end. *)
Lemma store_all_arrays (P : Np.ndarray -> Prop) xs out out' :
  store_all entry xs out = Ok out' ->
  (forall x k a, In x xs -> entry x = Ok (k, a) -> P a) ->
  (forall k a, In (k, VArray a) out -> P a) ->
  forall k a, In (k, VArray a) out' -> P a.
Proof.
  revert out. induction xs as [| x xs IH]; intros out H Hentry Hout k a Hin.
  - injection H as <-. eapply Hout. exact Hin.
  - apply store_all_cons in H. destruct H as ([k0 a0] & He & H).
    apply (IH _ H) with k; [| | exact Hin].
    + intros y k1 a1 Hy. apply Hentry. right. exact Hy.
    + intros k1 a1 Hin1. unfold store in Hin1. cbn [fst snd] in Hin1.
      apply set_entries in Hin1. destruct Hin1 as [E | Hin1].
      * injection E as _ ->. apply (Hentry x k0 a0); [left; reflexivity | exact He].
      * eapply Hout. exact Hin1.
Qed.

End StoreAllMore.

(** ** The reconstructor on irregular groups *)

(** X14.  If one of the [swp_len] runs that are combined lacks a signal that
    run 0 has, the conversion raises: no result is returned with that signal
    left out or filled in. *)
Theorem signal_missing_from_a_run_fails
  (check_is_md : detector) (monte_carlo : bool) (nb_dict : group)
  (rtol atol : Q) (ana_type : string)
  (swp_vars : list string) (swp_len : nat) (swp_combo_list : list (list Z))
  (run0 run : Py.dict Np.vec) (i : nat) (sig_name : string) :
  sweep_info monte_carlo nb_dict ana_type
  = Ok (swp_vars, swp_len, swp_combo_list) ->
  nth_error (data nb_dict) 0 = Some run0 ->
  In sig_name (Py.keys run0) ->
  i < swp_len ->
  nth_error (data nb_dict) i = Some run ->
  Py.get run sig_name = None ->
  exists e,
    convert_to_analysis_data check_is_md monte_carlo nb_dict rtol atol ana_type
    = Raise e.
Proof.
  intros Hinfo Hrun0 Hsig Hi Hrun Hmissing.
  destruct (convert_to_analysis_data check_is_md monte_carlo nb_dict rtol atol
              ana_type) as [r | e] eqn:Hconv; [exfalso | exists e; reflexivity].
  assert (Hn : swp_len <> 0) by lia.
  destruct (convert_sweep_case _ _ _ _ _ _ _ _ _ _ Hconv Hinfo Hn)
    as (combo & sh & run0' & rest & _ & Hdata & Hloop).
  rewrite Hdata in Hrun0. injection Hrun0 as ->.
  destruct (store_all_entries _ _ _ _ Hloop _ Hsig) as [entry Hentry].
  destruct (combined_signal_gathers _ _ _ _ _ _ Hentry) as [yvecs Hgather].
  destruct (gather_spec _ _ _ _ Hgather) as [_ Hruns].
  destruct (Hruns i Hi) as (run' & v & Hrun' & Hv & _).
  rewrite Hrun in Hrun'. injection Hrun' as <-. congruence.
Qed.

(** The theorem at two runs of which the second lacks "time". *)
Lemma signal_missing_witness :
  exists e,
    convert_to_analysis_data Spec.check_is_md false
      (mkgroup [ex_block 0; ex_run 1] [[0]; [1]]%Z "time") ex_tol ex_tol "tran"
    = Raise e.
Proof.
  apply (signal_missing_from_a_run_fails Spec.check_is_md false
           (mkgroup [ex_block 0; ex_run 1] [[0]; [1]]%Z "time") ex_tol ex_tol
           "tran" ["sweep0"] 2 [[0; 1]%Z] (ex_block 0) (ex_run 1) 1 "time").
  - reflexivity.
  - reflexivity.
  - simpl. tauto.
  - lia.
  - reflexivity.
  - reflexivity.
Defined.

(** *** Rows of [swp_combos] of unequal length *)

Lemma rectangular_false rows :
  rectangular rows = false ->
  exists c rest, rows = c :: rest /\ combo_columns rows (length c) = Raise ValueError.
Proof.
  destruct rows as [| c rest]; [discriminate |].
  unfold rectangular. cbn [hd]. intros H. exists c, rest.
  split; [reflexivity |]. unfold combo_columns. rewrite H. reflexivity.
Qed.

(** X15.  When the outer combos of a group, none of them empty as the
    accumulator has them, do not all have the length of the first one, the
    conversion raises while it builds the sweep table, in every mode: the
    Monte-Carlo and "pac" overrides come after [np.array(swp_combos)] and do
    not rescue the group.  (With an empty first combo the comprehension of
    line 232 would have no iteration and build no array.) *)
Theorem ragged_outer_tags_fail
  (check_is_md : detector) (monte_carlo : bool) (nb_dict : group)
  (rtol atol : Q) (ana_type : string) :
  Forall (fun c => c <> []) (swp_combos nb_dict) ->
  rectangular (swp_combos nb_dict) = false ->
  exists e,
    sweep_info monte_carlo nb_dict ana_type = Raise e /\
    convert_to_analysis_data check_is_md monte_carlo nb_dict rtol atol ana_type
    = Raise e.
Proof.
  intros _ H. destruct (rectangular_false _ H) as (c & rest & Hrows & Hcols).
  assert (Hinfo : sweep_info monte_carlo nb_dict ana_type = Raise ValueError).
  { unfold sweep_info. rewrite Hrows in *. rewrite Hcols. reflexivity. }
  exists ValueError. split; [exact Hinfo |].
  unfold convert_to_analysis_data. rewrite Hinfo. reflexivity.
Qed.

(** The theorem at two Monte-Carlo runs, one with one tag and one with
    two. *)
Lemma ragged_outer_tags_witness :
  exists d e,
    accumulate true
      [(("Plotname: `__mc_swp00-001_tran__tb_env' Transient" ++ Spec.nl)%string,
        ex_run 1);
       (("Plotname: `__mc_swp00-001_swp01-002_tran__tb_env' Transient"
         ++ Spec.nl)%string, ex_run 2)] []
    = Ok [("tran", [("tb_env", d)])] /\
    convert_to_analysis_data Spec.check_is_md true d ex_tol ex_tol "tran"
    = Raise e.
Proof.
  exists (mkgroup [ex_run 1; ex_run 2] [[1]; [1; 2]]%Z "").
  destruct (ragged_outer_tags_fail Spec.check_is_md true
              (mkgroup [ex_run 1; ex_run 2] [[1]; [1; 2]]%Z "")
              ex_tol ex_tol "tran") as (e & _ & He).
  - repeat constructor; discriminate.
  - reflexivity.
  - exists e. split; [vm_compute; reflexivity | exact He].
Defined.

(** *** The names of the sweep variables *)

Lemma sweep_info_vars mc nb ty vars n cl :
  sweep_info mc nb ty = Ok (vars, n, cl) ->
  vars = sweep_names mc ty (length (hd [] (swp_combos nb))).
Proof.
  unfold sweep_info, sweep_names. intros H. bind_as H x Hx.
  destruct x as [[v0 n0] c0].
  assert (Hv0 : v0 = map (fun idx => ("sweep" ++ Py.str_of_nat idx)%string)
                         (seq 0 (length (hd [] (swp_combos nb))))).
  { destruct (swp_combos nb) as [| c rows].
    - injection Hx as <- _ _. reflexivity.
    - bind_as Hx cols Hcols. injection Hx as <- _ _. reflexivity. }
  destruct mc; destruct (String.eqb ty "pac"); injection H as <- _ _;
    auto.
Qed.

Lemma coord_body vals (d : Py.dict value) (iv : nat * string) :
  (v <- Py.getitem vals (fst iv);; Ok (Py.set d (snd iv) (VCoord v)))
  = (w <- coord_of vals iv;; Ok (Py.set d (snd iv) w)).
Proof. unfold coord_of. destruct (Py.getitem vals (fst iv)); reflexivity. Qed.

Lemma sweep_shape_has_keys det rtol atol vars n cl md combo sh :
  sweep_shape det rtol atol vars n cl = Ok (md, combo, sh) ->
  forall var, In var vars -> In var (Py.keys (Py.update [] combo)).
Proof.
  unfold sweep_shape. intros H var Hvar.
  unfold Py.update. apply (fold_set_keys_in fst snd). right.
  change (In var (Py.keys combo)).
  destruct (det cl rtol atol) as [[shape vals] |].
  - bind_as H d Hd. injection H as _ <- _.
    apply (foldM_set_keys_in (fun iv : nat * string => snd iv)
             (coord_of vals) _ (coord_body vals) _ _ _ _ Hd).
    right. unfold Py.enumerate.
    change (In var (map snd (Py.enumerate_from 0 vars))).
    rewrite enumerate_from_snd. exact Hvar.
  - injection H as _ <- _.
    apply (fold_set_keys_in (fun v : string => v)). right.
    rewrite map_id. exact Hvar.
Qed.

(** X16.  [sweep_params] of a result is "corner", then the outer sweep
    variables ("harmonic" for a "pac" analysis, else "monte_carlo" in
    Monte-Carlo mode, else [sweep0], [sweep1], ... one per entry of the first
    outer combo), then the inner sweep name when the group has one.  Every
    outer sweep variable has an entry in the data mapping, and the mapping
    has no key besides these variables and the renamed signals of run 0. *)
Theorem sweep_params_name_the_axes
  (check_is_md : detector) (monte_carlo : bool) (nb_dict : group)
  (rtol atol : Q) (ana_type : string) (r : AnalysisData) :
  convert_to_analysis_data check_is_md monte_carlo nb_dict rtol atol ana_type
  = Ok r ->
  let swp_vars :=
    sweep_names monte_carlo ana_type (length (hd [] (swp_combos nb_dict))) in
  sweep_params r
  = "corner" :: swp_vars
      ++ (if String.eqb (g_inner_sweep nb_dict) "" then []
          else [g_inner_sweep nb_dict]) /\
  (forall var, In var swp_vars -> In var (Py.keys (ana_data r))) /\
  (forall k, In k (Py.keys (ana_data r)) ->
     In k swp_vars \/
     exists run0 sig_name,
       nth_error (data nb_dict) 0 = Some run0 /\
       In sig_name (Py.keys run0) /\ k = Py.replace slash dot sig_name).
Proof.
  intros H swp_vars. apply convert_inv in H.
  destruct H as (vars & n & cl & combo & sh & run0 & Hinfo & Hshape & Hrun
                 & Hloop & Hparams).
  pose proof (sweep_info_vars _ _ _ _ _ _ Hinfo) as Hvars. fold swp_vars in Hvars.
  subst vars.
  split; [| split].
  - rewrite Hparams. unfold with_inner.
    destruct (String.eqb (g_inner_sweep nb_dict) "");
      [rewrite app_nil_r |]; reflexivity.
  - intros var Hvar.
    pose proof (sweep_shape_has_keys _ _ _ _ _ _ _ _ _ Hshape var Hvar) as Hk.
    destruct (n =? 0).
    + apply (store_all_keeps_keys _ _ _ _ _ Hloop Hk).
    + apply (store_all_keeps_keys _ _ _ _ _ Hloop Hk).
  - intros k Hk.
    assert (Hrun0 : nth_error (data nb_dict) 0 = Some run0).
    { unfold Py.getitem in Hrun.
      destruct (nth_error (data nb_dict) 0); [| discriminate Hrun].
      injection Hrun as <-. reflexivity. }
    destruct (n =? 0).
    + destruct (store_all_keys _ (fun x => Py.replace slash dot (fst x))
                  (single_signal_key _ _) _ _ _ Hloop k Hk) as [Hc | Hs].
      * left. eapply sweep_shape_keys; eassumption.
      * right. apply in_map_iff in Hs. destruct Hs as ([s y] & <- & Hin).
        exists run0, s. repeat split; [exact Hrun0 |].
        apply (in_map fst) in Hin. exact Hin.
    + destruct (store_all_keys _ (Py.replace slash dot)
                  (combined_signal_key _ _ _ _) _ _ _ Hloop k Hk) as [Hc | Hs].
      * left. eapply sweep_shape_keys; eassumption.
      * right. apply in_map_iff in Hs. destruct Hs as (s & <- & Hin).
        exists run0, s. repeat split; assumption.
Qed.

(** The theorem at the example with one outer level and the inner sweep
    "time". *)
Lemma sweep_params_witness :
  sweep_params (the_result
                  (convert_to_analysis_data Spec.check_is_md false ex_ragged
                     ex_tol ex_tol "tran"))
  = ["corner"; "sweep0"; "time"].
Proof.
  destruct (sweep_params_name_the_axes Spec.check_is_md false ex_ragged
              ex_tol ex_tol "tran"
              (the_result (convert_to_analysis_data Spec.check_is_md false
                             ex_ragged ex_tol ex_tol "tran"))) as [H _].
  - vm_compute. reflexivity.
  - rewrite H. reflexivity.
Defined.

(** *** A grid the detector recognised *)

Lemma str_of_nat_inj a b : Py.str_of_nat a = Py.str_of_nat b -> a = b.
Proof.
  intros H. pose proof (int_str_of_nat a) as Ha. rewrite H, int_str_of_nat in Ha.
  injection Ha as Ha. lia.
Qed.

Lemma sweep_names_nodup mc ty k : NoDup (sweep_names mc ty k).
Proof.
  unfold sweep_names.
  destruct (String.eqb ty "pac"); [repeat constructor; simpl; tauto |].
  destruct mc; [repeat constructor; simpl; tauto |].
  apply Injective_map_NoDup; [| apply seq_NoDup].
  intros a b H. injection H as H. apply str_of_nat_inj. exact H.
Qed.

Lemma foldM_set_nodup {A V : Type} (key : A -> string) (f : A -> result V)
  (body : Py.dict V -> A -> result (Py.dict V))
  (body_spec : forall d x, body d x = (v <- f x;; Ok (Py.set d (key x) v)))
  xs d d' :
  foldM body xs d = Ok d' -> NoDup (Py.keys d) -> NoDup (Py.keys d').
Proof.
  revert d. induction xs as [| x xs IH]; intros d H Hnd.
  - injection H as <-. exact Hnd.
  - apply (foldM_set_cons key f body body_spec) in H. destruct H as (v & _ & H).
    apply (IH _ H). apply set_nodup. exact Hnd.
Qed.

Lemma update_nil {V : Type} (d : Py.dict V) :
  NoDup (Py.keys d) -> Py.update [] d = d.
Proof.
  intros H. unfold Py.update.
  rewrite (fold_set_fresh fst snd d [] H) by (intros x _ []).
  cbn [app]. rewrite <- (map_id d) at 2. apply map_ext. intros [k v]. reflexivity.
Qed.

Lemma prod_app sh m : Np.prod (sh ++ [m]) = Np.prod sh * m.
Proof.
  unfold Np.prod. induction sh as [| d sh IH]; simpl; [lia |].
  rewrite IH. lia.
Qed.

Lemma length_concat_rows {A : Type} (len : nat) (bs : list (list A)) :
  Forall (fun b => length b = len) bs -> length (concat bs) = length bs * len.
Proof.
  induction 1 as [| b bs Hb _ IH]; [reflexivity |].
  cbn [concat length]. rewrite length_app, Hb, IH. lia.
Qed.

Lemma reshape_count a sh b :
  Np.reshape a sh = Ok b -> Np.prod (Np.shape b) = length (Np.flat b).
Proof.
  unfold Np.reshape. destruct (Np.prod sh =? length (Np.flat a)) eqn:E;
    [| discriminate].
  intros H. injection H as <-. cbn [Np.shape Np.flat]. apply Nat.eqb_eq. exact E.
Qed.

(** The element count of a stored array is the product of its shape. *)
Lemma combined_signal_count runs inner n sh sig_name k a :
  combined_signal runs inner n sh sig_name = Ok (k, a) ->
  Np.prod (Np.shape a) = length (Np.flat a).
Proof.
  unfold combined_signal. intros H. bind_as H yvecs Hg.
  destruct (negb (all_same_len (map Np.size yvecs))).
  - bind_as H y Hy. bind_as H b Hb. injection H as _ <-.
    apply reshape_count in Hb. exact Hb.
  - destruct (String.eqb (Py.replace slash dot sig_name) inner).
    + bind_as H y0 Hy0. injection H as _ <-.
      unfold Np.of_vec, Np.size. cbn [Np.shape Np.flat Np.prod fold_right]. lia.
    + bind_as H y Hy. bind_as H b Hb. injection H as _ <-.
      apply reshape_count in Hb. exact Hb.
Qed.

(** X17.  When the grid detector answers with a shape and per-axis values,
    the result is flagged multi-dimensional, sweep variable number [i] holds
    [swp_vals[i]] (unless a signal of the same key overwrites it), and the
    shape must account for every run: a stacked signal with at least one
    sample can only be reshaped when the product of the shape is
    [swp_len]. *)
Theorem detected_grid_shape_and_coordinates
  (check_is_md : detector) (monte_carlo : bool) (nb_dict : group)
  (rtol atol : Q) (ana_type : string) (r : AnalysisData)
  (swp_vars : list string) (swp_len : nat) (swp_combo_list : list (list Z))
  (swp_shape : list nat) (swp_vals : list (list Z)) (run0 : Py.dict Np.vec) :
  convert_to_analysis_data check_is_md monte_carlo nb_dict rtol atol ana_type
  = Ok r ->
  sweep_info monte_carlo nb_dict ana_type
  = Ok (swp_vars, swp_len, swp_combo_list) ->
  check_is_md swp_combo_list rtol atol = Some (swp_shape, swp_vals) ->
  nth_error (data nb_dict) 0 = Some run0 ->
  is_md r = true /\
  (forall i var,
     nth_error swp_vars i = Some var ->
     (forall sig_name, In sig_name (Py.keys run0) ->
                       Py.replace slash dot sig_name <> var) ->
     exists v, nth_error swp_vals i = Some v /\
               Py.get (ana_data r) var = Some (VCoord v)) /\
  (forall sig_name yvecs,
     swp_len <> 0 ->
     In sig_name (Py.keys run0) ->
     gather (data nb_dict) swp_len sig_name = Ok yvecs ->
     all_same_len (map Np.size yvecs) = false \/
     String.eqb (Py.replace slash dot sig_name) (g_inner_sweep nb_dict) = false ->
     max_size yvecs <> 0 ->
     Np.prod swp_shape = swp_len).
Proof.
  intros Hconv Hinfo Hdet Hrun0.
  pose proof Hconv as Hinv. apply convert_inv in Hinv.
  destruct Hinv as (vars' & n' & cl' & combo & sh & run0' & Hinfo' & Hshape
                    & Hrun & Hloop & _).
  rewrite Hinfo in Hinfo'. injection Hinfo' as <- <- <-.
  unfold Py.getitem in Hrun. rewrite Hrun0 in Hrun. injection Hrun as <-.
  destruct (sweep_shape_md _ _ _ _ _ _ _ _ _ _ _ Hshape Hdet) as [Hmd ->].
  split; [exact Hmd |]. split.
  - intros i var Hvar Hfree.
    unfold sweep_shape in Hshape. rewrite Hdet in Hshape.
    bind_as Hshape d Hd. injection Hshape as _ <-.
    destruct (nth_error_split _ _ Hvar) as (pre & post & Hvars & Hlen).
    assert (Hnd : NoDup swp_vars).
    { rewrite (sweep_info_vars _ _ _ _ _ _ Hinfo). apply sweep_names_nodup. }
    assert (Hsplit : Py.enumerate swp_vars
                     = Py.enumerate_from 0 pre
                       ++ (i, var) :: Py.enumerate_from (S i) post).
    { unfold Py.enumerate. rewrite Hvars, enumerate_from_app.
      cbn [Py.enumerate_from plus]. rewrite Hlen. reflexivity. }
    rewrite Hsplit in Hd.
    destruct (foldM_set_last (fun iv : nat * string => snd iv) (coord_of swp_vals)
                _ (coord_body swp_vals) _ _ _ _ _ Hd) as (w & Hw & Hget).
    { intros [j y] Hy E. cbn [snd] in E. subst y.
      apply (in_map snd) in Hy. rewrite enumerate_from_snd in Hy.
      rewrite Hvars in Hnd. apply NoDup_remove_2 in Hnd.
      apply Hnd. apply in_or_app. right. exact Hy. }
    cbn [snd] in Hget. unfold coord_of, Py.getitem in Hw. cbn [fst] in Hw.
    destruct (nth_error swp_vals i) as [v |] eqn:Ev; [| discriminate Hw].
    injection Hw as <-. exists v. split; [reflexivity |].
    assert (Hdnd : NoDup (Py.keys d)).
    { apply (foldM_set_nodup (fun iv : nat * string => snd iv) (coord_of swp_vals)
               _ (coord_body swp_vals) _ _ _ Hd). constructor. }
    rewrite (update_nil _ Hdnd) in Hloop. rewrite <- Hget.
    destruct (swp_len =? 0).
    + apply (store_all_frame _ (fun x => Py.replace slash dot (fst x))
               (single_signal_key _ _) _ _ _ _ Hloop).
      intros [s y] Hin. apply Hfree. apply (in_map fst) in Hin. exact Hin.
    + apply (store_all_frame _ (Py.replace slash dot)
               (combined_signal_key _ _ _ _) _ _ _ _ Hloop).
      exact Hfree.
  - intros sig_name yvecs Hn Hsig Hgather Hcase Hmax.
    apply Nat.eqb_neq in Hn. rewrite Hn in Hloop.
    destruct (store_all_entries _ _ _ _ Hloop _ Hsig) as [[k a] Hentry].
    pose proof (combined_signal_count _ _ _ _ _ _ _ Hentry) as Hcount.
    destruct (combined_signal_stacked _ _ _ _ _ _ _ _ Hgather Hentry Hcase)
      as (_ & Hs & Hf).
    rewrite Hs, Hf, prod_app in Hcount.
    rewrite (length_concat_rows (max_size yvecs)) in Hcount
      by apply padded_rows_length.
    rewrite length_map in Hcount.
    destruct (gather_spec _ _ _ _ Hgather) as [Hlen _]. rewrite Hlen in Hcount.
    nia.
Qed.

(** The theorem at the 2 x 2 example grid. *)
Lemma detected_grid_witness :
  Py.get (ana_data (the_result
            (convert_to_analysis_data Spec.check_is_md false ex_grid
               ex_tol ex_tol "tran"))) "sweep1" = Some (VCoord [0; 1]%Z) /\
  Np.prod [2; 2] = 4.
Proof.
  destruct (detected_grid_shape_and_coordinates Spec.check_is_md false ex_grid
              ex_tol ex_tol "tran"
              (the_result (convert_to_analysis_data Spec.check_is_md false
                             ex_grid ex_tol ex_tol "tran"))
              ["sweep0"; "sweep1"] 4 [[0; 0; 1; 1]; [0; 1; 0; 1]]%Z
              [2; 2] [[0; 1]; [0; 1]]%Z (ex_run 10))
    as (_ & Hcoord & Hcount).
  - vm_compute. reflexivity.
  - reflexivity.
  - vm_compute. reflexivity.
  - reflexivity.
  - split.
    + destruct (Hcoord 1 "sweep1" eq_refl) as (v & Hv & Hget).
      * intros s [<- | []]. discriminate.
      * injection Hv as <-. exact Hget.
    + apply (Hcount "v" [Np.mkvec Np.float64 [Np.Fl 10]; Np.mkvec Np.float64 [Np.Fl 20];
                         Np.mkvec Np.float64 [Np.Fl 30]; Np.mkvec Np.float64 [Np.Fl 40]]).
      * discriminate.
      * left. reflexivity.
      * reflexivity.
      * right. reflexivity.
      * discriminate.
Defined.

(** *** Signals that share a key *)

(** X18.  When several signals of run 0 get the same key after "/" is
    replaced by ".", the key holds the combined array of the last of them:
    the earlier ones are overwritten without notice. *)
Theorem last_signal_with_a_key_is_stored
  (check_is_md : detector) (monte_carlo : bool) (nb_dict : group)
  (rtol atol : Q) (ana_type : string) (r : AnalysisData)
  (swp_vars : list string) (swp_len : nat) (swp_combo_list : list (list Z))
  (run0 : Py.dict Np.vec)
  (before : list string) (sig_name : string) (after : list string) :
  convert_to_analysis_data check_is_md monte_carlo nb_dict rtol atol ana_type
  = Ok r ->
  sweep_info monte_carlo nb_dict ana_type
  = Ok (swp_vars, swp_len, swp_combo_list) ->
  swp_len <> 0 ->
  nth_error (data nb_dict) 0 = Some run0 ->
  Py.keys run0 = before ++ sig_name :: after ->
  (forall later, In later after ->
     Py.replace slash dot later <> Py.replace slash dot sig_name) ->
  exists swp_shape a,
    combined_signal (data nb_dict) (g_inner_sweep nb_dict) swp_len swp_shape
      sig_name = Ok (Py.replace slash dot sig_name, a) /\
    Py.get (ana_data r) (Py.replace slash dot sig_name) = Some (VArray a).
Proof.
  intros Hconv Hinfo Hn Hrun0 Hkeys Hlast.
  destruct (convert_sweep_case _ _ _ _ _ _ _ _ _ _ Hconv Hinfo Hn)
    as (combo & sh & run0' & rest & _ & Hdata & Hloop).
  rewrite Hdata in Hrun0. injection Hrun0 as ->.
  rewrite Hkeys in Hloop.
  destruct (store_all_last _ (Py.replace slash dot) (combined_signal_key _ _ _ _)
              _ _ _ _ _ Hloop Hlast) as (a & Ha & Hget).
  exists sh, a. split; assumption.
Qed.

(** The theorem at the signals "a/b" and "a.b" of one run. *)
Lemma last_signal_witness :
  exists a,
    Py.get (ana_data (the_result
              (convert_to_analysis_data Spec.check_is_md false
                 (mkgroup [[("a/b", Np.mkvec Np.float64 [Np.Fl 1]);
                            ("a.b", Np.mkvec Np.float64 [Np.Fl 2])]]
                          [[0]%Z] "")
                 ex_tol ex_tol "tran"))) "a.b" = Some (VArray a) /\
    Np.flat a = [Np.Fl 2].
Proof.
  destruct (last_signal_with_a_key_is_stored Spec.check_is_md false
              (mkgroup [[("a/b", Np.mkvec Np.float64 [Np.Fl 1]);
                         ("a.b", Np.mkvec Np.float64 [Np.Fl 2])]]
                       [[0]%Z] "")
              ex_tol ex_tol "tran"
              (the_result
                 (convert_to_analysis_data Spec.check_is_md false
                    (mkgroup [[("a/b", Np.mkvec Np.float64 [Np.Fl 1]);
                               ("a.b", Np.mkvec Np.float64 [Np.Fl 2])]]
                             [[0]%Z] "")
                    ex_tol ex_tol "tran"))
              ["sweep0"] 1 [[0]%Z]
              [("a/b", Np.mkvec Np.float64 [Np.Fl 1]);
               ("a.b", Np.mkvec Np.float64 [Np.Fl 2])]
              ["a/b"] "a.b" [])
    as (sh & a & Ha & Hget).
  - vm_compute. reflexivity.
  - reflexivity.
  - discriminate.
  - reflexivity.
  - reflexivity.
  - intros later [].
  - exists a. split; [exact Hget |].
    vm_compute in Hget. injection Hget as <-. reflexivity.
Defined.

(** *** A group without any sweep level *)

Lemma single_signal_count inner sh sig_name y k a :
  single_signal inner sh (sig_name, y) = Ok (k, a) ->
  String.eqb (Py.replace slash dot sig_name) inner = false ->
  Np.prod sh * Np.size y = Np.size y.
Proof.
  unfold single_signal. intros H Hne. rewrite Hne in H.
  bind_as H b Hb. unfold Np.reshape in Hb.
  destruct (Np.prod (sh ++ [Np.size y]) =? length (Np.flat (Np.of_vec y))) eqn:E;
    [| discriminate Hb].
  apply Nat.eqb_eq in E. rewrite prod_app in E. exact E.
Qed.

(** X19.  A group without any sweep level is converted only when the grid
    detector, asked about an empty set of combos, answers with a shape whose
    product is 1.  If it reports no grid, the outer shape is [(0,)] and the
    reshape of any non-empty signal other than the inner sweep raises. *)
Theorem group_without_sweep_needs_a_unit_grid
  (check_is_md : detector) (monte_carlo : bool) (nb_dict : group)
  (rtol atol : Q) (ana_type : string) (r : AnalysisData)
  (swp_vars : list string) (swp_combo_list : list (list Z))
  (run0 : Py.dict Np.vec) (sig_name : string) (sig_y : Np.vec) :
  convert_to_analysis_data check_is_md monte_carlo nb_dict rtol atol ana_type
  = Ok r ->
  sweep_info monte_carlo nb_dict ana_type = Ok (swp_vars, 0, swp_combo_list) ->
  nth_error (data nb_dict) 0 = Some run0 ->
  In (sig_name, sig_y) run0 ->
  String.eqb (Py.replace slash dot sig_name) (g_inner_sweep nb_dict) = false ->
  Np.size sig_y <> 0 ->
  exists swp_shape swp_vals,
    check_is_md swp_combo_list rtol atol = Some (swp_shape, swp_vals) /\
    Np.prod swp_shape = 1 /\
    is_md r = true.
Proof.
  intros Hconv Hinfo Hrun0 Hsig Hne Hsize.
  apply convert_inv in Hconv.
  destruct Hconv as (vars' & n' & cl' & combo & sh & run0' & Hinfo' & Hshape
                     & Hrun & Hloop & _).
  rewrite Hinfo in Hinfo'. injection Hinfo' as <- <- <-.
  unfold Py.getitem in Hrun. rewrite Hrun0 in Hrun. injection Hrun as <-.
  cbn [Nat.eqb] in Hloop.
  destruct (store_all_entries _ _ _ _ Hloop _ Hsig) as [[k a] Hentry].
  pose proof (single_signal_count _ _ _ _ _ _ Hentry Hne) as Hcount.
  assert (Hprod : Np.prod sh = 1) by nia.
  destruct (check_is_md swp_combo_list rtol atol) as [[shape vals] |] eqn:Hdet.
  - destruct (sweep_shape_md _ _ _ _ _ _ _ _ _ _ _ Hshape Hdet) as [Hmd ->].
    exists shape, vals. repeat split; assumption.
  - destruct (sweep_shape_not_md _ _ _ _ _ _ _ _ _ Hshape Hdet) as (_ & -> & _).
    discriminate Hprod.
Qed.

(** The theorem at a single run and a detector that answers (1,). *)
Lemma group_without_sweep_witness :
  exists swp_shape swp_vals,
    ex_corner_detector [] ex_tol ex_tol = Some (swp_shape, swp_vals) /\
    Np.prod swp_shape = 1.
Proof.
  destruct (group_without_sweep_needs_a_unit_grid ex_corner_detector false
              (mkgroup [ex_run 10] [] "") ex_tol ex_tol "tran"
              (the_result (convert_to_analysis_data ex_corner_detector false
                             (mkgroup [ex_run 10] [] "") ex_tol ex_tol "tran"))
              [] [] (ex_run 10) "v" (Np.mkvec Np.float64 [Np.Fl 10]))
    as (sh & vals & Hdet & Hprod & _).
  - vm_compute. reflexivity.
  - reflexivity.
  - reflexivity.
  - left. reflexivity.
  - reflexivity.
  - discriminate.
  - exists sh, vals. split; assumption.
Defined.

(** ** The assembler *)

Section Assembler.

Context {T : Type}.
Variable check_is_md : detector.
Variable combine_ana_sim_envs : combiner T.
Variable monte_carlo : bool.
Variables rtol atol : Q.

Local Abbreviation convert_env :=
  (fun (ana_type : string) (d : Py.dict AnalysisData) (env_nb : string * group) =>
     a <- convert_to_analysis_data check_is_md monte_carlo (snd env_nb) rtol atol
            ana_type;;
     Ok (Py.set d (fst env_nb) a)).

Local Abbreviation step :=
  (convert_ana_type check_is_md combine_ana_sim_envs monte_carlo rtol atol).

Lemma convert_ana_type_inv st ana_type sim_env_dict st' :
  step st (ana_type, sim_env_dict) = Ok st' ->
  exists sub_ana_dict combined,
    foldM (convert_env ana_type) sim_env_dict [] = Ok sub_ana_dict /\
    combine_ana_sim_envs sub_ana_dict (Py.sorted (Py.keys sim_env_dict))
    = Ok combined /\
    st' = (Py.set (fst st) ana_type combined, Py.sorted (Py.keys sim_env_dict)).
Proof.
  unfold step, convert_ana_type. intros H.
  bind_as H sub Hsub. bind_as H c Hc. injection H as <-.
  exists sub, c. repeat split; assumption.
Qed.

Lemma convert_types_frame xs st st' k :
  foldM step xs st = Ok st' ->
  ~ In k (map fst xs) ->
  Py.get (fst st') k = Py.get (fst st) k.
Proof.
  revert st. induction xs as [| [ty envd] xs IH]; intros st H Hk.
  - injection H as <-. reflexivity.
  - cbn [foldM] in H. bind_as H st1 Hst1.
    apply convert_ana_type_inv in Hst1.
    destruct Hst1 as (sub & c & _ & _ & ->).
    rewrite (IH _ H) by (intros Hin; apply Hk; right; exact Hin).
    cbn [fst]. apply get_set_other. intros E. apply Hk. left. exact E.
Qed.

Lemma convert_types_keys xs st st' :
  foldM step xs st = Ok st' ->
  NoDup (map fst xs) ->
  (forall x, In x xs -> ~ In (fst x) (Py.keys (fst st))) ->
  Py.keys (fst st') = Py.keys (fst st) ++ map fst xs.
Proof.
  revert st. induction xs as [| [ty envd] xs IH]; intros st H Hnd Hfresh.
  - injection H as <-. cbn [map]. rewrite app_nil_r. reflexivity.
  - cbn [foldM] in H. bind_as H st1 Hst1.
    apply convert_ana_type_inv in Hst1.
    destruct Hst1 as (sub & c & _ & _ & ->).
    inversion Hnd as [| ? ? Hx Hnd']; subst.
    rewrite (IH _ H Hnd'); cbn [fst].
    + rewrite set_fresh by (apply (Hfresh (ty, envd)); left; reflexivity).
      unfold Py.keys. rewrite map_app. cbn [map fst]. rewrite <- app_assoc.
      reflexivity.
    + intros y Hy Hin. apply keys_set_in in Hin. destruct Hin as [E | Hin].
      * apply Hx. rewrite <- E. apply in_map. exact Hy.
      * apply (Hfresh y); [right; exact Hy | exact Hin].
Qed.

Lemma convert_types_entries xs st st' ana_type sim_env_dict :
  foldM step xs st = Ok st' ->
  NoDup (map fst xs) ->
  In (ana_type, sim_env_dict) xs ->
  exists sub_ana_dict combined,
    foldM (convert_env ana_type) sim_env_dict [] = Ok sub_ana_dict /\
    combine_ana_sim_envs sub_ana_dict (Py.sorted (Py.keys sim_env_dict))
    = Ok combined /\
    Py.get (fst st') ana_type = Some combined.
Proof.
  revert st. induction xs as [| [ty envd] xs IH]; intros st H Hnd Hin;
    [destruct Hin |].
  cbn [foldM] in H. bind_as H st1 Hst1.
  inversion Hnd as [| ? ? Hx Hnd']; subst.
  destruct Hin as [E | Hin].
  - injection E as -> ->.
    apply convert_ana_type_inv in Hst1.
    destruct Hst1 as (sub & c & Hsub & Hc & ->).
    exists sub, c. repeat split; try assumption.
    rewrite (convert_types_frame _ _ _ _ H Hx). cbn [fst]. apply get_set_same.
  - apply (IH _ H Hnd' Hin).
Qed.

(** X20.  The assembler returns a result only when every group of every
    analysis type was converted.  The analysis types of the result are those
    of the input, in the same order; the entry of a type is what the
    combiner made of the converted groups of that type and of the sorted
    environment names of that very type; the converted groups are handed to
    the combiner under their environment names, in insertion order. *)
Theorem every_group_is_converted_then_combined
  (nb_data : Py.dict (Py.dict group)) (sd : SimData T) :
  convert_to_sim_data check_is_md combine_ana_sim_envs monte_carlo nb_data
    rtol atol = Ok sd ->
  NoDup (Py.keys nb_data) ->
  Py.keys (sim_ana_dict sd) = Py.keys nb_data /\
  forall ana_type sim_env_dict,
    In (ana_type, sim_env_dict) nb_data ->
    exists sub_ana_dict combined,
      Py.get (sim_ana_dict sd) ana_type = Some combined /\
      combine_ana_sim_envs sub_ana_dict (Py.sorted (Py.keys sim_env_dict))
      = Ok combined /\
      (forall sim_env nb_dict,
         In (sim_env, nb_dict) sim_env_dict ->
         exists a,
           convert_to_analysis_data check_is_md monte_carlo nb_dict rtol atol
             ana_type = Ok a /\
           (NoDup (Py.keys sim_env_dict) ->
            Py.get sub_ana_dict sim_env = Some a)) /\
      (NoDup (Py.keys sim_env_dict) ->
       Py.keys sub_ana_dict = Py.keys sim_env_dict).
Proof.
  unfold convert_to_sim_data. intros H Hnd.
  bind_as H st Hst. destruct st as [ana_dict envs]. injection H as <-.
  cbn [sim_ana_dict]. fold step in Hst.
  split.
  - apply (convert_types_keys _ _ _ Hst Hnd). intros x _ [].
  - intros ana_type sim_env_dict Hin.
    destruct (convert_types_entries _ _ _ _ _ Hst Hnd Hin)
      as (sub & c & Hsub & Hc & Hget).
    exists sub, c. split; [exact Hget |]. split; [exact Hc |]. split.
    + intros sim_env nb_dict Henv.
      destruct (in_split _ _ Henv) as (pre & post & Hsplit).
      destruct (foldM_set_entries fst
                  (fun env_nb : string * group =>
                     convert_to_analysis_data check_is_md monte_carlo
                       (snd env_nb) rtol atol ana_type)
                  (convert_env ana_type) (fun d x => eq_refl)
                  _ _ _ Hsub _ Henv) as [a Ha].
      exists a. split; [exact Ha |]. intros Hend.
      rewrite Hsplit in Hsub.
      destruct (foldM_set_last fst
                  (fun env_nb : string * group =>
                     convert_to_analysis_data check_is_md monte_carlo
                       (snd env_nb) rtol atol ana_type)
                  (convert_env ana_type) (fun d x => eq_refl)
                  _ _ _ _ _ Hsub) as (a' & Ha' & Hget').
      * intros y Hy E. unfold Py.keys in Hend. rewrite Hsplit, map_app in Hend.
        cbn [map] in Hend. apply NoDup_remove_2 in Hend. apply Hend.
        apply in_or_app. right. rewrite <- E. apply in_map. exact Hy.
      * cbn [fst snd] in Ha, Ha', Hget'. rewrite Ha in Ha'. injection Ha' as <-.
        exact Hget'.
    + intros Hend.
      apply (foldM_set_keys fst
               (fun env_nb : string * group =>
                  convert_to_analysis_data check_is_md monte_carlo
                    (snd env_nb) rtol atol ana_type)
               (convert_env ana_type) (fun d x => eq_refl) _ _ _ Hsub Hend).
      intros x _ [].
Qed.

End Assembler.

(** The theorem at the example with the analysis types "tran" and "ac". *)
Lemma every_group_witness :
  exists sd,
    convert_to_sim_data ex_corner_detector ex_combiner false ex_nb_data
      ex_tol ex_tol = Ok sd /\
    Py.keys (sim_ana_dict sd) = ["tran"; "ac"].
Proof.
  destruct (convert_to_sim_data ex_corner_detector ex_combiner false ex_nb_data
              ex_tol ex_tol) as [sd | e] eqn:E; [| vm_compute in E; discriminate E].
  exists sd. split; [reflexivity |].
  destruct (every_group_is_converted_then_combined ex_corner_detector ex_combiner
              false ex_tol ex_tol ex_nb_data sd E) as [Hkeys _].
  - repeat constructor; simpl; intuition discriminate.
  - exact Hkeys.
Defined.

(** ** The names of the sweep files *)

Section SweepFiles.

Variable parse_sweep_file : list string -> Py.dict Np.vec -> result string.
Variable cwd_path : string.
Variable data : Py.dict Np.vec.
Variable suf : string.

Local Abbreviation file_of :=
  (fun levels : list string =>
     parse_sweep_file [cwd_path; "sim.raw.psf"; sweep_file_name levels suf] data).

Lemma sweep_files_spec pending swp_vars result :
  sweep_files parse_sweep_file cwd_path data suf pending swp_vars = Ok result ->
  exists found,
    result = found ++ swp_vars /\
    length found = length pending /\
    forall k, k < length pending ->
      exists v, nth_error found k = Some v /\
                file_of (firstn (S k) (rev pending)) = Ok v.
Proof.
  revert swp_vars result.
  induction pending as [| p pending IH]; intros swp_vars result H.
  - injection H as <-. exists []. repeat split. intros k Hk. simpl in Hk. lia.
  - cbn [sweep_files] in H. bind_as H v0 Hv0.
    destruct (IH _ _ H) as (found & -> & Hlen & Hfound).
    exists (found ++ [v0]). split; [rewrite <- app_assoc; reflexivity |].
    split; [rewrite length_app; cbn [length]; lia |].
    intros k Hk. cbn [length] in Hk. cbn [rev].
    destruct (Nat.eq_dec k (length pending)) as [-> | Hne].
    + exists v0. split.
      * rewrite nth_error_app2 by lia. rewrite Hlen, Nat.sub_diag. reflexivity.
      * rewrite firstn_all2 by (rewrite length_app, length_rev; cbn [length]; lia).
        exact Hv0.
    + destruct (Hfound k ltac:(lia)) as (v & Hv & Hfile).
      exists v. split.
      * rewrite nth_error_app1 by lia. exact Hv.
      * rewrite firstn_app, length_rev.
        replace (S k - length pending) with 0 by lia.
        cbn [firstn]. rewrite app_nil_r. exact Hfile.
Qed.

(** X21.  [parse_sweep_info] returns one entry per sweep level, outermost
    first: entry [k] is what [parse_sweep_file] returns for the file
    [sim.raw.psf/<name>] in the working directory, [<name>] being the first
    [k + 1] levels joined by "-000_", then the suffix, then ".sweep". *)
Theorem one_sweep_file_per_level_outermost_first
  (swp_info : list string) (swp_vars : list string) :
  parse_sweep_info parse_sweep_file cwd_path swp_info data suf = Ok swp_vars ->
  length swp_vars = length swp_info /\
  forall k, k < length swp_info ->
    exists v,
      nth_error swp_vars k = Some v /\
      parse_sweep_file
        [cwd_path; "sim.raw.psf";
         (str_join "-000_" (firstn (S k) swp_info) ++ suf ++ ".sweep")%string]
        data = Ok v.
Proof.
  unfold parse_sweep_info. intros H.
  apply sweep_files_spec in H. destruct H as (found & -> & Hlen & Hfound).
  rewrite app_nil_r, length_rev in *. split; [exact Hlen |].
  intros k Hk. destruct (Hfound k Hk) as (v & Hv & Hfile).
  exists v. split; [exact Hv |].
  rewrite rev_involutive in Hfile. exact Hfile.
Qed.

End SweepFiles.

(** The theorem at two levels and a reader that returns the file name. *)
Lemma one_sweep_file_witness :
  exists v,
    nth_error ["swp00.ac.sweep"; "swp00-000_swp01.ac.sweep"] 1 = Some v /\
    v = "swp00-000_swp01.ac.sweep".
Proof.
  destruct (one_sweep_file_per_level_outermost_first
              (fun path _ => Ok (nth 2 path "")) "cwd" [] ".ac"
              ["swp00"; "swp01"] ["swp00.ac.sweep"; "swp00-000_swp01.ac.sweep"])
    as [_ Hfiles].
  - reflexivity.
  - destruct (Hfiles 1) as (v & Hv & Hfile); [simpl; lia |].
    exists v. split; [exact Hv |]. injection Hfile as <-. reflexivity.
Defined.
